(** * Environmental Analysis Dashboard: client-side orchestration and
      statistics formatting

    A shallow embedding of [static/app.js] (the layer orchestrator, kept in
    the repository snapshot next to the README) and of
    [static/apis_statistics.js] (the statistics formatters).

    Conventions of the embedding.
    - The seven layer identifiers are an enumeration; JavaScript objects
      indexed by a layer identifier are total functions from layers.
    - The page markup ([index.html]) is not part of the sources.  The
      document is taken to hold, for each layer, the toggle, the layer item
      with its status line, the statistics panel and its content box, plus
      the status container, the legend panel, the coordinate readout and the
      three parameter inputs, so that every [getElementById] and
      [querySelector] of the scripts finds its element.
    - A Number is an IEEE 754 binary64 value, held as a specification float
      of the Standard Library ([SpecFloat]); subtraction, division and
      multiplication are the correctly rounded operations of that library,
      and [toFixed] and the conversion to a string follow ECMAScript on the
      exact value of the double.
    - A [fetch] is an entry appended to the log [fetched]; the reply is an
      argument of the operation that awaits it.  An operation is embedded
      as one call run from its first statement to its last with nothing
      else running in between: the suspension at an [await], during which
      the browser may run another handler, is not represented.  The reply
      to a statistics request, which nobody awaits, is an event of its
      own. *)

From Stdlib Require Import String Ascii List ZArith QArith Qabs Qround Lia Bool DecimalString.
From Stdlib Require Import PrimFloat SpecFloat FloatOps.
Import ListNotations.

Set Warnings "-register-all,-inexact-float".

Local Open Scope list_scope.
Local Open Scope string_scope.

(* ================================================================== *)
(** * Layers *)

Inductive layer : Type :=
  | forest | wetland | tundra | grassland | algal_blooms | soil | chlorophyll.

(** The array literal ['forest', 'wetland', ...] used by every loop over
    the layers. *)
Definition validLayers : list layer :=
  [forest; wetland; tundra; grassland; algal_blooms; soil; chlorophyll].

Definition layer_eqb (a b : layer) : bool :=
  match a, b with
  | forest, forest | wetland, wetland | tundra, tundra
  | grassland, grassland | algal_blooms, algal_blooms
  | soil, soil | chlorophyll, chlorophyll => true
  | _, _ => false
  end.

Definition layer_name (l : layer) : string :=
  match l with
  | forest => "forest"
  | wetland => "wetland"
  | tundra => "tundra"
  | grassland => "grassland"
  | algal_blooms => "algal_blooms"
  | soil => "soil"
  | chlorophyll => "chlorophyll"
  end.

(** Assignment [obj[l] = v] on an object indexed by layers. *)
Definition upd {A : Type} (f : layer -> A) (l : layer) (v : A) : layer -> A :=
  fun l' => if layer_eqb l' l then v else f l'.

(* ================================================================== *)
(** * Strings and numbers of the host language *)

(** The double-quote character of the HTML attributes. *)
Definition dq : string := String "034"%char EmptyString.

Fixpoint prefixb (p s : string) : bool :=
  match p, s with
  | EmptyString, _ => true
  | String a p', String b s' => Ascii.eqb a b && prefixb p' s'
  | String _ _, EmptyString => false
  end.

(** [String.prototype.includes]. *)
Fixpoint includes (s sub : string) : bool :=
  prefixb sub s ||
  match s with
  | EmptyString => false
  | String _ s' => includes s' sub
  end.

Definition string_of_Z (z : Z) : string := NilZero.string_of_int (Z.to_int z).

Fixpoint zeros (n : nat) : string :=
  match n with
  | O => ""
  | S n' => String "0"%char (zeros n')
  end.

(** Decimal digits of [z >= 0], left-padded with zeros to width [w]. *)
Definition pad_digits (w : nat) (z : Z) : string :=
  let s := string_of_Z z in
  zeros (w - String.length s) ++ s.

(** The digits of [Number.prototype.toFixed(d)] for an exact value [x]
    below 10^21 in magnitude: the integer [n] with [n / 10^d] nearest to
    [|x|], the larger one at a tie, printed with [d] decimals; a negative
    [x] keeps its sign whatever [n] is.  No sign is printed for a positive
    number. *)
Definition toFixed (x : Q) (d : nat) : string :=
  let p := (10 ^ Z.of_nat d)%Z in
  let n := Qfloor (Qabs x * inject_Z p + (1 # 2))%Q in
  let body :=
    string_of_Z (n / p)%Z ++
    match d with
    | O => ""
    | S _ => "." ++ pad_digits d (n mod p)%Z
    end in
  if Qlt_le_dec x 0 then "-" ++ body else body.

(** A Number is an IEEE 754 binary64 value: a signed zero, a signed
    infinity, NaN, or a sign with a mantissa and a binary exponent.  (The
    type also holds mantissas and exponents outside binary64; JSON and the
    operations below produce none, and what is proved for every number
    holds for those as well.) *)
Definition number : Type := spec_float.

(** The Number a decimal literal denotes. *)
Definition dbl (f : float) : number := Prim2SF f.
Arguments dbl f%_float.

Definition js_sub (a b : number) : number := SFsub prec emax a b.
Definition js_div (a b : number) : number := SFdiv prec emax a b.
Definition js_mul (a b : number) : number := SFmul prec emax a b.

(** [m * 2^e] *)
Definition scaled (m : positive) (e : Z) : Q :=
  if (0 <=? e)%Z then inject_Z (Zpos m * 2 ^ e) else Zpos m # Z.to_pos (2 ^ (- e)).

Definition pow10 (n : Z) : Q :=
  if (0 <=? n)%Z then inject_Z (10 ^ n) else 1 # Z.to_pos (10 ^ (- n)).

(** The decimal exponent [n] of [v > 0]: [10^(n-1) <= v < 10^n]. *)
Fixpoint decimal_exponent (fuel : nat) (n : Z) (v : Q) : Z :=
  match fuel with
  | O => n
  | S fuel' =>
      if Qle_bool (pow10 n) v then decimal_exponent fuel' (n + 1) v
      else if Qle_bool (pow10 (n - 1)) v then n
      else decimal_exponent fuel' (n - 1) v
  end.

(** The decimals that read back as the double [m * 2^e]: those between the
    midpoints to its two neighbours, the midpoints included when [m] is
    even. *)
Definition reads_back (m : positive) (e : Z) (x : Q) : bool :=
  let v := scaled m e in
  let up := scaled 1 (e - 1) in
  let down := if (Pos.eqb m 4503599627370496 && (-1074 <? e)%Z)%bool
              then scaled 1 (e - 2) else up in
  if Z.even (Zpos m)
  then Qle_bool (v - down) x && Qle_bool x (v + up)
  else negb (Qle_bool x (v - down)) && negb (Qle_bool (v + up) x).

(** The digits [s] (there are [k] of them) and the exponent [n] such that
    [s * 10^(n-k)] reads back as the double, for the least [k]; of two such
    [s] the one nearer to the double. *)
Fixpoint shortest (fuel : nat) (k : Z) (n : Z) (m : positive) (e : Z) : Z * Z :=
  let v := scaled m e in
  let unit := pow10 (n - k) in
  let lo := Qfloor (v / unit) in
  let hi := (lo + 1)%Z in
  let ok_lo := reads_back m e (inject_Z lo * unit) in
  let ok_hi := reads_back m e (inject_Z hi * unit) in
  let nearer_lo := Qle_bool (v - inject_Z lo * unit) (inject_Z hi * unit - v) in
  let pick_hi := if (hi =? 10 ^ k)%Z then ((10 ^ (k - 1))%Z, (n + 1)%Z) else (hi, n) in
  match fuel with
  | O => (lo, n)
  | S fuel' =>
      if ok_lo && (negb ok_hi || nearer_lo) then (lo, n)
      else if ok_hi then pick_hi
      else shortest fuel' (k + 1) n m e
  end.

Definition substring_from (i : nat) (s : string) : string :=
  String.substring i (String.length s - i) s.

(** [Number::toString] of a positive finite double. *)
Definition positive_to_string (m : positive) (e : Z) : string :=
  let v := scaled m e in
  let '(s, n) := shortest 17 1 (decimal_exponent 8 ((Z.log2 (Zpos m) + e) * 30103 / 100000) v) m e in
  let digits := string_of_Z s in
  let k := Z.of_nat (String.length digits) in
  if ((k <=? n) && (n <=? 21))%Z then digits ++ zeros (Z.to_nat (n - k))
  else if ((0 <? n) && (n <=? 21))%Z then
    String.substring 0 (Z.to_nat n) digits ++ "." ++ substring_from (Z.to_nat n) digits
  else if ((-6 <? n) && (n <=? 0))%Z then "0." ++ zeros (Z.to_nat (- n)) ++ digits
  else
    let ex := (n - 1)%Z in
    let sgn := if (ex <? 0)%Z then "-" else "+" in
    String.substring 0 1 digits ++
    (if (k =? 1)%Z then "" else "." ++ substring_from 1 digits) ++
    "e" ++ sgn ++ string_of_Z (Z.abs ex).

(** [Number::toString]: the shortest decimal that reads back as the same
    double, written plainly when its exponent lies in -6 .. 21 and with an
    exponent otherwise. *)
Definition number_to_string (a : number) : string :=
  match a with
  | S754_nan => "NaN"
  | S754_zero _ => "0"
  | S754_infinity false => "Infinity"
  | S754_infinity true => "-Infinity"
  | S754_finite sign m e => (if sign then "-" else "") ++ positive_to_string m e
  end.

(** [Number.prototype.toFixed(d)]: NaN and the infinities print their
    names, a value of 10^21 or more prints as [toString] does, and any
    other value rounds its exact value to [d] decimals.  Both zeros print
    without a sign. *)
Definition number_toFixed (a : number) (d : nat) : string :=
  match a with
  | S754_finite sign m e =>
      if Qle_bool (pow10 21) (scaled m e) then number_to_string a
      else toFixed (if sign then - scaled m e else scaled m e)%Q d
  | S754_zero _ => toFixed 0 d
  | _ => number_to_string a
  end.

(** [parseInt(s)] on a string of an input element: leading white space,
    an optional sign, then the longest run of digits, hexadecimal ones
    after a prefix [0x] or [0X] and decimal ones otherwise; [None] is NaN.
    (The integer read is kept exact; the engine rounds one above 2^53 to a
    double.) *)
Definition digit_of (radix : Z) (c : ascii) : option Z :=
  let n := Z.of_nat (nat_of_ascii c) in
  let v :=
    if ((48 <=? n) && (n <=? 57))%Z then Some (n - 48)%Z
    else if ((97 <=? n) && (n <=? 122))%Z then Some (n - 87)%Z
    else if ((65 <=? n) && (n <=? 90))%Z then Some (n - 55)%Z
    else None in
  match v with
  | Some k => if (k <? radix)%Z then Some k else None
  | None => None
  end.

Fixpoint parse_digits (radix : Z) (s : string) (acc : option Z) : option Z :=
  match s with
  | EmptyString => acc
  | String c s' =>
      match digit_of radix c with
      | Some k =>
          parse_digits radix s'
            (Some (radix * match acc with Some a => a | None => 0 end + k)%Z)
      | None => acc
      end
  end.

Definition is_space (c : ascii) : bool :=
  let n := nat_of_ascii c in
  Nat.eqb n 32 || (Nat.leb 9 n && Nat.leb n 13).

Fixpoint skip_spaces (s : string) : string :=
  match s with
  | String c s' => if is_space c then skip_spaces s' else s
  | EmptyString => s
  end.

Definition parse_unsigned (s : string) : option Z :=
  match s with
  | String "0"%char (String "x"%char s') => parse_digits 16 s' None
  | String "0"%char (String "X"%char s') => parse_digits 16 s' None
  | _ => parse_digits 10 s None
  end.

Definition parseInt (s : string) : option Z :=
  match skip_spaces s with
  | String "-"%char s' => option_map Z.opp (parse_unsigned s')
  | String "+"%char s' => parse_unsigned s'
  | s' => parse_unsigned s'
  end.

(** [layerType.charAt(0).toUpperCase() + layerType.slice(1)]. *)
Definition upper_ascii (c : ascii) : ascii :=
  let n := nat_of_ascii c in
  if Nat.leb 97 n && Nat.leb n 122 then ascii_of_nat (n - 32) else c.

Definition capitalize (s : string) : string :=
  match s with
  | EmptyString => EmptyString
  | String c s' => String (upper_ascii c) s'
  end.

(* ================================================================== *)
(** * Exceptions *)

Inductive exn : Type :=
  | Error (message : string)       (* [new Error(message)], rejected fetch *)
  | TypeError (message : string).  (* raised by the engine *)

Definition exn_message (e : exn) : string :=
  match e with
  | Error m => m
  | TypeError m => m
  end.

Inductive result (A : Type) : Type :=
  | Ok (a : A)
  | Throw (e : exn).
Arguments Ok {A} a.
Arguments Throw {A} e.

Definition bind {A B : Type} (r : result A) (k : A -> result B) : result B :=
  match r with
  | Ok a => k a
  | Throw e => Throw e
  end.

Declare Scope js_scope.
Delimit Scope js_scope with js.
Notation "x <- e ;; k" := (bind e (fun x => k))
  (at level 61, e at next level, right associativity) : js_scope.
Local Open Scope js_scope.

(* ================================================================== *)
(** * Values decoded from JSON *)

(** A statistics record is whatever [response.json()] returns.  An object
    keeps its members in order; a key bound twice reads as its first
    binding. *)
Inductive json : Type :=
  | JNull
  | JBool (b : bool)
  | JNum (x : number)
  | JStr (s : string)
  | JArr (elems : list json)
  | JObj (members : list (string * json)).

(** The result of reading a property: [None] is [undefined]. *)
Definition value := option json.

Fixpoint assoc (k : string) (m : list (string * json)) : value :=
  match m with
  | [] => None
  | (k', v) :: m' => if String.eqb k k' then Some v else assoc k m'
  end.

(** Truthiness of a value in a condition. *)
Definition truthy (v : json) : bool :=
  match v with
  | JNull => false
  | JBool b => b
  | JNum (S754_zero _) => false
  | JNum S754_nan => false
  | JNum _ => true
  | JStr s => negb (String.eqb s "")
  | JArr _ => true
  | JObj _ => true
  end.

(** The value a truthiness test lets through: a falsy value and
    [undefined] both do not pass. *)
Definition if_truthy (o : value) : value :=
  match o with
  | Some v => if truthy v then Some v else None
  | None => None
  end.

(** [a || b]. *)
Definition js_or (a b : value) : value :=
  match if_truthy a with
  | Some v => Some v
  | None => b
  end.

(** [v.k] for a named statistics field [k]: [null] has no properties, an
    object is looked up, any other value has no such field. *)
Definition prop (v : json) (k : string) : result value :=
  match v with
  | JNull => Throw (TypeError ("Cannot read properties of null (reading '" ++ k ++ "')"))
  | JObj m => Ok (assoc k m)
  | _ => Ok None
  end.

(** [v[i]] on a truthy value. *)
Definition index (v : json) (i : nat) : value :=
  match v with
  | JArr l => nth_error l i
  | JObj m => assoc (NilZero.string_of_uint (Nat.to_uint i)) m
  | JStr s =>
      match String.get i s with
      | Some c => Some (JStr (String c EmptyString))
      | None => None
      end
  | _ => None
  end.

(** [Object.keys(v).length > 0] on a truthy value. *)
Definition has_keys (v : json) : bool :=
  match v with
  | JObj m => negb (Nat.eqb (List.length m) 0)
  | JArr l => negb (Nat.eqb (List.length l) 0)
  | JStr s => negb (String.eqb s "")
  | _ => false
  end.

(** String conversion of a value inside a concatenation. *)
Fixpoint to_string (v : json) : string :=
  match v with
  | JNull => "null"
  | JBool true => "true"
  | JBool false => "false"
  | JNum x => number_to_string x
  | JStr s => s
  | JArr l =>
      (fix join (l : list json) : string :=
         match l with
         | [] => ""
         | x :: r =>
             let sx := match x with JNull => "" | _ => to_string x end in
             match r with
             | [] => sx
             | _ :: _ => sx ++ "," ++ join r
             end
         end) l
  | JObj _ => "[object Object]"
  end.

(** The receiver of [.toFixed(d)] must be a number: [undefined] and [null]
    have no properties, and no other value has a [toFixed] method. *)
Definition number_receiver (o : value) : result number :=
  match o with
  | Some (JNum x) => Ok x
  | None => Throw (TypeError "Cannot read properties of undefined (reading 'toFixed')")
  | Some JNull => Throw (TypeError "Cannot read properties of null (reading 'toFixed')")
  | Some _ => Throw (TypeError "toFixed is not a function")
  end.

(** [v.toFixed(d)]. *)
Definition toFixed_js (v : json) (d : nat) : result string :=
  x <- number_receiver (Some v) ;; Ok (number_toFixed x d).

(** [v.toString()]. *)
Definition toString_js (v : json) : result string :=
  match v with
  | JNull => Throw (TypeError "Cannot read properties of null (reading 'toString')")
  | _ => Ok (to_string v)
  end.

(* ================================================================== *)
(** * Statistics formatter ([apis_statistics.js]) *)

(** The three shapes of markup the formatters emit. *)
Definition stat_item (label val : string) : string :=
  "<div class=" ++ dq ++ "stat-item" ++ dq ++ "><span class=" ++ dq ++ "stat-label" ++ dq ++ ">"
  ++ label ++ "</span><span class=" ++ dq ++ "stat-value" ++ dq ++ ">" ++ val ++ "</span></div>".

Definition stat_section_header (title : string) : string :=
  "<div class=" ++ dq ++ "stat-section-header" ++ dq ++ ">" ++ title ++ "</div>".

Definition stat_note (text : string) : string :=
  "<div class=" ++ dq ++ "stat-item" ++ dq ++ ">" ++ text ++ "</div>".

(** [content += ...] over a sequence of [if] blocks: each block yields the
    text it appends; the first block that throws aborts the function. *)
Fixpoint run_blocks (content : string) (blocks : list (result string)) : result string :=
  match blocks with
  | [] => Ok content
  | Ok s :: rest => run_blocks (content ++ s) rest
  | Throw e :: _ => Throw e
  end.

(** [if (x) { ... }] *)
Definition when_truthy (o : value) (body : json -> result string) : result string :=
  match if_truthy o with
  | Some v => body v
  | None => Ok ""
  end.

(** [if (x !== undefined) { ... }] *)
Definition when_defined (o : value) (body : json -> result string) : result string :=
  match o with
  | Some v => body v
  | None => Ok ""
  end.

(** [if (data.k) { ... data.k ... }] *)
Definition field_truthy (data : json) (k : string) (body : json -> result string) : result string :=
  o <- prop data k ;; when_truthy o body.

(** [if (data.k !== undefined) { ... data.k ... }] *)
Definition field_defined (data : json) (k : string) (body : json -> result string) : result string :=
  o <- prop data k ;; when_defined o body.

(** Row bodies: [label + v.toFixed(d) + unit], [label + v] and
    [label + v.toString()]. *)
Definition fixed_row (label : string) (d : nat) (unit_ : string) (v : json) : result string :=
  s <- toFixed_js v d ;; Ok (stat_item label (s ++ unit_)).

Definition text_row (label : string) (v : json) : result string :=
  Ok (stat_item label (to_string v)).

Definition tostring_row (label : string) (v : json) : result string :=
  s <- toString_js v ;; Ok (stat_item label s).

(** Each formatter returns the markup it assigns to the content box of its
    layer, or the exception that escapes it. *)
Definition displayForestStatistics (data : json) : result string :=
  if negb (truthy data) || negb (has_keys data) then
    Ok (stat_note "No statistics data available")
  else
    run_blocks (stat_section_header "🌲 Forest Analysis")
      [ field_truthy data "roi_area_km2" (fixed_row "ROI Area (km²):" 2 " km²");
        field_truthy data "roi_area_ha" (fixed_row "ROI Area (ha):" 2 " ha");
        field_truthy data "mean_NDVI" (fixed_row "Mean NDVI:" 4 "");
        field_truthy data "mean_NBR" (fixed_row "Mean NBR:" 4 "");
        field_truthy data "forest_classification" (text_row "Forest Classification:");
        field_truthy data "biomass_partitioning" (fun biomassPart =>
          run_blocks (stat_section_header "📏 Biomass Partitioning")
            [ field_defined biomassPart "aboveground_biomass_Mg_per_ha"
                (fixed_row "Aboveground Biomass:" 2 " Mg/ha");
              field_defined biomassPart "belowground_biomass_Mg_per_ha"
                (fixed_row "Belowground Biomass:" 2 " Mg/ha");
              field_defined biomassPart "total_biomass_Mg_per_ha"
                (fixed_row "Total Biomass per Hectare:" 2 " Mg/ha") ]);
        field_truthy data "biomass_estimation" (fun biomassEst =>
          run_blocks (stat_section_header "🌱 Biomass Estimation")
            [ field_defined biomassEst "average_biomass_Mg_per_ha"
                (fixed_row "Average Biomass per Hectare:" 2 " Mg/ha");
              field_defined biomassEst "total_biomass_Mg"
                (fixed_row "Total Biomass:" 2 " Mg") ]);
        field_truthy data "carbon_stock_estimation" (fun carbonStock =>
          run_blocks (stat_section_header "🌍 Carbon Stock")
            [ field_defined carbonStock "conversion_factor"
                (fixed_row "Conversion Factor:" 2 "");
              field_defined carbonStock "average_carbon_stock_MgC_per_ha"
                (fixed_row "Average Carbon Stock per Hectare:" 2 " MgC/ha");
              field_defined carbonStock "total_carbon_stock_MgC"
                (fixed_row "Total Carbon Stock:" 2 " MgC") ]);
        field_truthy data "co2_equivalent_estimation" (fun co2Eq =>
          run_blocks (stat_section_header "☁️ CO₂ Equivalent")
            [ field_defined co2Eq "conversion_factor"
                (fixed_row "Conversion Factor:" 2 "");
              field_defined co2Eq "total_co2_eq_Mg"
                (fixed_row "Total CO₂ Equivalent:" 2 " Mg") ]) ].

(** The row of the change-over-time section: start and end area, their
    difference, and the relative change in percent. *)
Definition wetland_change_row (changeData : json) : result string :=
  start_year <- prop changeData "start_year" ;;
  end_year <- prop changeData "end_year" ;;
  area <- prop changeData "wetland_area_ha" ;;
  match if_truthy start_year, if_truthy end_year, if_truthy area with
  | Some sy, Some ey, Some areas =>
      startArea <- number_receiver (index areas 0) ;;
      endArea <- number_receiver (index areas 1) ;;
      let changeHa := js_sub endArea startArea in
      let changePercent :=
        number_toFixed (js_mul (js_div changeHa startArea) (dbl 100)) 1 in
      Ok (stat_item "Wetland Area (ha):"
            (number_toFixed startArea 2 ++ " ha (" ++ to_string sy ++ ") → " ++
             number_toFixed endArea 2 ++ " ha (" ++ to_string ey ++ ") → " ++
             number_toFixed changeHa 2 ++ " ha (" ++ changePercent ++ "%)"))
  | _, _, _ => Ok ""
  end.

Definition displayWetlandStatistics (data : json) : result string :=
  if negb (truthy data) || negb (has_keys data) then
    Ok (stat_note "No statistics data available")
  else
    run_blocks (stat_section_header "🌊 Wetland Overview")
      [ (a <- prop data "roi_area_km2" ;; b <- prop data "area_km2" ;;
         when_truthy (js_or a b) (fixed_row "ROI Area (km²):" 2 " km²"));
        field_truthy data "roi_area_ha" (fixed_row "ROI Area (ha):" 2 " ha");
        field_truthy data "mean_ndwi" (fixed_row "Mean NDWI:" 3 "");
        field_truthy data "mean_mndwi" (fixed_row "Mean MNDWI:" 3 "");
        field_truthy data "wetland_class" (text_row "Wetland Class:");
        field_truthy data "water_frequency_index" (fun w =>
          x <- number_receiver (Some w) ;;
          Ok (stat_item "Water Frequency Index:"
                (number_toFixed x 2 ++ " (" ++ number_toFixed (js_mul x (dbl 100)) 0
                 ++ "% waterlogged)")));
        field_truthy data "change_over_time" (fun changeData =>
          run_blocks (stat_section_header "📈 Wetland Change Over Time")
            [ wetland_change_row changeData ]);
        field_truthy data "biomass_carbon" (fun bioCarbon =>
          run_blocks (stat_section_header "🪵 Biomass & Carbon Sequestration")
            [ field_defined bioCarbon "aboveground_biomass_Mg_per_ha"
                (fixed_row "Aboveground Biomass:" 2 " Mg/ha");
              field_defined bioCarbon "total_carbon_stock_MgC"
                (fixed_row "Total Carbon Stock (MgC):" 2 " MgC");
              field_defined bioCarbon "co2_equivalent_MgCO2e"
                (fixed_row "CO₂ Equivalent:" 2 " MgCO₂e") ]) ].

Definition displayTundraStatistics (data : json) : result string :=
  run_blocks (stat_section_header "🏔️ Tundra Analysis")
    [ field_truthy data "roi_area_km2" (fixed_row "Total ROI Area:" 2 " km²");
      field_truthy data "analysis_method" (text_row "Analysis Method:");
      (total <- prop data "total_tundra_area_km2" ;;
       coverage <- prop data "tundra_coverage_percent" ;;
       match total, coverage with
       | Some t, Some c =>
           run_blocks (stat_section_header "🌡️ Tundra Coverage")
             [ fixed_row "Total Tundra Area:" 2 " km²" t;
               fixed_row "Tundra Coverage:" 1 "%" c;
               field_truthy data "dominant_tundra_type" (text_row "Dominant Type:") ]
       | _, _ => Ok ""
       end);
      field_truthy data "class_areas_km2" (fun classAreas =>
        run_blocks (stat_section_header "📊 Class Distribution")
          [ field_defined classAreas "arctic_tundra" (fixed_row "Arctic Tundra:" 2 " km²");
            field_defined classAreas "alpine_tundra" (fixed_row "Alpine Tundra:" 2 " km²");
            field_defined classAreas "wet_tundra" (fixed_row "Wet Tundra:" 2 " km²");
            field_defined classAreas "shrub_dry_tundra"
              (fixed_row "Shrub/Dry Tundra:" 2 " km²") ]);
      field_truthy data "environmental_indicators" (fun env =>
        run_blocks (stat_section_header "🌍 Environmental Indicators")
          [ field_defined env "mean_temperature_celsius"
              (fixed_row "Mean Temperature:" 1 " °C");
            field_defined env "mean_ndvi" (fixed_row "Mean NDVI:" 2 "");
            field_defined env "permafrost_probability"
              (fixed_row "Permafrost Probability:" 2 "") ]) ].

(** [data.grassland_analysis && data.grassland_analysis.k] *)
Definition grassland_field (data : json) (k : string) (body : json -> result string)
  : result string :=
  field_truthy data "grassland_analysis" (fun ga => field_truthy ga k body).

Definition displayGrasslandStatistics (data : json) : result string :=
  run_blocks (stat_section_header "🌾 Grassland Analysis")
    [ grassland_field data "roi_area_km2" (fixed_row "ROI Area (km²):" 2 " km²");
      grassland_field data "roi_area_hectares" (fixed_row "ROI Area (ha):" 2 " ha");
      grassland_field data "mean_ndvi" (fixed_row "Mean NDVI:" 3 "");
      grassland_field data "vegetation_classification" (fun vegClass =>
        run_blocks (stat_section_header "📊 Vegetation Classification")
          [ field_defined vegClass "non_vegetation_area_ha"
              (fixed_row "Non-Vegetation Area:" 2 " ha");
            field_defined vegClass "grassland_area_ha"
              (fixed_row "Grassland Area:" 2 " ha");
            field_defined vegClass "savanna_area_ha"
              (fixed_row "Savanna Area:" 2 " ha");
            field_defined vegClass "dense_vegetation_area_ha"
              (fixed_row "Dense Vegetation Area:" 2 " ha") ]);
      grassland_field data "carbon_estimation" (fun carbonEst =>
        run_blocks (stat_section_header "🌍 Carbon Estimation")
          [ field_defined carbonEst "total_biomass_Mg"
              (fixed_row "Total Biomass:" 2 " Mg");
            field_defined carbonEst "total_carbon_stock_MgC"
              (fixed_row "Total Carbon Stock:" 2 " MgC");
            field_defined carbonEst "co2_equivalent_MgCO2e"
              (fixed_row "CO₂ Equivalent:" 2 " MgCO₂e") ]);
      field_truthy data "methodology" (fun methodology =>
        run_blocks (stat_section_header "⚙️ Methodology")
          [ field_truthy methodology "approach" (text_row "Approach:");
            field_truthy methodology "data_source" (text_row "Data Source:") ]) ].

Definition displayAlgalBloomsStatistics (data : json) : result string :=
  run_blocks (stat_section_header "🌊 Algal Blooms Analysis")
    [ field_truthy data "roi_area_sq_km" (fixed_row "ROI Area:" 2 " km²");
      field_truthy data "mean_ndci" (fixed_row "Mean NDCI:" 2 "");
      field_defined data "bloom_detected" (tostring_row "Bloom Detected:");
      field_truthy data "severity_level" (text_row "Severity Level:");
      field_truthy data "bloom_extent_sq_km" (fixed_row "Bloom Extent:" 2 " km²");
      field_truthy data "classification_by_area_ha" (fun classData =>
        run_blocks (stat_section_header "📊 Classification by Area")
          [ field_defined classData "no_bloom_ha" (fixed_row "No Bloom:" 2 " ha");
            field_defined classData "low_bloom_ha" (fixed_row "Low Bloom:" 2 " ha");
            field_defined classData "moderate_bloom_ha"
              (fixed_row "Moderate Bloom:" 2 " ha");
            field_defined classData "severe_bloom_ha"
              (fixed_row "Severe Bloom:" 2 " ha") ]);
      field_truthy data "water_quality_indicators" (fun wq =>
        run_blocks (stat_section_header "💧 Water Quality Indicators")
          [ field_truthy wq "chlorophyll_indicator" (text_row "Chlorophyll Indicator:");
            field_truthy wq "turbidity_level" (text_row "Turbidity Level:") ]) ].

Definition displaySoilStatistics (data : json) : result string :=
  run_blocks (stat_section_header "🌍 Soil Moisture Analysis")
    [ field_truthy data "roi_area_km2" (fixed_row "ROI Area:" 2 " km²");
      field_truthy data "soil_moisture_index" (fixed_row "Soil Moisture Index:" 2 "");
      field_truthy data "soil_moisture_level" (text_row "Moisture Level:");
      field_truthy data "vegetation_index_ndvi"
        (fixed_row "Vegetation Index (NDVI):" 3 "");
      field_truthy data "water_index_ndwi" (fixed_row "Water Index (NDWI):" 3 "");
      field_truthy data "land_surface_temperature_c"
        (fixed_row "Land Surface Temperature:" 1 " °C");
      field_truthy data "data_availability" (fun avail =>
        run_blocks (stat_section_header "📊 Data Availability")
          [ field_defined avail "sentinel2_available"
              (tostring_row "Sentinel-2 Available:");
            field_defined avail "modis_lst_available"
              (tostring_row "MODIS LST Available:") ]) ].

Definition displayChlorophyllStatistics (data : json) : result string :=
  run_blocks (stat_section_header "🌊 Chlorophyll Analysis")
    [ field_truthy data "roi_area_km2" (fixed_row "Total ROI Area:" 2 " km²");
      field_truthy data "land_area_km2" (fixed_row "Land Area:" 2 " km²");
      field_truthy data "ocean_area_km2" (fixed_row "Ocean Area:" 2 " km²");
      field_truthy data "ocean_coverage_percent" (fixed_row "Ocean Coverage:" 1 "%");
      field_truthy data "mean_chlorophyll_mg_m3"
        (fixed_row "Mean Chlorophyll-a:" 2 " mg/m³");
      field_truthy data "trophic_status" (text_row "Trophic Status:");
      field_truthy data "water_quality_assessment" (text_row "Water Quality:");
      field_truthy data "bloom_risk" (text_row "Bloom Risk:");
      field_defined data "analysis_applicable" (tostring_row "Analysis Applicable:");
      field_truthy data "recommendation" (text_row "Recommendation:");
      field_truthy data "data_source" (fun src =>
        run_blocks (stat_section_header "📊 Data Source" ++
                    stat_item "Satellite Source:" (to_string src))
          [ field_truthy data "images_processed" (text_row "Images Processed:") ]) ].

(** [displayStatistics]: the table of display functions has an entry for
    every layer, so only the test on [data] remains. *)
(** [displayStatistics]: the markup that the formatter of the layer writes
    into the box it names ([formatterBox]), or the exception it throws
    before writing anything.  For a falsy record, which [loadStatistics]
    never passes on, it is the note written into the box of the loader. *)
Definition displayStatistics (layerType : layer) (data : json) : result string :=
  if truthy data then
    match layerType with
    | forest => displayForestStatistics data
    | wetland => displayWetlandStatistics data
    | tundra => displayTundraStatistics data
    | grassland => displayGrasslandStatistics data
    | algal_blooms => displayAlgalBloomsStatistics data
    | soil => displaySoilStatistics data
    | chlorophyll => displayChlorophyllStatistics data
    end
  else Ok (stat_note "No display function or data available").

(* ================================================================== *)
(** * Backend gateway: requests and replies *)

(** A vertex of the drawn shape, as Leaflet reports it. *)
Record latlng : Type := { lat : number; lng : number }.

(** What [fetch] was called with.  A resolution that [parseInt] could not
    read is NaN, which [JSON.stringify] writes as [null]. *)
Inductive request : Type :=
  | PostSetupRoi (coordinates : list (number * number)) (start_date end_date : string)
                 (resolution : option Z)
  | PostAnalyzeLayer (layer_type : layer) (start_date end_date : string)
                     (resolution : option Z)
  | GetMapUrl (l : layer)
  | GetLegend (l : layer)
  | GetStatistics (l : layer).

(** What a [fetch] comes back with: the promise rejects, or a response
    arrives whose [json()] yields a body or rejects in turn. *)
Inductive reply (B : Type) : Type :=
  | Rejected (e : exn)
  | Response (ok : bool) (status : Z) (body : result B).
Arguments Rejected {B} e.
Arguments Response {B} ok status body.

(** Body of [/api/setup-roi] and of its error replies. *)
Record setup_body : Type :=
  { sb_status : option string; sb_detail : option string; sb_area_km2 : option number }.

(** Body of [/api/analyze-layer] and of its error replies. *)
Record analyze_body : Type :=
  { ab_status : option string; ab_detail : option string }.

(** Body of [/api/{layer}/map-url]; the reply as a whole may be [null]. *)
Record map_url_body : Type := { tile_url : option string }.

Record legend_item : Type := { color : string; label : string }.

Record legend_info : Type :=
  { title : string; type : string; items : list legend_item;
    methodology : option string }.

(** Body of [/api/legends/{layer}]: legend descriptors by key. *)
Definition legend_body : Type := list (string * legend_info).

Fixpoint legend_lookup (k : string) (m : legend_body) : option legend_info :=
  match m with
  | [] => None
  | (k', v) :: m' => if String.eqb k k' then Some v else legend_lookup k m'
  end.

(** The replies awaited by one [setupROI] and by one [analyzeLayer]. *)
Record setup_replies : Type :=
  { sr_setup : reply setup_body;
    sr_map : reply (option map_url_body);
    sr_legend : reply (option legend_body) }.

Record analysis_replies : Type :=
  { ar_analyze : reply analyze_body;
    ar_map : reply (option map_url_body);
    ar_legend : reply (option legend_body) }.

(** [x || fallback] on an optional string: the empty string is falsy. *)
Definition str_or (x : option string) (fallback : string) : string :=
  match x with
  | Some s => if String.eqb s "" then fallback else s
  | None => fallback
  end.

(** An overlay made by [L.tileLayer]; the stamp is the identity of the
    object, by which the map knows its layers. *)
Record tile_layer : Type :=
  { stamp : nat; url_template : string; attribution : string }.

(* ================================================================== *)
(** * Application state ([app.js]) *)

(** The module-level variables, the overlays on the map, the parts of the
    document the scripts read and write, and the traffic with the backend. *)
Record state : Type := mkState
  { currentPolygon : option (list latlng);  (* the drawn shape, [null] when there is none *)
    analysisLayers : layer -> option tile_layer;  (* overlay cache *)
    legendData : layer -> option legend_body;  (* legend cache *)
    roiSetup : bool;
    layersAnalyzed : layer -> bool;  (* a missing key reads as falsy *)
    currentActiveLayer : layer;
    mapLayers : list nat;  (* stamps of the overlays attached to the map *)
    nextStamp : nat;  (* stamp of the next object created *)
    toggleChecked : layer -> bool;
    toggleDisabled : layer -> bool;
    layerStatus : layer -> string;  (* text of [.layer-status] *)
    itemActive : layer -> bool;  (* class [active] of the layer item *)
    itemAnalyzing : layer -> bool;  (* class [analyzing] of the layer item *)
    panelActive : layer -> bool;  (* class [active] of the statistics panel *)
    statsContent : string -> string;  (* markup of the content boxes, by element id *)
    statusContainer : string;  (* markup of the status container *)
    legendHtml : string;  (* markup of the legend panel *)
    legendDisplay : string;  (* [style.display] of the legend panel *)
    coordinatesDisplay : string;
    startDate : string;  (* value of the start date input *)
    endDate : string;  (* value of the end date input *)
    resolutionSelect : string;  (* value of the resolution select *)
    fetched : list request;  (* every request issued so far, oldest first *)
    pendingStats : list layer }.

(** Assignment to one component. *)
Definition set_currentPolygon (v : option (list latlng)) (s : state) : state :=
  mkState v (analysisLayers s) (legendData s) (roiSetup s) (layersAnalyzed s)
    (currentActiveLayer s) (mapLayers s) (nextStamp s) (toggleChecked s)
    (toggleDisabled s) (layerStatus s) (itemActive s) (itemAnalyzing s)
    (panelActive s) (statsContent s) (statusContainer s) (legendHtml s)
    (legendDisplay s) (coordinatesDisplay s) (startDate s) (endDate s)
    (resolutionSelect s) (fetched s) (pendingStats s).
Definition set_analysisLayers (v : layer -> option tile_layer) (s : state) : state :=
  mkState (currentPolygon s) v (legendData s) (roiSetup s) (layersAnalyzed s)
    (currentActiveLayer s) (mapLayers s) (nextStamp s) (toggleChecked s)
    (toggleDisabled s) (layerStatus s) (itemActive s) (itemAnalyzing s)
    (panelActive s) (statsContent s) (statusContainer s) (legendHtml s)
    (legendDisplay s) (coordinatesDisplay s) (startDate s) (endDate s)
    (resolutionSelect s) (fetched s) (pendingStats s).
Definition set_legendData (v : layer -> option legend_body) (s : state) : state :=
  mkState (currentPolygon s) (analysisLayers s) v (roiSetup s) (layersAnalyzed
    s) (currentActiveLayer s) (mapLayers s) (nextStamp s) (toggleChecked s)
    (toggleDisabled s) (layerStatus s) (itemActive s) (itemAnalyzing s)
    (panelActive s) (statsContent s) (statusContainer s) (legendHtml s)
    (legendDisplay s) (coordinatesDisplay s) (startDate s) (endDate s)
    (resolutionSelect s) (fetched s) (pendingStats s).
Definition set_roiSetup (v : bool) (s : state) : state :=
  mkState (currentPolygon s) (analysisLayers s) (legendData s) v
    (layersAnalyzed s) (currentActiveLayer s) (mapLayers s) (nextStamp s)
    (toggleChecked s) (toggleDisabled s) (layerStatus s) (itemActive s)
    (itemAnalyzing s) (panelActive s) (statsContent s) (statusContainer s)
    (legendHtml s) (legendDisplay s) (coordinatesDisplay s) (startDate s)
    (endDate s) (resolutionSelect s) (fetched s) (pendingStats s).
Definition set_layersAnalyzed (v : layer -> bool) (s : state) : state :=
  mkState (currentPolygon s) (analysisLayers s) (legendData s) (roiSetup s) v
    (currentActiveLayer s) (mapLayers s) (nextStamp s) (toggleChecked s)
    (toggleDisabled s) (layerStatus s) (itemActive s) (itemAnalyzing s)
    (panelActive s) (statsContent s) (statusContainer s) (legendHtml s)
    (legendDisplay s) (coordinatesDisplay s) (startDate s) (endDate s)
    (resolutionSelect s) (fetched s) (pendingStats s).
Definition set_currentActiveLayer (v : layer) (s : state) : state :=
  mkState (currentPolygon s) (analysisLayers s) (legendData s) (roiSetup s)
    (layersAnalyzed s) v (mapLayers s) (nextStamp s) (toggleChecked s)
    (toggleDisabled s) (layerStatus s) (itemActive s) (itemAnalyzing s)
    (panelActive s) (statsContent s) (statusContainer s) (legendHtml s)
    (legendDisplay s) (coordinatesDisplay s) (startDate s) (endDate s)
    (resolutionSelect s) (fetched s) (pendingStats s).
Definition set_mapLayers (v : list nat) (s : state) : state :=
  mkState (currentPolygon s) (analysisLayers s) (legendData s) (roiSetup s)
    (layersAnalyzed s) (currentActiveLayer s) v (nextStamp s) (toggleChecked
    s) (toggleDisabled s) (layerStatus s) (itemActive s) (itemAnalyzing s)
    (panelActive s) (statsContent s) (statusContainer s) (legendHtml s)
    (legendDisplay s) (coordinatesDisplay s) (startDate s) (endDate s)
    (resolutionSelect s) (fetched s) (pendingStats s).
Definition set_nextStamp (v : nat) (s : state) : state :=
  mkState (currentPolygon s) (analysisLayers s) (legendData s) (roiSetup s)
    (layersAnalyzed s) (currentActiveLayer s) (mapLayers s) v (toggleChecked
    s) (toggleDisabled s) (layerStatus s) (itemActive s) (itemAnalyzing s)
    (panelActive s) (statsContent s) (statusContainer s) (legendHtml s)
    (legendDisplay s) (coordinatesDisplay s) (startDate s) (endDate s)
    (resolutionSelect s) (fetched s) (pendingStats s).
Definition set_toggleChecked (v : layer -> bool) (s : state) : state :=
  mkState (currentPolygon s) (analysisLayers s) (legendData s) (roiSetup s)
    (layersAnalyzed s) (currentActiveLayer s) (mapLayers s) (nextStamp s) v
    (toggleDisabled s) (layerStatus s) (itemActive s) (itemAnalyzing s)
    (panelActive s) (statsContent s) (statusContainer s) (legendHtml s)
    (legendDisplay s) (coordinatesDisplay s) (startDate s) (endDate s)
    (resolutionSelect s) (fetched s) (pendingStats s).
Definition set_toggleDisabled (v : layer -> bool) (s : state) : state :=
  mkState (currentPolygon s) (analysisLayers s) (legendData s) (roiSetup s)
    (layersAnalyzed s) (currentActiveLayer s) (mapLayers s) (nextStamp s)
    (toggleChecked s) v (layerStatus s) (itemActive s) (itemAnalyzing s)
    (panelActive s) (statsContent s) (statusContainer s) (legendHtml s)
    (legendDisplay s) (coordinatesDisplay s) (startDate s) (endDate s)
    (resolutionSelect s) (fetched s) (pendingStats s).
Definition set_layerStatus (v : layer -> string) (s : state) : state :=
  mkState (currentPolygon s) (analysisLayers s) (legendData s) (roiSetup s)
    (layersAnalyzed s) (currentActiveLayer s) (mapLayers s) (nextStamp s)
    (toggleChecked s) (toggleDisabled s) v (itemActive s) (itemAnalyzing s)
    (panelActive s) (statsContent s) (statusContainer s) (legendHtml s)
    (legendDisplay s) (coordinatesDisplay s) (startDate s) (endDate s)
    (resolutionSelect s) (fetched s) (pendingStats s).
Definition set_itemActive (v : layer -> bool) (s : state) : state :=
  mkState (currentPolygon s) (analysisLayers s) (legendData s) (roiSetup s)
    (layersAnalyzed s) (currentActiveLayer s) (mapLayers s) (nextStamp s)
    (toggleChecked s) (toggleDisabled s) (layerStatus s) v (itemAnalyzing s)
    (panelActive s) (statsContent s) (statusContainer s) (legendHtml s)
    (legendDisplay s) (coordinatesDisplay s) (startDate s) (endDate s)
    (resolutionSelect s) (fetched s) (pendingStats s).
Definition set_itemAnalyzing (v : layer -> bool) (s : state) : state :=
  mkState (currentPolygon s) (analysisLayers s) (legendData s) (roiSetup s)
    (layersAnalyzed s) (currentActiveLayer s) (mapLayers s) (nextStamp s)
    (toggleChecked s) (toggleDisabled s) (layerStatus s) (itemActive s) v
    (panelActive s) (statsContent s) (statusContainer s) (legendHtml s)
    (legendDisplay s) (coordinatesDisplay s) (startDate s) (endDate s)
    (resolutionSelect s) (fetched s) (pendingStats s).
Definition set_panelActive (v : layer -> bool) (s : state) : state :=
  mkState (currentPolygon s) (analysisLayers s) (legendData s) (roiSetup s)
    (layersAnalyzed s) (currentActiveLayer s) (mapLayers s) (nextStamp s)
    (toggleChecked s) (toggleDisabled s) (layerStatus s) (itemActive s)
    (itemAnalyzing s) v (statsContent s) (statusContainer s) (legendHtml s)
    (legendDisplay s) (coordinatesDisplay s) (startDate s) (endDate s)
    (resolutionSelect s) (fetched s) (pendingStats s).
Definition set_statsContent (v : string -> string) (s : state) : state :=
  mkState (currentPolygon s) (analysisLayers s) (legendData s) (roiSetup s)
    (layersAnalyzed s) (currentActiveLayer s) (mapLayers s) (nextStamp s)
    (toggleChecked s) (toggleDisabled s) (layerStatus s) (itemActive s)
    (itemAnalyzing s) (panelActive s) v (statusContainer s) (legendHtml s)
    (legendDisplay s) (coordinatesDisplay s) (startDate s) (endDate s)
    (resolutionSelect s) (fetched s) (pendingStats s).
Definition set_statusContainer (v : string) (s : state) : state :=
  mkState (currentPolygon s) (analysisLayers s) (legendData s) (roiSetup s)
    (layersAnalyzed s) (currentActiveLayer s) (mapLayers s) (nextStamp s)
    (toggleChecked s) (toggleDisabled s) (layerStatus s) (itemActive s)
    (itemAnalyzing s) (panelActive s) (statsContent s) v (legendHtml s)
    (legendDisplay s) (coordinatesDisplay s) (startDate s) (endDate s)
    (resolutionSelect s) (fetched s) (pendingStats s).
Definition set_legendHtml (v : string) (s : state) : state :=
  mkState (currentPolygon s) (analysisLayers s) (legendData s) (roiSetup s)
    (layersAnalyzed s) (currentActiveLayer s) (mapLayers s) (nextStamp s)
    (toggleChecked s) (toggleDisabled s) (layerStatus s) (itemActive s)
    (itemAnalyzing s) (panelActive s) (statsContent s) (statusContainer s) v
    (legendDisplay s) (coordinatesDisplay s) (startDate s) (endDate s)
    (resolutionSelect s) (fetched s) (pendingStats s).
Definition set_legendDisplay (v : string) (s : state) : state :=
  mkState (currentPolygon s) (analysisLayers s) (legendData s) (roiSetup s)
    (layersAnalyzed s) (currentActiveLayer s) (mapLayers s) (nextStamp s)
    (toggleChecked s) (toggleDisabled s) (layerStatus s) (itemActive s)
    (itemAnalyzing s) (panelActive s) (statsContent s) (statusContainer s)
    (legendHtml s) v (coordinatesDisplay s) (startDate s) (endDate s)
    (resolutionSelect s) (fetched s) (pendingStats s).
Definition set_coordinatesDisplay (v : string) (s : state) : state :=
  mkState (currentPolygon s) (analysisLayers s) (legendData s) (roiSetup s)
    (layersAnalyzed s) (currentActiveLayer s) (mapLayers s) (nextStamp s)
    (toggleChecked s) (toggleDisabled s) (layerStatus s) (itemActive s)
    (itemAnalyzing s) (panelActive s) (statsContent s) (statusContainer s)
    (legendHtml s) (legendDisplay s) v (startDate s) (endDate s)
    (resolutionSelect s) (fetched s) (pendingStats s).
Definition set_startDate (v : string) (s : state) : state :=
  mkState (currentPolygon s) (analysisLayers s) (legendData s) (roiSetup s)
    (layersAnalyzed s) (currentActiveLayer s) (mapLayers s) (nextStamp s)
    (toggleChecked s) (toggleDisabled s) (layerStatus s) (itemActive s)
    (itemAnalyzing s) (panelActive s) (statsContent s) (statusContainer s)
    (legendHtml s) (legendDisplay s) (coordinatesDisplay s) v (endDate s)
    (resolutionSelect s) (fetched s) (pendingStats s).
Definition set_endDate (v : string) (s : state) : state :=
  mkState (currentPolygon s) (analysisLayers s) (legendData s) (roiSetup s)
    (layersAnalyzed s) (currentActiveLayer s) (mapLayers s) (nextStamp s)
    (toggleChecked s) (toggleDisabled s) (layerStatus s) (itemActive s)
    (itemAnalyzing s) (panelActive s) (statsContent s) (statusContainer s)
    (legendHtml s) (legendDisplay s) (coordinatesDisplay s) (startDate s) v
    (resolutionSelect s) (fetched s) (pendingStats s).
Definition set_resolutionSelect (v : string) (s : state) : state :=
  mkState (currentPolygon s) (analysisLayers s) (legendData s) (roiSetup s)
    (layersAnalyzed s) (currentActiveLayer s) (mapLayers s) (nextStamp s)
    (toggleChecked s) (toggleDisabled s) (layerStatus s) (itemActive s)
    (itemAnalyzing s) (panelActive s) (statsContent s) (statusContainer s)
    (legendHtml s) (legendDisplay s) (coordinatesDisplay s) (startDate s)
    (endDate s) v (fetched s) (pendingStats s).
Definition set_fetched (v : list request) (s : state) : state :=
  mkState (currentPolygon s) (analysisLayers s) (legendData s) (roiSetup s)
    (layersAnalyzed s) (currentActiveLayer s) (mapLayers s) (nextStamp s)
    (toggleChecked s) (toggleDisabled s) (layerStatus s) (itemActive s)
    (itemAnalyzing s) (panelActive s) (statsContent s) (statusContainer s)
    (legendHtml s) (legendDisplay s) (coordinatesDisplay s) (startDate s)
    (endDate s) (resolutionSelect s) v (pendingStats s).
Definition set_pendingStats (v : list layer) (s : state) : state :=
  mkState (currentPolygon s) (analysisLayers s) (legendData s) (roiSetup s)
    (layersAnalyzed s) (currentActiveLayer s) (mapLayers s) (nextStamp s)
    (toggleChecked s) (toggleDisabled s) (layerStatus s) (itemActive s)
    (itemAnalyzing s) (panelActive s) (statsContent s) (statusContainer s)
    (legendHtml s) (legendDisplay s) (coordinatesDisplay s) (startDate s)
    (endDate s) (resolutionSelect s) (fetched s) v.

(** An operation ends in a state and, possibly, an exception that nothing
    caught. *)
Definition outcome : Type := (state * option exn)%type.

(** [try { body } catch (error) { handler }]: what the body changed before
    it threw stays changed. *)
Definition try_catch (body : state -> outcome) (handler : exn -> state -> outcome)
                     (s : state) : outcome :=
  match body s with
  | (s', None) => (s', None)
  | (s', Some e) => handler e s'
  end.

(** [fetch(...)]: the request goes out. *)
Definition fetch (r : request) (s : state) : state :=
  set_fetched (fetched s ++ [r])%list s.

(** ** Leaflet map *)

Definition hasLayer (t : tile_layer) (s : state) : bool :=
  existsb (Nat.eqb (stamp t)) (mapLayers s).

Definition removeLayer (t : tile_layer) (s : state) : state :=
  set_mapLayers (filter (fun k => negb (Nat.eqb (stamp t) k)) (mapLayers s)) s.

Definition addTo (t : tile_layer) (s : state) : state :=
  if hasLayer t s then s else set_mapLayers (mapLayers s ++ [stamp t])%list s.

(** [L.tileLayer(url, {attribution})]: a new object. *)
Definition tileLayer (url attr : string) (s : state) : tile_layer * state :=
  ({| stamp := nextStamp s; url_template := url; attribution := attr |},
   set_nextStamp (S (nextStamp s)) s).

(** ** Status reporter *)

Definition validTypes : list string := ["success"; "error"; "loading"; "warning"].

Definition showStatus (message type_ : string) (s : state) : state :=
  let type1 := if String.eqb type_ "" then "loading" else type_ in
  let safeType := if existsb (String.eqb type1) validTypes then type1 else "loading" in
  set_statusContainer
    ("<div class=" ++ dq ++ "status " ++ safeType ++ dq ++ ">" ++ message ++ "</div>") s.

Definition clearStatus (s : state) : state := set_statusContainer "" s.

Definition updateLayerStatus (layerType : layer) (status : string) (s : state) : state :=
  set_layerStatus (upd (layerStatus s) layerType status) s.

(** ** Legend renderer *)

Definition is_hex_digit (c : ascii) : bool :=
  let n := nat_of_ascii c in
  (Nat.leb 48 n && Nat.leb n 57) || (Nat.leb 65 n && Nat.leb n 70)
  || (Nat.leb 97 n && Nat.leb n 102).

Fixpoint all_hex (s : string) : bool :=
  match s with
  | EmptyString => true
  | String c s' => is_hex_digit c && all_hex s'
  end.

(** [/^#[0-9A-F]{6}$/i.test(c)] *)
Definition colorPattern_test (c : string) : bool :=
  match c with
  | String "#"%char rest => Nat.eqb (String.length rest) 6 && all_hex rest
  | _ => false
  end.

Definition legend_item_html (item : legend_item) : string :=
  let safeColor := if colorPattern_test (color item) then color item else "#cccccc" in
  "<div class=" ++ dq ++ "legend-item" ++ dq ++ ">" ++
  "<div class=" ++ dq ++ "legend-color" ++ dq ++ " style=" ++ dq ++ "background-color: "
  ++ safeColor ++ ";" ++ dq ++ "></div>" ++
  "<span class=" ++ dq ++ "legend-label" ++ dq ++ ">" ++ label item ++ "</span>" ++
  "</div>".

Definition legend_html (legendInfo : legend_info) : string :=
  let html0 := "<div class=" ++ dq ++ "legend-title" ++ dq ++ ">" ++ title legendInfo ++ "</div>" in
  let html1 :=
    if String.eqb (type legendInfo) "classification"
    then fold_left (fun h item => h ++ legend_item_html item) (items legendInfo) html0
    else html0 in
  match methodology legendInfo with
  | Some m =>
      if String.eqb m "" then html1
      else html1 ++ "<div class=" ++ dq ++ "legend-description" ++ dq ++ ">" ++ m ++ "</div>"
  | None => html1
  end.

Definition showMapLegend (legendInfo : legend_info) (s : state) : state :=
  set_legendDisplay "block" (set_legendHtml (legend_html legendInfo) s).

Definition hideMapLegend (s : state) : state := set_legendDisplay "none" s.

Definition legendKey (layerType : layer) : string :=
  match layerType with
  | algal_blooms => "algal_blooms_classification"
  | soil => "soil_classification"
  | chlorophyll => "chlorophyll_classification"
  | _ => layer_name layerType ++ "_classification"
  end.

(** [legendData[layerType][legendKey]], when [legendData[layerType]] is set. *)
Definition legendInfo_of (layerType : layer) (lg : legend_body) : option legend_info :=
  legend_lookup (legendKey layerType) lg.

(** ** Single assignments to the elements of a layer *)

(** [toggle.checked = on] *)
Definition setToggleChecked (l : layer) (on : bool) (s : state) : state :=
  set_toggleChecked (upd (toggleChecked s) l on) s.

(** [toggle.disabled = on] *)
Definition setToggleDisabled (l : layer) (on : bool) (s : state) : state :=
  set_toggleDisabled (upd (toggleDisabled s) l on) s.

(** [classList.add('active')] and [classList.remove('active')] on a layer
    item. *)
Definition setItemActive (l : layer) (on : bool) (s : state) : state :=
  set_itemActive (upd (itemActive s) l on) s.

(** [classList.add('analyzing')] and [classList.remove('analyzing')]. *)
Definition setItemAnalyzing (l : layer) (on : bool) (s : state) : state :=
  set_itemAnalyzing (upd (itemAnalyzing s) l on) s.

(** [layersAnalyzed[l] = true] *)
Definition markAnalyzed (l : layer) (s : state) : state :=
  set_layersAnalyzed (upd (layersAnalyzed s) l true) s.

(** The content boxes of the statistics panels.  The loader addresses the
    box of a layer as [layerType + 'StatsContent']; each formatter names
    the box it writes itself, and the one of algal blooms names another
    id than the loader does. *)
Definition loaderBox (l : layer) : string := layer_name l ++ "StatsContent".

Definition formatterBox (l : layer) : string :=
  match l with
  | algal_blooms => "algalBloomsStatsContent"
  | _ => loaderBox l
  end.

(** [document.getElementById(id).innerHTML = html] *)
Definition setStatsContent (id : string) (html : string) (s : state) : state :=
  set_statsContent (fun i => if String.eqb i id then html else statsContent s i) s.

(** ** Statistics manager: loading *)

(** [StatisticsManager.loadStatistics] up to its [await]: the request is
    issued at once, its reply is handled by [loadStatistics_reply]. *)
Definition loadStatistics (layerType : layer) (analyzed : layer -> bool) (s : state) : state :=
  if analyzed layerType
  then set_pendingStats (pendingStats s ++ [layerType])%list (fetch (GetStatistics layerType) s)
  else s.

Definition statistics_failed (layerType : layer) (s : state) : state :=
  showStatus ("⚠️ Could not load " ++ layer_name layerType ++ " statistics") "error"
    (setStatsContent (loaderBox layerType) (stat_note "Error loading data") s).

(** The rest of [loadStatistics], run when the reply arrives. *)
Definition loadStatistics_reply (layerType : layer) (r : reply json) (s : state) : state :=
  match r with
  | Response true _ (Ok data) =>
      if truthy data && has_keys data then
        match displayStatistics layerType data with
        | Ok html => setStatsContent (formatterBox layerType) html s
        | Throw _ => statistics_failed layerType s
        end
      else
        showStatus ("⚠️ No statistics available for " ++ layer_name layerType) "warning"
          (setStatsContent (loaderBox layerType) (stat_note "No statistics available") s)
  | _ => statistics_failed layerType s
  end.

(** ** Layer orchestrator *)

Definition setActiveLayer (layerType : layer) (s : state) : state :=
  let s1 := set_panelActive (fun _ => false) s in
  set_currentActiveLayer layerType
    (if layersAnalyzed s layerType
     then loadStatistics layerType (layersAnalyzed s)
            (set_panelActive (upd (fun _ => false) layerType true) s1)
     else s1).

(** One round of the loop of [resetLayerStates]. *)
Definition resetLayer (s : state) (l : layer) : state :=
  setItemAnalyzing l false
    (setItemActive l false
       (updateLayerStatus l "Draw ROI to enable"
          (setToggleChecked l false (setToggleDisabled l true s)))).

Definition resetLayerStates (s : state) : state :=
  let s := set_layersAnalyzed (fun _ => false) s in
  let s := fold_left resetLayer validLayers s in
  setItemActive forest true (updateLayerStatus forest "Ready (Default)" s).

(** One round of the loop of [enableAllLayerToggles]. *)
Definition enableLayerToggle (s : state) (l : layer) : state :=
  let s := setToggleDisabled l false s in
  if layer_eqb l forest
  then updateLayerStatus l "Analyzed" (setToggleChecked l true s)
  else updateLayerStatus l "Click toggle to analyze" (setToggleChecked l false s).

Definition enableAllLayerToggles (s : state) : state :=
  fold_left enableLayerToggle validLayers s.

(** The map half of [loadLayerData]: the overlay is cached only for a 2xx
    reply whose tile URL names the tile service. *)
Definition load_map_layer (layerType : layer) (r : reply (option map_url_body)) (s : state)
  : state :=
  match r with
  | Response true _ (Ok (Some data)) =>
      match tile_url data with
      | Some u =>
          if negb (String.eqb u "") && includes u "earthengine.googleapis.com" then
            let (t, s') :=
              tileLayer u ("Google Earth Engine - " ++ capitalize (layer_name layerType)
                           ++ " Analysis") s in
            set_analysisLayers (upd (analysisLayers s') layerType (Some t)) s'
          else s
      | None => s
      end
  | _ => s
  end.

(** The legend half: cached for a 2xx reply with a body that is not null. *)
Definition load_legend (layerType : layer) (r : reply (option legend_body)) (s : state)
  : state :=
  match r with
  | Response true _ (Ok (Some data)) =>
      set_legendData (upd (legendData s) layerType (Some data)) s
  | _ => s
  end.

(** [loadLayerData]: both requests go out, then each reply is handled; a
    failure of either is logged to the console and otherwise ignored. *)
Definition loadLayerData (layerType : layer) (r_map : reply (option map_url_body))
                         (r_legend : reply (option legend_body)) (s : state) : state :=
  load_legend layerType r_legend
    (load_map_layer layerType r_map
       (fetch (GetLegend layerType) (fetch (GetMapUrl layerType) s))).

(** The loop of [updateLayerVisibility] over [validLayers]: the last layer
    whose toggle is checked and which is analyzed. *)
Definition lastVisibleLayer (s : state) : option layer :=
  fold_left (fun found l =>
    if toggleChecked s l && layersAnalyzed s l then Some l else found)
    validLayers None.

(** The steps of [updateLayerVisibility], in the order of its comments. *)

(** "Remove only the specific layer being toggled": the overlay now in the
    cache is taken off the map if it is on it. *)
Definition detachOverlay (layerType : layer) (s : state) : state :=
  match analysisLayers s layerType with
  | Some t => if hasLayer t s then removeLayer t s else s
  | None => s
  end.

(** "Show legend for this layer": only when a legend is cached for it and
    holds the key of the layer. *)
Definition showCachedLegend (layerType : layer) (s : state) : state :=
  match legendData s layerType with
  | Some lg =>
      match legendInfo_of layerType lg with
      | Some legendInfo => showMapLegend legendInfo s
      | None => s
      end
  | None => s
  end.

(** "Show the last visible layer's legend": shown when cached under its
    key, hidden when the cached legend lacks the key, untouched when no
    legend is cached for that layer. *)
Definition showPromotedLegend (last : layer) (s : state) : state :=
  match legendData s last with
  | Some lg =>
      match legendInfo_of last lg with
      | Some legendInfo => showMapLegend legendInfo s
      | None => hideMapLegend s
      end
  | None => s
  end.

(** "Keep forest toggle enabled if forest is analyzed". *)
Definition keepForestEnabled (s : state) : state :=
  if layersAnalyzed s forest then setToggleDisabled forest false s else s.

Definition updateLayerVisibility (layerType : layer) (isVisible : bool) (s : state) : state :=
  let s2 := setItemActive layerType false (detachOverlay layerType s) in
  keepForestEnabled
    match (if isVisible then analysisLayers s2 layerType else None),
          layersAnalyzed s2 layerType with
    | Some t, true =>
        setActiveLayer layerType
          (showCachedLegend layerType (setItemActive layerType true (addTo t s2)))
    | _, _ =>
        match lastVisibleLayer s2 with
        | Some last =>
            setActiveLayer last
              (setItemActive last true (showPromotedLegend last s2))
        | None =>
            set_panelActive (fun _ => false) (hideMapLegend s2)
        end
    end.

Definition defaultResolution (layerType : layer) : Z :=
  match layerType with
  | forest => 10
  | wetland => 10
  | tundra => 250
  | grassland => 10
  | algal_blooms => 300
  | soil => 500
  | chlorophyll => 4638
  end.

(** [parseInt(select.value || fallback)] *)
Definition resolution_or (s : state) (fallback : Z) : option Z :=
  if String.eqb (resolutionSelect s) "" then Some fallback
  else parseInt (resolutionSelect s).

(** [value || fallback] for a date input. *)
Definition date_or (v fallback : string) : string :=
  if String.eqb v "" then fallback else v.

(** The exception thrown for a reply that is not 2xx: the detail of its
    body when there is one, the status line otherwise; a body that does not
    parse counts as [{detail: 'Unknown error'}]. *)
Definition http_error (status : Z) (detail : result (option string)) : exn :=
  let errorDetail :=
    match detail with
    | Ok d => d
    | Throw _ => Some "Unknown error"
    end in
  Error (str_or errorDetail ("HTTP " ++ string_of_Z status)).

Definition undefined_toFixed : exn :=
  TypeError "Cannot read properties of undefined (reading 'toFixed')".

(** [updateCoordinatesDisplay]: the ring, closed by repeating its first
    vertex, one numbered line per vertex. *)
Definition coord_line (i : nat) (c : number * number) : string :=
  NilZero.string_of_uint (Nat.to_uint (i + 1)) ++ ": [" ++ number_toFixed (fst c) 6 ++ ", "
  ++ number_toFixed (snd c) 6 ++ "]".

Fixpoint coord_lines (i : nat) (cs : list (number * number)) : string :=
  match cs with
  | [] => ""
  | [c] => coord_line i c
  | c :: rest => coord_line i c ++ String "010"%char (coord_lines (S i) rest)
  end.

Definition ring_coordinates (shape : list latlng) : list (number * number) :=
  map (fun p => (lng p, lat p)) shape.

Definition updateCoordinatesDisplay (shape : list latlng) (s : state) : state :=
  match ring_coordinates shape with
  | [] => s
  | c0 :: rest =>
      set_coordinatesDisplay
        ("<pre>" ++ coord_lines 0 ((c0 :: rest) ++ [c0])%list ++ "</pre>") s
  end.

(** The object literal [{forest: true, wetland: false, ...}]. *)
Definition forest_only (l : layer) : bool := layer_eqb l forest.

(** The success branch of [setupROI], after the status line. *)
Definition setupROI_finish (r : setup_replies) (s : state) : state :=
  setToggleDisabled forest false
    (setToggleChecked forest true
       (updateLayerStatus forest "Analyzed"
          (updateLayerVisibility forest true
             (loadLayerData forest (sr_map r) (sr_legend r)
                (enableAllLayerToggles s))))).

(** The body of the [try] of [setupROI]. *)
Definition setupROI_try (shape : list latlng) (r : setup_replies) (s : state) : outcome :=
  let s := fetch (PostSetupRoi (ring_coordinates shape)
                    (date_or (startDate s) "2021-01-01")
                    (date_or (endDate s) "2023-01-01")
                    (resolution_or s 10)) s in
  match sr_setup r with
  | Rejected e => (s, Some e)
  | Response false status body =>
      (s, Some (http_error status
                  match body with Ok b => Ok (sb_detail b) | Throw e => Throw e end))
  | Response true _ (Throw e) => (s, Some e)
  | Response true _ (Ok result) =>
      if match sb_status result with Some st => String.eqb st "success" | None => false end
      then
        let s := set_layersAnalyzed forest_only (set_roiSetup true s) in
        match sb_area_km2 result with
        | None => (s, Some undefined_toFixed)
        | Some area =>
            (setupROI_finish r
               (showStatus ("ROI setup complete! Forest analysis ready. Area: "
                            ++ number_toFixed area 2 ++ " km²") "success" s), None)
        end
      else
        (resetLayerStates
           (set_roiSetup false
              (showStatus ("ROI setup failed: "
                           ++ str_or (sb_detail result) "Unknown error") "error" s)),
         None)
  end.

Definition setupROI_catch (error : exn) (s : state) : outcome :=
  (resetLayerStates
     (set_roiSetup false (showStatus ("Error: " ++ exn_message error) "error" s)),
   None).

Definition setupROI (r : setup_replies) (s : state) : outcome :=
  match currentPolygon s with
  | None => (s, None)
  | Some shape =>
      try_catch (setupROI_try shape r) setupROI_catch
        (showStatus "🔄 Setting up ROI and analyzing forest layer..." "loading" s)
  end.

(** The success branch of [analyzeLayer]. *)
Definition analyzeLayer_succeed (layerType : layer) (isReanalysis : bool)
                                (r : analysis_replies) (s : state) : state :=
  let s :=
    setItemActive layerType true
      (setItemAnalyzing layerType false
         (updateLayerStatus layerType "Analyzed"
            (loadLayerData layerType (ar_map r) (ar_legend r)
               (showStatus (layer_name layerType ++
                            (if isReanalysis then " re-analysis completed!"
                             else " analysis completed!")) "success"
                  (markAnalyzed layerType s))))) in
  if toggleChecked s layerType
  then setActiveLayer layerType (updateLayerVisibility layerType true s)
  else s.

(** What both failure paths of [analyzeLayer] do after reporting: the
    status line of the layer, the end of the "analyzing" mark, and, unless
    this is a re-analysis, the toggle unchecked. *)
Definition analyzeLayer_giveUp (layerType : layer) (isReanalysis : bool)
                               (errorMessage : string) (s : state) : state :=
  let s := setItemAnalyzing layerType false (updateLayerStatus layerType errorMessage s) in
  if isReanalysis then s else setToggleChecked layerType false s.

(** The body of the [try] of [analyzeLayer]. *)
Definition analyzeLayer_try (layerType : layer) (isReanalysis : bool)
                            (r : analysis_replies) (s : state) : outcome :=
  let s := fetch (PostAnalyzeLayer layerType
                    (date_or (startDate s) "2021-01-01")
                    (date_or (endDate s) "2023-01-01")
                    (resolution_or s (defaultResolution layerType))) s in
  match ar_analyze r with
  | Rejected e => (s, Some e)
  | Response false status body =>
      (s, Some (http_error status
                  match body with Ok b => Ok (ab_detail b) | Throw e => Throw e end))
  | Response true _ (Throw e) => (s, Some e)
  | Response true _ (Ok result) =>
      if match ab_status result with Some st => String.eqb st "success" | None => false end
      then (analyzeLayer_succeed layerType isReanalysis r s, None)
      else
        (analyzeLayer_giveUp layerType isReanalysis "Failed - Click toggle to retry"
           (showStatus (layer_name layerType ++ " analysis failed: "
                        ++ str_or (ab_detail result) "Unknown error") "error" s),
         None)
  end.

Definition analyzeLayer_catch (layerType : layer) (isReanalysis : bool)
                              (error : exn) (s : state) : outcome :=
  (analyzeLayer_giveUp layerType isReanalysis "Error - Click toggle to retry"
     (showStatus ("Error analyzing " ++ layer_name layerType ++ ": "
                  ++ exn_message error) "error" s),
   None).

(** The announcement of [analyzeLayer] before its [try]. *)
Definition analyzeLayer_announce (layerType : layer) (isReanalysis : bool) (s : state)
  : state :=
  showStatus
    (if isReanalysis
     then "🔄 Re-analyzing " ++ layer_name layerType ++ " layer..."
     else "🔄 Analyzing " ++ layer_name layerType ++ " layer...")
    "loading"
    (setItemAnalyzing layerType true
       (updateLayerStatus layerType
          (if isReanalysis then "Re-analyzing..." else "Analyzing...") s)).

Definition analyzeLayer (layerType : layer) (isReanalysis : bool)
                        (r : analysis_replies) (s : state) : outcome :=
  if negb (roiSetup s) then
    (showStatus "Please draw a ROI first!" "error" s, None)
  else if layersAnalyzed s layerType && negb isReanalysis then
    if toggleChecked s layerType
    then (updateLayerVisibility layerType true s, None)
    else (s, None)
  else
    try_catch (analyzeLayer_try layerType isReanalysis r)
              (analyzeLayer_catch layerType isReanalysis)
              (analyzeLayer_announce layerType isReanalysis s).

(** The layers [handleDateChange] and [handleResolutionChange] collect:
    analyzed and toggled on, in the order of the keys of [layersAnalyzed]. *)
Definition layersToReanalyze (s : state) : list layer :=
  filter (fun l => layersAnalyzed s l && toggleChecked s l) validLayers.

(** The timers of a parameter change, fired in order, each analysis run to
    its end before the next. *)
Fixpoint reanalyze_all (ls : list layer) (r : layer -> analysis_replies) (s : state)
  : outcome :=
  match ls with
  | [] => (s, None)
  | l :: rest =>
      match analyzeLayer l true (r l) s with
      | (s', None) => reanalyze_all rest r s'
      | (s', Some e) => (s', Some e)
      end
  end.

Definition handleParameterChange (announcement progress : string)
                                 (r : layer -> analysis_replies) (s : state) : outcome :=
  if negb (roiSetup s) then (s, None)
  else
    match layersToReanalyze s with
    | [] => (s, None)
    | ls =>
        reanalyze_all ls r
          (fold_left (fun s l => updateLayerStatus l progress s) ls
             (showStatus announcement "loading" s))
    end.

Definition handleDateChange (r : layer -> analysis_replies) (s : state) : outcome :=
  handleParameterChange
    ("🔄 Date range changed to " ++ startDate s ++ " - " ++ endDate s
     ++ ". Re-analyzing active layers...")
    "Re-analyzing with new dates..." r s.

Definition handleResolutionChange (r : layer -> analysis_replies) (s : state) : outcome :=
  handleParameterChange
    ("🔄 Resolution changed to " ++ resolutionSelect s
     ++ "m. Re-analyzing active layers...")
    "Re-analyzing with new resolution..." r s.

(** [clearAllLayers]: every overlay now in the cache is taken off the map. *)
Definition clearAllLayers (s : state) : state :=
  clearStatus
    (set_panelActive (fun _ => false)
       (hideMapLegend (fold_left (fun s l => detachOverlay l s) validLayers s))).

(** ** Event handlers *)

Definition coordinates_placeholder : string :=
  "Draw a polygon on the map to see coordinates here...".

(** [L.Draw.Event.CREATED] *)
Definition onCreated (shape : list latlng) (r : setup_replies) (s : state) : outcome :=
  setupROI r (updateCoordinatesDisplay shape (set_currentPolygon (Some shape) s)).

(** [L.Draw.Event.EDITED] for the one shape on the map, which is the object
    [currentPolygon] refers to: the edit changes its vertices in place. *)
Definition onEdited (shape : list latlng) (r : setup_replies) (s : state) : outcome :=
  setupROI r
    (updateCoordinatesDisplay shape
       match currentPolygon s with
       | Some _ => set_currentPolygon (Some shape) s
       | None => s
       end).

(** [L.Draw.Event.DELETED] *)
Definition onDeleted (s : state) : state :=
  set_coordinatesDisplay coordinates_placeholder
    (resetLayerStates
       (clearAllLayers (set_roiSetup false (set_currentPolygon None s)))).

(** The [change] listener of a toggle, after the browser has flipped the
    box.  The forest listener never starts an analysis. *)
Definition onToggleChange (l : layer) (r : analysis_replies) (s : state) : outcome :=
  let s := setToggleChecked l (negb (toggleChecked s l)) s in
  if toggleChecked s l then
    match l with
    | forest =>
        if layersAnalyzed s forest
        then (updateLayerVisibility forest true s, None)
        else (s, None)
    | _ =>
        if negb (layersAnalyzed s l)
        then analyzeLayer l false r s
        else (updateLayerVisibility l true s, None)
    end
  else (updateLayerVisibility l false s, None).

(** [initializeApp], on the document as the markup leaves it and the
    variables as the script declares them. *)
Definition script_start (markup : state) : state :=
  set_pendingStats []
    (set_fetched []
      (set_mapLayers []
        (set_currentActiveLayer forest
          (set_layersAnalyzed (fun _ => false)
            (set_roiSetup false
              (set_legendData (fun _ => None)
                (set_analysisLayers (fun _ => None)
                  (set_currentPolygon None markup)))))))).

Definition initializeApp (markup : state) : state :=
  showStatus
    "🌍 Environmental Analysis Dashboard loaded. Draw a polygon to begin analysis."
    "success"
    (resetLayerStates
       (set_resolutionSelect "10"
          (set_endDate "2023-01-01"
             (set_startDate "2021-01-01" (script_start markup))))).

(** ** The dashboard as a transition system *)

Inductive event : Type :=
  | Created (shape : list latlng) (r : setup_replies)
  | Edited (shape : list latlng) (r : setup_replies)
  | Deleted
  | ToggleChanged (l : layer) (r : analysis_replies)
  | StartDateChanged (v : string) (r : layer -> analysis_replies)
  | EndDateChanged (v : string) (r : layer -> analysis_replies)
  | ResolutionChanged (v : string) (r : layer -> analysis_replies)
  | StatisticsArrived (l : layer) (r : reply json).

Fixpoint remove_first (l : layer) (ls : list layer) : list layer :=
  match ls with
  | [] => []
  | x :: rest => if layer_eqb x l then rest else x :: remove_first l rest
  end.

(** The state after an event, [None] when the event cannot happen: a
    disabled toggle does not react, a shape that is not there cannot be
    edited or deleted, and only a pending statistics request is answered.
    An event is a whole handler, the replies it awaits included: the
    handler is run to its end with nothing else in between. *)
Definition handle (e : event) (s : state) : option outcome :=
  match e with
  | Created shape r => Some (onCreated shape r s)
  | Edited shape r =>
      match currentPolygon s with
      | Some _ => Some (onEdited shape r s)
      | None => None
      end
  | Deleted =>
      match currentPolygon s with
      | Some _ => Some (onDeleted s, None)
      | None => None
      end
  | ToggleChanged l r =>
      if toggleDisabled s l then None else Some (onToggleChange l r s)
  | StartDateChanged v r => Some (handleDateChange r (set_startDate v s))
  | EndDateChanged v r => Some (handleDateChange r (set_endDate v s))
  | ResolutionChanged v r => Some (handleResolutionChange r (set_resolutionSelect v s))
  | StatisticsArrived l r =>
      if existsb (layer_eqb l) (pendingStats s)
      then Some (loadStatistics_reply l r
                   (set_pendingStats (remove_first l (pendingStats s)) s), None)
      else None
  end.

(** Run a sequence of events from a state. *)
Fixpoint run (es : list event) (s : state) : option state :=
  match es with
  | [] => Some s
  | e :: rest =>
      match handle e s with
      | Some (s', _) => run rest s'
      | None => None
      end
  end.

(** The states the dashboard reaches when no two handlers overlap: after
    [initializeApp] on some markup, then after any sequence of events,
    each run to its end before the next starts.  The browser can reach
    more states than these, since another handler may run while one is
    suspended at an [await]; a state shown to be [reachable] is one the
    page can be in, while the converse does not hold. *)
Inductive reachable : state -> Prop :=
  | reachable_init : forall markup, reachable (initializeApp markup)
  | reachable_step : forall s e s' x,
      reachable s -> handle e s = Some (s', x) -> reachable s'.

(* ================================================================== *)
(** * Sample data *)

(** A page whose markup leaves every box unchecked and every text empty. *)
Definition blank_page : state :=
  mkState None (fun _ => None) (fun _ => None) false (fun _ => false) forest
    [] 0 (fun _ => false) (fun _ => false) (fun _ => "") (fun _ => false)
    (fun _ => false) (fun _ => false) (fun _ => "") "" "" "" "" "" "" "" [] [].

Definition triangle : list latlng :=
  [ {| lat := dbl 28; lng := dbl 77 |}; {| lat := dbl 29; lng := dbl 77 |};
    {| lat := dbl 29; lng := dbl 78 |} ].

Definition sample_legend (l : layer) : legend_body :=
  [ (legendKey l,
     {| title := capitalize (layer_name l) ++ " classes"; type := "classification";
        items := [ {| color := "#1a9850"; label := "High" |};
                   {| color := "red"; label := "Low" |} ];
        methodology := Some "NDVI thresholds" |}) ].

Definition tiles_of (l : layer) : string :=
  "https://earthengine.googleapis.com/v1/maps/" ++ layer_name l ++ "/tiles/{z}/{x}/{y}".

Definition setup_success (area : number) : reply setup_body :=
  Response true 200
    (Ok {| sb_status := Some "success"; sb_detail := None; sb_area_km2 := Some area |}).

Definition map_success (l : layer) : reply (option map_url_body) :=
  Response true 200 (Ok (Some {| tile_url := Some (tiles_of l) |})).

Definition legend_success (l : layer) : reply (option legend_body) :=
  Response true 200 (Ok (Some (sample_legend l))).

Definition analyze_success : reply analyze_body :=
  Response true 200 (Ok {| ab_status := Some "success"; ab_detail := None |}).

(** HTTP 500 with body [{"detail": d}]. *)
Definition setup_http_500 (d : string) : reply setup_body :=
  Response false 500
    (Ok {| sb_status := None; sb_detail := Some d; sb_area_km2 := None |}).

Definition analyze_http_500 (d : string) : reply analyze_body :=
  Response false 500 (Ok {| ab_status := None; ab_detail := Some d |}).

Definition not_found {B : Type} : reply B := Response false 404 (Throw (Error "Unexpected token")).

(** Everything asked of the backend succeeds. *)
Definition setup_all_ok (area : number) : setup_replies :=
  {| sr_setup := setup_success area; sr_map := map_success forest;
     sr_legend := legend_success forest |}.

Definition analysis_all_ok (l : layer) : analysis_replies :=
  {| ar_analyze := analyze_success; ar_map := map_success l;
     ar_legend := legend_success l |}.

(** The analysis succeeds, the legend request is answered 404. *)
Definition analysis_without_legend (l : layer) : analysis_replies :=
  {| ar_analyze := analyze_success; ar_map := map_success l; ar_legend := not_found |}.

(** The analysis request is answered 500 with the given detail. *)
Definition analysis_failing (d : string) : analysis_replies :=
  {| ar_analyze := analyze_http_500 d; ar_map := not_found; ar_legend := not_found |}.

(** The setup request is answered 500 with the given detail. *)
Definition setup_failing (d : string) : setup_replies :=
  {| sr_setup := setup_http_500 d; sr_map := not_found; sr_legend := not_found |}.

(** The ROI is drawn and set up, nothing else has happened. *)
Definition after_setup : state :=
  fst (onCreated triangle (setup_all_ok (dbl 12.3456)) (initializeApp blank_page)).

(** Soil has been toggled on and analyzed after the setup. *)
Definition soil_shown : state :=
  fst (onToggleChange soil (analysis_all_ok soil) after_setup).

(** A second shape is drawn over the first and set up in turn. *)
Definition after_second_setup : state :=
  fst (onCreated triangle (setup_all_ok (dbl 5)) after_setup).

(** Wetland, then soil, have been toggled on and analyzed after the setup. *)
Definition wetland_and_soil_shown : state :=
  fst (onToggleChange soil (analysis_all_ok soil)
         (fst (onToggleChange wetland (analysis_all_ok wetland) after_setup))).

(** The same, but the legend request for soil was answered 404. *)
Definition soil_without_legend : state :=
  fst (onToggleChange soil (analysis_without_legend soil)
         (fst (onToggleChange wetland (analysis_all_ok wetland) after_setup))).

(** The ROI is then edited and the new setup is refused by the backend. *)
Definition after_failed_setup : state :=
  fst (onEdited triangle (setup_failing "GEE quota exceeded") soil_shown).

(** A wetland record with a change from 100 ha in 2020 to 120 ha in 2023. *)
Definition wetland_example : json :=
  JObj [ ("roi_area_km2", JNum (dbl 12.5));
         ("change_over_time",
          JObj [ ("start_year", JNum (dbl 2020)); ("end_year", JNum (dbl 2023));
                 ("wetland_area_ha", JArr [JNum (dbl 100); JNum (dbl 120)]) ]) ].

(** A wetland record with a change from 80 ha in 2020 to 103 ha in 2023. *)
Definition wetland_growth : json :=
  JObj [ ("roi_area_km2", JNum (dbl 12.5));
         ("change_over_time",
          JObj [ ("start_year", JNum (dbl 2020)); ("end_year", JNum (dbl 2023));
                 ("wetland_area_ha", JArr [JNum (dbl 80); JNum (dbl 103)]) ]) ].

(** A forest record and its biomass sub-record with one field set. *)
Definition forest_biomass (v : json) : json :=
  JObj [ ("roi_area_km2", JNum (dbl 12.5));
         ("biomass_partitioning", JObj [ ("aboveground_biomass_Mg_per_ha", v) ]) ].

(* ================================================================== *)
(** * Vocabulary of the statements *)

Local Close Scope Q_scope.

(** Position of a layer in [validLayers]. *)
Definition layer_index (l : layer) : nat :=
  match l with
  | forest => 0 | wetland => 1 | tundra => 2 | grassland => 3
  | algal_blooms => 4 | soil => 5 | chlorophyll => 6
  end.

(** A layer counts as visible when its toggle is checked and it is analyzed:
    the test of the scan in [updateLayerVisibility]. *)
Definition visible (s : state) (l : layer) : bool :=
  toggleChecked s l && layersAnalyzed s l.

(** The layer [updateLayerVisibility] hands to [setActiveLayer], if any. *)
Definition activation_target (layerType : layer) (isVisible : bool) (s : state)
  : option layer :=
  match (if isVisible then analysisLayers s layerType else None),
        layersAnalyzed s layerType with
  | Some _, true => Some layerType
  | _, _ => lastVisibleLayer s
  end.

Definition is_analysis_request (q : request) : bool :=
  match q with
  | PostAnalyzeLayer _ _ _ _ => true
  | _ => false
  end.

(** The requests to [/api/analyze-layer] among a list of requests. *)
Definition analysis_requests (qs : list request) : list request :=
  filter is_analysis_request qs.

(** [s'] comes from [s] by issuing exactly the requests [qs], in order. *)
Definition issued (s s' : state) (qs : list request) : Prop :=
  fetched s' = (fetched s ++ qs)%list.

Definition is_success (status : option string) : bool :=
  match status with
  | Some st => String.eqb st "success"
  | None => false
  end.

(** The analysis did not succeed: the request threw, the reply was not 2xx,
    its body did not parse, or its status is not "success". *)
Definition analysis_failed (r : reply analyze_body) : bool :=
  match r with
  | Response true _ (Ok b) => negb (is_success (ab_status b))
  | _ => true
  end.



Definition setup_succeeded (r : reply setup_body) : bool :=
  match r with
  | Response true _ (Ok b) =>
      is_success (sb_status b) &&
      match sb_area_km2 b with Some _ => true | None => false end
  | _ => false
  end.

(** The markup [showStatus] writes. *)
Definition status_markup (kind message : string) : string :=
  "<div class=" ++ dq ++ "status " ++ kind ++ dq ++ ">" ++ message ++ "</div>".

(** [sub] occurs in [s]. *)
Definition occurs_in (sub s : string) : Prop :=
  exists pre post, s = pre ++ sub ++ post.

(** While the ROI is established: forest is analyzed, a statistics panel
    that is displayed is the panel of [currentActiveLayer] and its layer is
    visible, and no panel is displayed when no layer is visible. *)
Definition panel_invariant (s : state) : Prop :=
  roiSetup s = true ->
  layersAnalyzed s forest = true /\
  (forall P, panelActive s P = true -> P = currentActiveLayer s /\ visible s P = true) /\
  ((forall l, visible s l = false) -> forall P, panelActive s P = false).

(** Object literals: [{k: v, ...rest}] and [rest] without [k]. *)
Definition with_member (k : string) (v : json) (m : list (string * json))
  : list (string * json) := (k, v) :: m.

Definition without_member (k : string) (m : list (string * json))
  : list (string * json) :=
  filter (fun kv => negb (String.eqb k (fst kv))) m.

(** The top-level fields a formatter tests with [!== undefined] instead of
    by truthiness. *)
Definition strictly_tested (l : layer) : list string :=
  match l with
  | tundra => ["total_tundra_area_km2"; "tundra_coverage_percent"]
  | algal_blooms => ["bloom_detected"]
  | chlorophyll => ["analysis_applicable"]
  | _ => []
  end.


(** Between handlers, the toggles follow the ROI: while it is established
    there is a shape and every toggle is enabled; while it is not, no layer
    is analyzed and every toggle is unchecked and disabled. *)
Definition toggle_invariant (s : state) : Prop :=
  (roiSetup s = true ->
   currentPolygon s <> None /\ forall l, toggleDisabled s l = false) /\
  (roiSetup s = false ->
   forall l, layersAnalyzed s l = false /\ toggleChecked s l = false /\
             toggleDisabled s l = true).

(** What a handler that keeps the ROI leaves in place: the ROI flag, the
    shape, the three inputs, and every toggle that was enabled. *)
Definition keeps_controls (s s' : state) : Prop :=
  roiSetup s' = roiSetup s /\ currentPolygon s' = currentPolygon s /\
  startDate s' = startDate s /\ endDate s' = endDate s /\
  resolutionSelect s' = resolutionSelect s /\
  forall l, toggleDisabled s l = false -> toggleDisabled s' l = false.

(** The events that draw or redraw the shape. *)
Definition is_drawing (e : event) : bool :=
  match e with
  | Created _ _ | Edited _ _ => true
  | _ => false
  end.

(** The analysis request of a layer under the inputs of a state. *)
Definition analysis_request_of (s : state) (l : layer) : request :=
  PostAnalyzeLayer l (date_or (startDate s) "2021-01-01")
    (date_or (endDate s) "2023-01-01") (resolution_or s (defaultResolution l)).

(** A record all of whose members are numbers. *)
Definition all_numbers (m : list (string * json)) : bool :=
  forallb (fun kv => match snd kv with JNum _ => true | _ => false end) m.

(** The wetland box has just been checked by the user. *)
Definition wetland_checked : state := setToggleChecked wetland true after_setup.

(* ================================================================== *)
(** * Start-up ([DOMContentLoaded] listener of [app.js]) *)

Definition maxAttempts : nat := 10.

(** [tryInitialize]: [leaflet k] tells whether [L] is defined [k] timer
    periods of 500 ms after the document was loaded.  The first call is made
    at once, each further one by a timer. *)
Fixpoint tryInitialize (leaflet : nat -> bool) (fuel loadAttempts tick : nat)
                       (markup : state) : state :=
  match fuel with
  | O => markup
  | S fuel' =>
      let loadAttempts := S loadAttempts in
      if leaflet tick then initializeApp markup
      else if Nat.ltb loadAttempts maxAttempts
           then tryInitialize leaflet fuel' loadAttempts (S tick) markup
      else showStatus "Failed to load map library. Please refresh the page." "error" markup
  end.

Definition onDOMContentLoaded (leaflet : nat -> bool) (markup : state) : state :=
  if leaflet 0 then initializeApp markup
  else tryInitialize leaflet maxAttempts 0 0 markup.

(* ================================================================== *)
(** * Sidebar resize ([setupSidebarResize]) *)

Record sidebar : Type :=
  { isResizing : bool;
    dragListeners : bool;  (* [handleResize] and [stopResize] listen on the document *)
    sidebarWidth : option Q  (* [style.width] in px, [None] while unset *) }.

Inductive mouse_event : Type :=
  | MouseDown              (* on the resize handle *)
  | MouseMove (clientX : Q)
  | MouseUp.

Definition setupSidebarResize : sidebar :=
  {| isResizing := false; dragListeners := false; sidebarWidth := None |}.

Definition handleResize (clientX : Q) (b : sidebar) : sidebar :=
  if negb (isResizing b) then b
  else if Qle_bool 280 clientX && Qle_bool clientX 800
       then {| isResizing := isResizing b; dragListeners := dragListeners b;
               sidebarWidth := Some clientX |}
       else b.

Definition stopResize (b : sidebar) : sidebar :=
  {| isResizing := false; dragListeners := false; sidebarWidth := sidebarWidth b |}.

(** One mouse event on the page. *)
Definition mouse (b : sidebar) (e : mouse_event) : sidebar :=
  match e with
  | MouseDown =>
      {| isResizing := true; dragListeners := true; sidebarWidth := sidebarWidth b |}
  | MouseMove x => if dragListeners b then handleResize x b else b
  | MouseUp => if dragListeners b then stopResize b else b
  end.
(* ================================================================== *)
(** * Basic facts *)

Ltac sproj :=
  cbn [currentPolygon analysisLayers legendData roiSetup layersAnalyzed currentActiveLayer
       mapLayers nextStamp toggleChecked toggleDisabled layerStatus itemActive
       itemAnalyzing panelActive statsContent statusContainer legendHtml legendDisplay
       coordinatesDisplay startDate endDate resolutionSelect fetched pendingStats
       set_currentPolygon set_analysisLayers set_legendData set_roiSetup
       set_layersAnalyzed set_currentActiveLayer set_mapLayers set_nextStamp
       set_toggleChecked set_toggleDisabled set_layerStatus set_itemActive
       set_itemAnalyzing set_panelActive set_statsContent set_statusContainer
       set_legendHtml set_legendDisplay set_coordinatesDisplay set_startDate
       set_endDate set_resolutionSelect set_fetched set_pendingStats fst snd] in *.

Ltac unfold_ops :=
  unfold setActiveLayer, loadStatistics, fetch, showStatus, clearStatus, hideMapLegend,
    showMapLegend, updateLayerStatus, addTo, removeLayer, tileLayer, hasLayer in *.

(** Case analysis on an innermost scrutinee of the goal. *)
Ltac break_match :=
  match goal with
  | |- context [match ?x with _ => _ end] =>
      lazymatch x with
      | context [match _ with _ => _ end] => fail
      | _ => destruct x eqn:?
      end
  end.

Lemma layer_eqb_refl l : layer_eqb l l = true.
Proof. destruct l; reflexivity. Qed.

Lemma layer_eqb_eq a b : layer_eqb a b = true <-> a = b.
Proof. destruct a, b; simpl; split; intros H; try reflexivity; discriminate. Qed.

Lemma upd_same {A} (f : layer -> A) l v : upd f l v l = v.
Proof. unfold upd. rewrite layer_eqb_refl. reflexivity. Qed.

Lemma upd_other {A} (f : layer -> A) l l' v : l' <> l -> upd f l v l' = f l'.
Proof.
  intros H. unfold upd. destruct (layer_eqb l' l) eqn:E; [|reflexivity].
  apply layer_eqb_eq in E. contradiction.
Qed.

Lemma showStatus_valid kind message s :
  In kind validTypes ->
  statusContainer (showStatus message kind s) = status_markup kind message.
Proof.
  intros H. unfold showStatus, status_markup. sproj.
  simpl in H. destruct H as [<-|[<-|[<-|[<-|[]]]]]; reflexivity.
Qed.

Lemma occurs_in_intro pre sub post : occurs_in sub (pre ++ sub ++ post).
Proof. exists pre, post. reflexivity. Qed.

Lemma string_app_assoc (a b c : string) : (a ++ b) ++ c = a ++ (b ++ c).
Proof. induction a; simpl; [reflexivity | rewrite IHa; reflexivity]. Qed.

Lemma string_app_nil_r (a : string) : a ++ "" = a.
Proof. induction a; simpl; [reflexivity | rewrite IHa; reflexivity]. Qed.

(** ** The scan for the last visible layer *)

Lemma lastVisibleLayer_ext s s' :
  toggleChecked s = toggleChecked s' -> layersAnalyzed s = layersAnalyzed s' ->
  lastVisibleLayer s = lastVisibleLayer s'.
Proof. intros H1 H2. unfold lastVisibleLayer. rewrite H1, H2. reflexivity. Qed.

Lemma lastVisibleLayer_some s l :
  lastVisibleLayer s = Some l ->
  visible s l = true /\ forall l', visible s l' = true -> layer_index l' <= layer_index l.
Proof.
  unfold lastVisibleLayer, visible. cbn [fold_left validLayers].
  destruct (toggleChecked s chlorophyll && layersAnalyzed s chlorophyll) eqn:E6;
  [|destruct (toggleChecked s soil && layersAnalyzed s soil) eqn:E5;
  [|destruct (toggleChecked s algal_blooms && layersAnalyzed s algal_blooms) eqn:E4;
  [|destruct (toggleChecked s grassland && layersAnalyzed s grassland) eqn:E3;
  [|destruct (toggleChecked s tundra && layersAnalyzed s tundra) eqn:E2;
  [|destruct (toggleChecked s wetland && layersAnalyzed s wetland) eqn:E1;
  [|destruct (toggleChecked s forest && layersAnalyzed s forest) eqn:E0]]]]]];
  intros H; inversion H; subst; (split; [assumption|]);
  intros l' Hl'; destruct l'; cbn [layer_index]; try lia; congruence.
Qed.

Lemma lastVisibleLayer_none s :
  lastVisibleLayer s = None -> forall l, visible s l = false.
Proof.
  unfold lastVisibleLayer, visible. cbn [fold_left validLayers].
  destruct (toggleChecked s chlorophyll && layersAnalyzed s chlorophyll) eqn:E6;
  [discriminate|destruct (toggleChecked s soil && layersAnalyzed s soil) eqn:E5;
  [discriminate|destruct (toggleChecked s algal_blooms && layersAnalyzed s algal_blooms) eqn:E4;
  [discriminate|destruct (toggleChecked s grassland && layersAnalyzed s grassland) eqn:E3;
  [discriminate|destruct (toggleChecked s tundra && layersAnalyzed s tundra) eqn:E2;
  [discriminate|destruct (toggleChecked s wetland && layersAnalyzed s wetland) eqn:E1;
  [discriminate|destruct (toggleChecked s forest && layersAnalyzed s forest) eqn:E0;
  [discriminate|]]]]]]];
  intros _ l; destruct l; assumption.
Qed.

Lemma lastVisibleLayer_visible s l :
  visible s l = true -> exists last, lastVisibleLayer s = Some last.
Proof.
  intros H. destruct (lastVisibleLayer s) as [x|] eqn:E; [eauto|].
  rewrite (lastVisibleLayer_none s E l) in H. discriminate.
Qed.

(** ** Which components a step leaves alone *)

Ltac is_component p :=
  lazymatch p with
  | currentPolygon => idtac | analysisLayers => idtac | legendData => idtac
  | roiSetup => idtac | layersAnalyzed => idtac | currentActiveLayer => idtac
  | mapLayers => idtac | nextStamp => idtac | toggleChecked => idtac
  | toggleDisabled => idtac | layerStatus => idtac | itemActive => idtac
  | itemAnalyzing => idtac | panelActive => idtac | statsContent => idtac
  | statusContainer => idtac | legendHtml => idtac | legendDisplay => idtac
  | coordinatesDisplay => idtac | startDate => idtac | endDate => idtac
  | resolutionSelect => idtac | fetched => idtac | pendingStats => idtac
  end.

Ltac unfold_steps :=
  unfold analyzeLayer_announce, analyzeLayer_giveUp, loadLayerData, resetLayer,
    enableLayerToggle;
  unfold setToggleChecked, setToggleDisabled, setItemActive, setItemAnalyzing,
    markAnalyzed, setStatsContent, detachOverlay, showCachedLegend,
    showPromotedLegend, keepForestEnabled, statistics_failed, load_map_layer,
    load_legend, updateCoordinatesDisplay, setActiveLayer, loadStatistics, fetch,
    showStatus, clearStatus, hideMapLegend, showMapLegend, updateLayerStatus, addTo,
    removeLayer, tileLayer, hasLayer.

Ltac sgoal :=
  cbn [currentPolygon analysisLayers legendData roiSetup layersAnalyzed currentActiveLayer
       mapLayers nextStamp toggleChecked toggleDisabled layerStatus itemActive
       itemAnalyzing panelActive statsContent statusContainer legendHtml legendDisplay
       coordinatesDisplay startDate endDate resolutionSelect fetched pendingStats
       set_currentPolygon set_analysisLayers set_legendData set_roiSetup
       set_layersAnalyzed set_currentActiveLayer set_mapLayers set_nextStamp
       set_toggleChecked set_toggleDisabled set_layerStatus set_itemActive
       set_itemAnalyzing set_panelActive set_statsContent set_statusContainer
       set_legendHtml set_legendDisplay set_coordinatesDisplay set_startDate
       set_endDate set_resolutionSelect set_fetched set_pendingStats fst snd].

Ltac head_of t :=
  lazymatch t with
  | ?f _ => head_of f
  | _ => t
  end.

(** The components each elementary step writes; it leaves the others as
    they are. *)
Ltac untouched h p :=
  lazymatch h with
  | set_currentPolygon => lazymatch p with currentPolygon => fail | _ => idtac end
  | set_analysisLayers => lazymatch p with analysisLayers => fail | _ => idtac end
  | set_legendData => lazymatch p with legendData => fail | _ => idtac end
  | set_roiSetup => lazymatch p with roiSetup => fail | _ => idtac end
  | set_layersAnalyzed => lazymatch p with layersAnalyzed => fail | _ => idtac end
  | set_currentActiveLayer => lazymatch p with currentActiveLayer => fail | _ => idtac end
  | set_mapLayers => lazymatch p with mapLayers => fail | _ => idtac end
  | set_nextStamp => lazymatch p with nextStamp => fail | _ => idtac end
  | set_toggleChecked => lazymatch p with toggleChecked => fail | _ => idtac end
  | set_toggleDisabled => lazymatch p with toggleDisabled => fail | _ => idtac end
  | set_layerStatus => lazymatch p with layerStatus => fail | _ => idtac end
  | set_itemActive => lazymatch p with itemActive => fail | _ => idtac end
  | set_itemAnalyzing => lazymatch p with itemAnalyzing => fail | _ => idtac end
  | set_panelActive => lazymatch p with panelActive => fail | _ => idtac end
  | set_statsContent => lazymatch p with statsContent => fail | _ => idtac end
  | set_statusContainer => lazymatch p with statusContainer => fail | _ => idtac end
  | set_legendHtml => lazymatch p with legendHtml => fail | _ => idtac end
  | set_legendDisplay => lazymatch p with legendDisplay => fail | _ => idtac end
  | set_coordinatesDisplay => lazymatch p with coordinatesDisplay => fail | _ => idtac end
  | set_startDate => lazymatch p with startDate => fail | _ => idtac end
  | set_endDate => lazymatch p with endDate => fail | _ => idtac end
  | set_resolutionSelect => lazymatch p with resolutionSelect => fail | _ => idtac end
  | set_fetched => lazymatch p with fetched => fail | _ => idtac end
  | set_pendingStats => lazymatch p with pendingStats => fail | _ => idtac end
  | setToggleChecked => lazymatch p with toggleChecked => fail | _ => idtac end
  | setToggleDisabled => lazymatch p with toggleDisabled => fail | _ => idtac end
  | keepForestEnabled => lazymatch p with toggleDisabled => fail | _ => idtac end
  | setItemActive => lazymatch p with itemActive => fail | _ => idtac end
  | setItemAnalyzing => lazymatch p with itemAnalyzing => fail | _ => idtac end
  | markAnalyzed => lazymatch p with layersAnalyzed => fail | _ => idtac end
  | setStatsContent => lazymatch p with statsContent => fail | _ => idtac end
  | detachOverlay => lazymatch p with mapLayers => fail | _ => idtac end
  | addTo => lazymatch p with mapLayers => fail | _ => idtac end
  | removeLayer => lazymatch p with mapLayers => fail | _ => idtac end
  | showCachedLegend =>
      lazymatch p with legendHtml => fail | legendDisplay => fail | _ => idtac end
  | showPromotedLegend =>
      lazymatch p with legendHtml => fail | legendDisplay => fail | _ => idtac end
  | showMapLegend =>
      lazymatch p with legendHtml => fail | legendDisplay => fail | _ => idtac end
  | hideMapLegend => lazymatch p with legendDisplay => fail | _ => idtac end
  | statistics_failed =>
      lazymatch p with statsContent => fail | statusContainer => fail | _ => idtac end
  | load_map_layer =>
      lazymatch p with analysisLayers => fail | nextStamp => fail | _ => idtac end
  | load_legend => lazymatch p with legendData => fail | _ => idtac end
  | updateCoordinatesDisplay =>
      lazymatch p with coordinatesDisplay => fail | _ => idtac end
  | setActiveLayer =>
      lazymatch p with
      | panelActive => fail | currentActiveLayer => fail
      | fetched => fail | pendingStats => fail
      | _ => idtac
      end
  | fetch => lazymatch p with fetched => fail | _ => idtac end
  | showStatus => lazymatch p with statusContainer => fail | _ => idtac end
  | clearStatus => lazymatch p with statusContainer => fail | _ => idtac end
  | updateLayerStatus => lazymatch p with layerStatus => fail | _ => idtac end
  | loadLayerData =>
      lazymatch p with
      | analysisLayers => fail | nextStamp => fail | legendData => fail
      | fetched => fail
      | _ => idtac
      end
  | analyzeLayer_announce =>
      lazymatch p with
      | layerStatus => fail | itemAnalyzing => fail | statusContainer => fail
      | _ => idtac
      end
  | analyzeLayer_giveUp =>
      lazymatch p with
      | layerStatus => fail | itemAnalyzing => fail | toggleChecked => fail
      | _ => idtac
      end
  | resetLayer =>
      lazymatch p with
      | toggleChecked => fail | toggleDisabled => fail
      | layerStatus => fail | itemActive => fail | itemAnalyzing => fail
      | _ => idtac
      end
  | enableLayerToggle =>
      lazymatch p with
      | toggleChecked => fail | toggleDisabled => fail | layerStatus => fail
      | _ => idtac
      end
  end.

(** [p (step s) = p s] for one elementary step. *)
Ltac frame_solve :=
  solve [ unfold_steps; sgoal; repeat (break_match; sgoal); reflexivity ].

(** Strip from the goal one elementary step that a component does not see. *)
Ltac frame1 :=
  match goal with
  | |- context [?p (?f ?s0)] =>
      is_component p;
      let h := head_of f in
      untouched h p;
      let H := fresh "Hframe" in
      assert (H : forall x, p (f x) = p x) by (intro; frame_solve);
      rewrite (H s0); clear H
  end.

Ltac writes h p :=
  lazymatch h with
  | set_currentPolygon => lazymatch p with currentPolygon => idtac end
  | set_analysisLayers => lazymatch p with analysisLayers => idtac end
  | set_legendData => lazymatch p with legendData => idtac end
  | set_roiSetup => lazymatch p with roiSetup => idtac end
  | set_layersAnalyzed => lazymatch p with layersAnalyzed => idtac end
  | set_currentActiveLayer => lazymatch p with currentActiveLayer => idtac end
  | set_mapLayers => lazymatch p with mapLayers => idtac end
  | set_nextStamp => lazymatch p with nextStamp => idtac end
  | set_toggleChecked => lazymatch p with toggleChecked => idtac end
  | set_toggleDisabled => lazymatch p with toggleDisabled => idtac end
  | set_layerStatus => lazymatch p with layerStatus => idtac end
  | set_itemActive => lazymatch p with itemActive => idtac end
  | set_itemAnalyzing => lazymatch p with itemAnalyzing => idtac end
  | set_panelActive => lazymatch p with panelActive => idtac end
  | set_statsContent => lazymatch p with statsContent => idtac end
  | set_statusContainer => lazymatch p with statusContainer => idtac end
  | set_legendHtml => lazymatch p with legendHtml => idtac end
  | set_legendDisplay => lazymatch p with legendDisplay => idtac end
  | set_coordinatesDisplay => lazymatch p with coordinatesDisplay => idtac end
  | set_startDate => lazymatch p with startDate => idtac end
  | set_endDate => lazymatch p with endDate => idtac end
  | set_resolutionSelect => lazymatch p with resolutionSelect => idtac end
  | set_fetched => lazymatch p with fetched => idtac end
  | set_pendingStats => lazymatch p with pendingStats => idtac end
  end.

(** Read a component back from the assignment that wrote it. *)
Ltac read_back :=
  match goal with
  | |- context [?p (?f ?v ?s0)] =>
      writes f p;
      let H := fresh "Hframe" in
      assert (H : forall y, p (f v y) = v) by reflexivity;
      rewrite (H s0); clear H
  end.

Lemma fold_left_frame {A B : Type} (p : state -> A) (f : state -> B -> state) :
  (forall s b, p (f s b) = p s) -> forall bs s, p (fold_left f bs s) = p s.
Proof.
  intros H bs. induction bs as [|b bs IH]; intros s; cbn [fold_left]; [reflexivity|].
  rewrite IH. apply H.
Qed.

(** Strip a loop whose rounds a component does not see. *)
Ltac frame_fold :=
  match goal with
  | |- context [?p (fold_left ?f ?bs ?s0)] =>
      is_component p;
      let H := fresh "Hframe" in
      assert (H : forall ys y, p (fold_left f ys y) = p y)
        by (apply (fold_left_frame p f); intros; frame_solve);
      rewrite (H bs s0); clear H
  end.

Ltac frame := repeat (read_back || frame1 || frame_fold).

(** The functions built around a loop over the layers. *)
Ltac frame_loops :=
  match goal with
  | |- context [?p (resetLayerStates ?s0)] =>
      lazymatch p with
      | layersAnalyzed => fail | toggleChecked => fail | toggleDisabled => fail
      | layerStatus => fail | itemActive => fail | itemAnalyzing => fail
      | _ => is_component p
      end;
      let H := fresh "Hframe" in
      assert (H : forall x, p (resetLayerStates x) = p x)
        by (intro; unfold resetLayerStates; frame; reflexivity);
      rewrite (H s0); clear H
  | |- context [?p (enableAllLayerToggles ?s0)] =>
      lazymatch p with
      | toggleChecked => fail | toggleDisabled => fail | layerStatus => fail
      | _ => is_component p
      end;
      let H := fresh "Hframe" in
      assert (H : forall x, p (enableAllLayerToggles x) = p x)
        by (intro; unfold enableAllLayerToggles; frame; reflexivity);
      rewrite (H s0); clear H
  | |- context [?p (clearAllLayers ?s0)] =>
      lazymatch p with
      | mapLayers => fail | legendDisplay => fail | panelActive => fail
      | statusContainer => fail
      | _ => is_component p
      end;
      let H := fresh "Hframe" in
      assert (H : forall x, p (clearAllLayers x) = p x)
        by (intro; unfold clearAllLayers; frame; reflexivity);
      rewrite (H s0); clear H
  end.

Lemma lastVisibleLayer_frame s s' :
  toggleChecked s' = toggleChecked s -> layersAnalyzed s' = layersAnalyzed s ->
  lastVisibleLayer s' = lastVisibleLayer s.
Proof. intros H1 H2. apply lastVisibleLayer_ext; assumption. Qed.

Lemma setActiveLayer_panel L s :
  panelActive (setActiveLayer L s) =
  if layersAnalyzed s L then upd (fun _ => false) L true else fun _ => false.
Proof. unfold_steps. sgoal. repeat (break_match; sgoal); reflexivity. Qed.

Lemma setActiveLayer_current L s : currentActiveLayer (setActiveLayer L s) = L.
Proof. reflexivity. Qed.

Lemma setActiveLayer_fetched L s :
  fetched (setActiveLayer L s) =
  (fetched s ++ if layersAnalyzed s L then [GetStatistics L] else [])%list.
Proof.
  unfold_steps. sgoal. repeat (break_match; sgoal); rewrite ?app_nil_r; reflexivity.
Qed.

(** What [updateLayerVisibility] does to the components the statements
    below follow. *)
Lemma updateLayerVisibility_effect L v s :
  let s' := updateLayerVisibility L v s in
  let target := activation_target L v s in
  roiSetup s' = roiSetup s /\
  layersAnalyzed s' = layersAnalyzed s /\
  toggleChecked s' = toggleChecked s /\
  analysisLayers s' = analysisLayers s /\
  legendData s' = legendData s /\
  nextStamp s' = nextStamp s /\
  statusContainer s' = statusContainer s /\
  layerStatus s' = layerStatus s /\
  currentPolygon s' = currentPolygon s /\
  itemAnalyzing s' = itemAnalyzing s /\
  statsContent s' = statsContent s /\
  coordinatesDisplay s' = coordinatesDisplay s /\
  startDate s' = startDate s /\
  endDate s' = endDate s /\
  resolutionSelect s' = resolutionSelect s /\
  issued s s' match target with Some x => [GetStatistics x] | None => [] end /\
  currentActiveLayer s' = match target with Some x => x | None => currentActiveLayer s end /\
  panelActive s' = match target with
                   | Some x => upd (fun _ => false) x true
                   | None => fun _ => false
                   end.
Proof.
  cbv zeta. unfold activation_target, issued, updateLayerVisibility.
  rewrite (lastVisibleLayer_frame s) by frame_solve.
  frame.
  destruct (lastVisibleLayer s) as [last|] eqn:Hlast.
  1: apply lastVisibleLayer_some in Hlast; destruct Hlast as [Hv _];
     apply andb_true_iff in Hv; destruct Hv as [Hc Ha].
  all: destruct v; destruct (analysisLayers s L) as [t|] eqn:Ht;
       destruct (layersAnalyzed s L) eqn:HaL.
  all: rewrite ?setActiveLayer_panel, ?setActiveLayer_current, ?setActiveLayer_fetched.
  all: frame; rewrite ?HaL, ?Ha, ?app_nil_r; sgoal; repeat split; reflexivity.
Qed.

Ltac ulv_untouched p :=
  lazymatch p with
  | roiSetup => idtac | layersAnalyzed => idtac | toggleChecked => idtac
  | analysisLayers => idtac | legendData => idtac | nextStamp => idtac
  | statusContainer => idtac | layerStatus => idtac | currentPolygon => idtac
  | itemAnalyzing => idtac | statsContent => idtac | coordinatesDisplay => idtac
  | startDate => idtac | endDate => idtac | resolutionSelect => idtac
  end.

(** The same for [updateLayerVisibility]. *)
Ltac frame_ulv :=
  match goal with
  | |- context [?p (updateLayerVisibility ?L ?v ?s0)] =>
      ulv_untouched p;
      let H := fresh "Hframe" in
      assert (H : p (updateLayerVisibility L v s0) = p s0)
        by apply (updateLayerVisibility_effect L v s0);
      rewrite H; clear H
  end.

Ltac frames := repeat (read_back || frame1 || frame_fold || frame_loops || frame_ulv).

Lemma updateLayerVisibility_issued L v s :
  issued s (updateLayerVisibility L v s)
    match activation_target L v s with Some x => [GetStatistics x] | None => [] end.
Proof. apply (updateLayerVisibility_effect L v s). Qed.

Lemma updateLayerVisibility_current L v s :
  currentActiveLayer (updateLayerVisibility L v s) =
  match activation_target L v s with Some x => x | None => currentActiveLayer s end.
Proof. apply (updateLayerVisibility_effect L v s). Qed.

Lemma updateLayerVisibility_panel L v s :
  panelActive (updateLayerVisibility L v s) =
  match activation_target L v s with
  | Some x => upd (fun _ => false) x true
  | None => fun _ => false
  end.
Proof. apply (updateLayerVisibility_effect L v s). Qed.

Lemma activation_target_visible L s :
  visible s L = true -> exists x, activation_target L true s = Some x.
Proof.
  intros H. unfold activation_target.
  destruct (analysisLayers s L), (layersAnalyzed s L); eauto using lastVisibleLayer_visible.
Qed.

Lemma activation_target_sound L v s x :
  activation_target L v s = Some x ->
  layersAnalyzed s x = true /\ ((v = true /\ x = L) \/ visible s x = true).
Proof.
  unfold activation_target.
  destruct v; [destruct (analysisLayers s L) as [t|]|]; [destruct (layersAnalyzed s L) eqn:E| |].
  1: intros H; inversion H; subst; auto.
  all: intros H; apply lastVisibleLayer_some in H; destruct H as [H _];
       pose proof H as H'; unfold visible in H'; apply andb_true_iff in H'; tauto.
Qed.

(** ** Requests of [analyzeLayer] *)

Lemma analyzeLayer_cached L r s :
  roiSetup s = true -> layersAnalyzed s L = true ->
  analyzeLayer L false r s =
  (if toggleChecked s L then updateLayerVisibility L true s else s, None).
Proof.
  intros Hr Ha. unfold analyzeLayer. rewrite Hr, Ha. cbn [negb andb].
  destruct (toggleChecked s L); reflexivity.
Qed.

Lemma analyzeLayer_runs L re r s :
  roiSetup s = true -> layersAnalyzed s L && negb re = false ->
  analyzeLayer L re r s =
  try_catch (analyzeLayer_try L re r) (analyzeLayer_catch L re) (analyzeLayer_announce L re s).
Proof. intros Hr Ha. unfold analyzeLayer. rewrite Hr, Ha. reflexivity. Qed.

Lemma fetch_fetched q s : fetched (fetch q s) = (fetched s ++ [q])%list.
Proof. reflexivity. Qed.

Lemma loadLayerData_fetched L rm rl s :
  fetched (loadLayerData L rm rl s) = (fetched s ++ [GetMapUrl L; GetLegend L])%list.
Proof.
  unfold loadLayerData. frames. rewrite !fetch_fetched, <- app_assoc. reflexivity.
Qed.

Lemma analyzeLayer_requests L re r s :
  roiSetup s = true -> layersAnalyzed s L && negb re = false ->
  exists more,
    issued s (fst (analyzeLayer L re r s))
      (PostAnalyzeLayer L (date_or (startDate s) "2021-01-01")
         (date_or (endDate s) "2023-01-01")
         (resolution_or s (defaultResolution L)) :: more) /\
    analysis_requests more = [].
Proof.
  intros Hr Ha. rewrite analyzeLayer_runs by assumption.
  unfold try_catch, analyzeLayer_try, analyzeLayer_catch, analyzeLayer_succeed, issued,
    resolution_or.
  destruct (ar_analyze r) as [e|[|] st [b|e]];
    try destruct (match ab_status b with Some st0 => (st0 =? "success")%string | None => false end).
  all: repeat match goal with |- context [if toggleChecked ?x ?l then _ else _] =>
         destruct (toggleChecked x l) end.
  all: sgoal; rewrite ?setActiveLayer_fetched;
       try rewrite (updateLayerVisibility_issued _ _ _); frames.
  all: rewrite ?loadLayerData_fetched; frames; rewrite ?fetch_fetched; frames.
  all: repeat match goal with |- context [if ?c then [GetStatistics _] else []] => destruct c end.
  all: repeat match goal with |- context [match ?c with Some _ => _ | None => _ end] =>
         destruct c end.
  all: rewrite <- ?app_assoc; cbn [app]; eexists; split; [reflexivity|reflexivity].
Qed.

(** ** The panel invariant *)

Lemma upd_only_true l x : upd (fun _ : layer => false) l true x = true -> x = l.
Proof. unfold upd. destruct (layer_eqb x l) eqn:E; [|discriminate]. intros _. apply layer_eqb_eq, E. Qed.

(** Whatever the state before, [updateLayerVisibility] leaves the panels in
    step with the toggles, provided a layer shown is a layer toggled on. *)
Lemma updateLayerVisibility_panels L v s :
  (v = true -> toggleChecked s L = true) ->
  let s' := updateLayerVisibility L v s in
  (forall P, panelActive s' P = true -> P = currentActiveLayer s' /\ visible s' P = true) /\
  ((forall l, visible s' l = false) -> forall P, panelActive s' P = false).
Proof.
  intros Hv s'. subst s'.
  assert (Hvis : forall x, visible (updateLayerVisibility L v s) x = visible s x).
  { intros x. unfold visible. frames. reflexivity. }
  rewrite updateLayerVisibility_panel, updateLayerVisibility_current.
  destruct (activation_target L v s) as [x|] eqn:Ht.
  - apply activation_target_sound in Ht. destruct Ht as [Hax Hx].
    assert (Hvx : visible s x = true).
    { destruct Hx as [[-> ->]|Hx]; [|exact Hx].
      unfold visible. rewrite Hv by reflexivity. rewrite Hax. reflexivity. }
    split.
    + intros P HP. apply upd_only_true in HP. subst P. rewrite Hvis. auto.
    + intros Hnone. specialize (Hnone x). rewrite Hvis in Hnone. congruence.
  - split; [discriminate|reflexivity].
Qed.

Lemma updateLayerVisibility_invariant L v s :
  (v = true -> toggleChecked s L = true) ->
  (roiSetup s = true -> layersAnalyzed s forest = true) ->
  panel_invariant (updateLayerVisibility L v s).
Proof.
  intros Hv Hf Hr. revert Hr. frames. intros Hr.
  split; [exact (Hf Hr)|]. apply updateLayerVisibility_panels, Hv.
Qed.

(** States that agree on what the invariant reads. *)
Lemma panel_invariant_same s s' :
  roiSetup s' = roiSetup s -> layersAnalyzed s' = layersAnalyzed s ->
  toggleChecked s' = toggleChecked s -> panelActive s' = panelActive s ->
  currentActiveLayer s' = currentActiveLayer s ->
  panel_invariant s -> panel_invariant s'.
Proof.
  unfold panel_invariant, visible. intros -> -> -> -> ->. exact (fun H => H).
Qed.

Ltac same_panels := apply panel_invariant_same; frames; try reflexivity.

Lemma panel_invariant_off s : roiSetup s = false -> panel_invariant s.
Proof. intros H H'. congruence. Qed.

Lemma setActiveLayer_panels L s :
  visible s L = true ->
  let s' := setActiveLayer L s in
  (forall P, panelActive s' P = true -> P = currentActiveLayer s' /\ visible s' P = true) /\
  ((forall l, visible s' l = false) -> forall P, panelActive s' P = false).
Proof.
  intros Hv s'. subst s'.
  assert (Hvis : forall x, visible (setActiveLayer L s) x = visible s x).
  { intros x. unfold visible. frames. reflexivity. }
  rewrite setActiveLayer_panel, setActiveLayer_current.
  pose proof Hv as Hv'. unfold visible in Hv'. apply andb_true_iff in Hv'.
  destruct Hv' as [_ ->]. split.
  - intros P HP. apply upd_only_true in HP. subst P. rewrite Hvis. auto.
  - intros Hnone. specialize (Hnone L). rewrite Hvis in Hnone. congruence.
Qed.

Lemma analyzeLayer_succeed_invariant L re r s :
  panel_invariant s -> roiSetup s = true ->
  panel_invariant (analyzeLayer_succeed L re r s).
Proof.
  intros Hinv Hr. destruct (Hinv Hr) as (Hf & H2 & H3).
  unfold analyzeLayer_succeed.
  set (X := setItemActive L true _).
  assert (HXr : roiSetup X = true) by (subst X; frames; exact Hr).
  assert (HXa : layersAnalyzed X = upd (layersAnalyzed s) L true)
    by (subst X; frames; reflexivity).
  assert (HXc : toggleChecked X = toggleChecked s) by (subst X; frames; reflexivity).
  assert (HXp : panelActive X = panelActive s) by (subst X; frames; reflexivity).
  assert (HXk : currentActiveLayer X = currentActiveLayer s) by (subst X; frames; reflexivity).
  assert (HXf : layersAnalyzed X forest = true).
  { rewrite HXa. unfold upd. destruct (layer_eqb forest L); auto. }
  assert (Hmono : forall x, visible s x = true -> visible X x = true).
  { intros x. unfold visible. rewrite HXc, HXa. unfold upd.
    destruct (layer_eqb x L); [|auto].
    intros H. apply andb_true_iff in H. destruct H as [-> _]. reflexivity. }
  destruct (toggleChecked X L) eqn:HcL.
  - intros _. split.
    + frames. exact HXf.
    + apply setActiveLayer_panels. unfold visible. frames.
      rewrite HcL, HXa, upd_same. reflexivity.
  - intros _. split; [exact HXf|]. split.
    + intros P HP. rewrite HXp in HP. destruct (H2 P HP) as [-> Hv].
      rewrite HXk. auto.
    + intros Hnone P. rewrite HXp. apply H3. intros l.
      destruct (visible s l) eqn:E; [|reflexivity].
      apply Hmono in E. rewrite Hnone in E. discriminate.
Qed.

Lemma analyzeLayer_giveUp_invariant L re msg s :
  (re = false -> layersAnalyzed s L = false) ->
  panel_invariant s -> panel_invariant (analyzeLayer_giveUp L re msg s).
Proof.
  intros Hna Hinv. destruct re.
  - revert Hinv. same_panels.
  - specialize (Hna eq_refl). intros Hr. revert Hr. frames. intros Hr.
    destruct (Hinv Hr) as (Hf & H2 & H3).
    assert (Hvis : forall x, visible (analyzeLayer_giveUp L false msg s) x = visible s x).
    { intros x. unfold visible, analyzeLayer_giveUp, setToggleChecked. frames. unfold upd.
      destruct (layer_eqb x L) eqn:E; [|reflexivity].
      apply layer_eqb_eq in E. subst x. rewrite Hna, !andb_false_r. reflexivity. }
    split; [exact Hf|]. split.
    + intros P HP. rewrite Hvis. apply H2, HP.
    + intros Hnone. apply H3. intros l. rewrite <- Hvis. apply Hnone.
Qed.

Lemma analyzeLayer_invariant L re r s :
  panel_invariant s -> panel_invariant (fst (analyzeLayer L re r s)).
Proof.
  intros Hinv. unfold analyzeLayer.
  destruct (roiSetup s) eqn:Hr; cbn [negb].
  2: { apply panel_invariant_off. frames. exact Hr. }
  destruct (layersAnalyzed s L && negb re) eqn:Ha.
  - destruct (toggleChecked s L) eqn:Hc; [|exact Hinv].
    cbn [fst]. apply updateLayerVisibility_invariant; [auto|]. intros _. apply (Hinv Hr).
  - assert (Hann : panel_invariant (analyzeLayer_announce L re s)).
    { revert Hinv. same_panels. }
    assert (Hna : re = false -> layersAnalyzed s L = false).
    { intros ->. rewrite andb_true_r in Ha. exact Ha. }
    unfold try_catch, analyzeLayer_try, analyzeLayer_catch.
    set (q := PostAnalyzeLayer _ _ _ _).
    set (s1 := fetch q (analyzeLayer_announce L re s)).
    assert (H1 : panel_invariant s1) by (subst s1; revert Hann; same_panels).
    assert (Hna1 : re = false -> layersAnalyzed s1 L = false)
      by (subst s1; frames; exact Hna).
    assert (Hgive : forall kind m msg,
              panel_invariant (analyzeLayer_giveUp L re msg (showStatus m kind s1))).
    { intros kind m msg. apply analyzeLayer_giveUp_invariant; [frames; exact Hna1|].
      revert H1. same_panels. }
    destruct (ar_analyze r) as [e|[|] st [b|e]]; cbn [fst]; try apply Hgive.
    destruct (match ab_status b with Some st0 => (st0 =? "success")%string | None => false end);
      cbn [fst]; [|apply Hgive].
    apply analyzeLayer_succeed_invariant; [exact H1|]. subst s1. frames. exact Hr.
Qed.

Lemma enableLayerToggle_toggle s x :
  toggleChecked (enableLayerToggle s x) = upd (toggleChecked s) x (layer_eqb x forest) /\
  toggleDisabled (enableLayerToggle s x) = upd (toggleDisabled s) x false.
Proof.
  unfold enableLayerToggle. destruct (layer_eqb x forest); unfold_steps; sgoal; auto.
Qed.

Lemma enableAllLayerToggles_checked s l :
  toggleChecked (enableAllLayerToggles s) l = layer_eqb l forest.
Proof.
  unfold enableAllLayerToggles. cbn [fold_left validLayers].
  repeat rewrite (proj1 (enableLayerToggle_toggle _ _)).
  destruct l; reflexivity.
Qed.

Lemma enableAllLayerToggles_enabled s l :
  toggleDisabled (enableAllLayerToggles s) l = false.
Proof.
  unfold enableAllLayerToggles. cbn [fold_left validLayers].
  repeat rewrite (proj2 (enableLayerToggle_toggle _ _)).
  destruct l; reflexivity.
Qed.

Lemma resetLayer_toggle s x :
  toggleChecked (resetLayer s x) = upd (toggleChecked s) x false /\
  toggleDisabled (resetLayer s x) = upd (toggleDisabled s) x true.
Proof. unfold_steps. sgoal. auto. Qed.

Lemma resetLayerStates_flags s l :
  layersAnalyzed (resetLayerStates s) l = false /\
  toggleChecked (resetLayerStates s) l = false /\
  toggleDisabled (resetLayerStates s) l = true.
Proof.
  unfold resetLayerStates. frames. cbn [fold_left validLayers].
  repeat rewrite (proj1 (resetLayer_toggle _ _)).
  repeat rewrite (proj2 (resetLayer_toggle _ _)).
  destruct l; repeat split; reflexivity.
Qed.

Lemma resetLayer_items s x :
  itemActive (resetLayer s x) = upd (itemActive s) x false /\
  itemAnalyzing (resetLayer s x) = upd (itemAnalyzing s) x false /\
  layerStatus (resetLayer s x) = upd (layerStatus s) x "Draw ROI to enable".
Proof. unfold_steps. sgoal. auto. Qed.

Lemma resetLayerStates_items s l :
  itemActive (resetLayerStates s) l = layer_eqb l forest /\
  itemAnalyzing (resetLayerStates s) l = false /\
  layerStatus (resetLayerStates s) l =
    if layer_eqb l forest then "Ready (Default)" else "Draw ROI to enable".
Proof.
  unfold resetLayerStates, setItemActive, updateLayerStatus. frames.
  cbn [fold_left validLayers].
  repeat rewrite (proj1 (resetLayer_items _ _)).
  repeat rewrite (proj1 (proj2 (resetLayer_items _ _))).
  repeat rewrite (proj2 (proj2 (resetLayer_items _ _))).
  destruct l; repeat split; reflexivity.
Qed.

(** The state [setupROI] reaches on success satisfies the invariant
    whatever came before. *)
Lemma setupROI_finish_invariant r s :
  layersAnalyzed s = forest_only ->
  panel_invariant (setupROI_finish r s).
Proof.
  intros Ha _. unfold setupROI_finish.
  set (Z := loadLayerData forest (sr_map r) (sr_legend r) (enableAllLayerToggles s)).
  assert (HZc : toggleChecked Z forest = true).
  { subst Z. frames. apply enableAllLayerToggles_checked. }
  assert (HZa : layersAnalyzed Z = forest_only) by (subst Z; frames; exact Ha).
  destruct (updateLayerVisibility_panels forest true Z (fun _ => HZc)) as [H2 H3].
  set (U := updateLayerVisibility forest true Z) in *.
  assert (HUc : toggleChecked U forest = true) by (subst U; frames; exact HZc).
  assert (Hvis : forall x,
    visible (setToggleDisabled forest false
               (setToggleChecked forest true (updateLayerStatus forest "Analyzed" U))) x
    = visible U x).
  { intros x. unfold visible, setToggleChecked. frames. unfold upd.
    destruct (layer_eqb x forest) eqn:E; [|reflexivity].
    apply layer_eqb_eq in E. subst x. rewrite HUc. reflexivity. }
  split; [|split].
  - frames. subst U. frames. rewrite HZa. reflexivity.
  - intros P. rewrite Hvis. frames. apply H2.
  - intros Hnone P. frames. apply H3. intros l. rewrite <- Hvis. apply Hnone.
Qed.

Lemma setupROI_invariant r s :
  panel_invariant s -> panel_invariant (fst (setupROI r s)).
Proof.
  intros Hinv. unfold setupROI.
  destruct (currentPolygon s) as [shape|]; [|exact Hinv].
  assert (Hcatch : forall e x, panel_invariant (fst (setupROI_catch e x))).
  { intros e x. apply panel_invariant_off. unfold setupROI_catch. frames. reflexivity. }
  unfold try_catch, setupROI_try.
  destruct (sr_setup r) as [e|[|] st [b|e]]; try apply Hcatch.
  destruct (match sb_status b with Some st0 => (st0 =? "success")%string | None => false end).
  - destruct (sb_area_km2 b) as [area|]; [|apply Hcatch].
    cbn [fst]. apply setupROI_finish_invariant. frames. reflexivity.
  - cbn [fst]. apply panel_invariant_off. frames. reflexivity.
Qed.

Lemma setToggleChecked_invariant l b s :
  layersAnalyzed s l = false -> panel_invariant s ->
  panel_invariant (setToggleChecked l b s).
Proof.
  intros Hna Hinv Hr. revert Hr. frames. intros Hr.
  destruct (Hinv Hr) as (Hf & H2 & H3).
  assert (Hvis : forall x, visible (setToggleChecked l b s) x = visible s x).
  { intros x. unfold visible, setToggleChecked. frames. unfold upd.
    destruct (layer_eqb x l) eqn:E; [|reflexivity].
    apply layer_eqb_eq in E. subst x. rewrite Hna, !andb_false_r. reflexivity. }
  split; [exact Hf|]. split.
  - intros P HP. rewrite Hvis. apply H2, HP.
  - intros Hnone. apply H3. intros x. rewrite <- Hvis. apply Hnone.
Qed.

Lemma onToggleChange_invariant l r s :
  panel_invariant s -> panel_invariant (fst (onToggleChange l r s)).
Proof.
  intros Hinv. unfold onToggleChange.
  assert (Hf1 : roiSetup (setToggleChecked l (negb (toggleChecked s l)) s) = true ->
                layersAnalyzed (setToggleChecked l (negb (toggleChecked s l)) s) forest = true).
  { frames. intros Hr. apply (Hinv Hr). }
  assert (Hon : layersAnalyzed (setToggleChecked l (negb (toggleChecked s l)) s) l = false ->
                panel_invariant (setToggleChecked l (negb (toggleChecked s l)) s)).
  { frames. intros Hna. apply setToggleChecked_invariant; assumption. }
  remember (setToggleChecked l (negb (toggleChecked s l)) s) as s1 eqn:Es1. clear Es1.
  destruct (toggleChecked s1 l) eqn:Hc.
  - destruct (layersAnalyzed s1 l) eqn:Ha.
    + assert (Hshow : panel_invariant (updateLayerVisibility l true s1))
        by (apply updateLayerVisibility_invariant; auto).
      destruct l; cbn [negb fst]; try rewrite Ha; exact Hshow.
    + specialize (Hon eq_refl).
      destruct l; cbn [negb fst]; try rewrite Ha; cbn [negb fst];
        [exact Hon | apply analyzeLayer_invariant, Hon ..].
  - cbn [fst]. apply updateLayerVisibility_invariant; [discriminate|exact Hf1].
Qed.

Lemma reanalyze_all_invariant ls r s :
  panel_invariant s -> panel_invariant (fst (reanalyze_all ls r s)).
Proof.
  revert s. induction ls as [|l rest IH]; intros s Hinv; cbn [reanalyze_all]; [exact Hinv|].
  pose proof (analyzeLayer_invariant l true (r l) s Hinv) as H.
  destruct (analyzeLayer l true (r l) s) as [s' [e|]]; cbn [fst] in *; auto.
Qed.

Lemma updateLayerStatus_fold_invariant progress ls s :
  panel_invariant s ->
  panel_invariant (fold_left (fun s l => updateLayerStatus l progress s) ls s).
Proof.
  revert s. induction ls as [|l rest IH]; intros s Hinv; cbn [fold_left]; [exact Hinv|].
  apply IH. revert Hinv. same_panels.
Qed.

Lemma handleParameterChange_invariant a p r s :
  panel_invariant s -> panel_invariant (fst (handleParameterChange a p r s)).
Proof.
  intros Hinv. unfold handleParameterChange.
  destruct (roiSetup s); cbn [negb]; [|exact Hinv].
  destruct (layersToReanalyze s) as [|l ls]; [exact Hinv|].
  apply reanalyze_all_invariant, updateLayerStatus_fold_invariant.
  revert Hinv. same_panels.
Qed.

Lemma onCreated_invariant shape r s :
  panel_invariant s -> panel_invariant (fst (onCreated shape r s)).
Proof.
  intros Hinv. unfold onCreated. apply setupROI_invariant. revert Hinv. same_panels.
Qed.

Lemma onEdited_invariant shape r s :
  panel_invariant s -> panel_invariant (fst (onEdited shape r s)).
Proof.
  intros Hinv. unfold onEdited. apply setupROI_invariant.
  destruct (currentPolygon s); revert Hinv; same_panels.
Qed.

Lemma onDeleted_invariant s : panel_invariant (onDeleted s).
Proof. apply panel_invariant_off. unfold onDeleted. frames. reflexivity. Qed.

Lemma handleDateChange_invariant r s :
  panel_invariant s -> panel_invariant (fst (handleDateChange r s)).
Proof. unfold handleDateChange. apply handleParameterChange_invariant. Qed.

Lemma handleResolutionChange_invariant r s :
  panel_invariant s -> panel_invariant (fst (handleResolutionChange r s)).
Proof. unfold handleResolutionChange. apply handleParameterChange_invariant. Qed.

Lemma loadStatistics_reply_invariant l r s :
  panel_invariant s -> panel_invariant (loadStatistics_reply l r s).
Proof.
  apply panel_invariant_same; unfold loadStatistics_reply; repeat break_match; frames;
    reflexivity.
Qed.

Lemma handle_invariant e s s' x :
  panel_invariant s -> handle e s = Some (s', x) -> panel_invariant s'.
Proof.
  intros Hinv He.
  assert (Hfst : option_map fst (handle e s) = Some s') by (rewrite He; reflexivity).
  clear He. destruct e; cbn [handle] in Hfst.
  - injection Hfst as <-. apply onCreated_invariant, Hinv.
  - destruct (currentPolygon s); [|discriminate].
    injection Hfst as <-. apply onEdited_invariant, Hinv.
  - destruct (currentPolygon s); [|discriminate].
    injection Hfst as <-. apply onDeleted_invariant.
  - destruct (toggleDisabled s l); [discriminate|].
    injection Hfst as <-. apply onToggleChange_invariant, Hinv.
  - injection Hfst as <-. apply handleDateChange_invariant. revert Hinv. same_panels.
  - injection Hfst as <-. apply handleDateChange_invariant. revert Hinv. same_panels.
  - injection Hfst as <-. apply handleResolutionChange_invariant. revert Hinv. same_panels.
  - destruct (existsb (layer_eqb l) (pendingStats s)); [|discriminate].
    injection Hfst as <-. apply loadStatistics_reply_invariant. revert Hinv. same_panels.
Qed.

Lemma reachable_panel_invariant s : reachable s -> panel_invariant s.
Proof.
  induction 1 as [markup|s e s' x _ IH Hstep].
  - apply panel_invariant_off. unfold initializeApp, script_start. frames. reflexivity.
  - eapply handle_invariant; eassumption.
Qed.

Lemma run_reachable es s s' : reachable s -> run es s = Some s' -> reachable s'.
Proof.
  revert s. induction es as [|e rest IH]; intros s Hs; cbn [run].
  - intros H. inversion H. subst. exact Hs.
  - destruct (handle e s) as [[s1 x]|] eqn:He; [|discriminate].
    apply IH. eapply reachable_step; eassumption.
Qed.

(* ================================================================== *)
(** * Requests of an analysis (C1, C9) *)

Lemma visible_target L s :
  toggleChecked s L = true -> layersAnalyzed s L = true ->
  exists x, activation_target L true s = Some x.
Proof.
  intros Hc Ha. apply activation_target_visible. unfold visible. rewrite Hc, Ha. reflexivity.
Qed.

(** Showing a layer that is toggled on and analyzed asks for one thing:
    the statistics of the layer that becomes active. *)
Lemma updateLayerVisibility_show_issued L s :
  toggleChecked s L = true -> layersAnalyzed s L = true ->
  issued s (updateLayerVisibility L true s)
    [GetStatistics (currentActiveLayer (updateLayerVisibility L true s))].
Proof.
  intros Hc Ha. destruct (visible_target L s Hc Ha) as [x Hx].
  pose proof (updateLayerVisibility_issued L true s) as Hi.
  rewrite updateLayerVisibility_current. rewrite Hx in *. exact Hi.
Qed.

(** The forest toggle of a reachable state is never left unanalyzed while
    the ROI is established. *)
Lemma reachable_forest_analyzed s :
  reachable s -> roiSetup s = true -> layersAnalyzed s forest = true.
Proof. intros Hs Hr. apply (reachable_panel_invariant s Hs Hr). Qed.

(** C1, as the spec states it, fails: calling [analyzeLayer] for a layer
    that is already analyzed and toggled on performs a fetch, the request
    for the statistics of the layer. *)
Lemma reshow_fetches_statistics :
  roiSetup after_setup = true /\
  layersAnalyzed after_setup forest = true /\
  fetched (fst (analyzeLayer forest false (analysis_all_ok forest) after_setup)) =
  (fetched after_setup ++ [GetStatistics forest])%list.
Proof. vm_compute. repeat split. Qed.

(** C1 (amended): with the ROI established, [analyzeLayer(L, false)] on an
    analyzed layer sends no analysis request and loads no overlay or legend:
    it changes nothing when L's toggle is unchecked, and when it is checked
    the only request is the one for the statistics of the layer that becomes
    active.  On a layer that is not analyzed it sends exactly one analysis
    request, for L.  In a reachable state, toggling L on does the same:
    one analysis request when L is not analyzed, none (only the statistics
    request) when it is. *)
Theorem analyzeLayer_requests_once (L : layer) (r : analysis_replies) (s : state) :
  roiSetup s = true ->
  (layersAnalyzed s L = true ->
     let s' := fst (analyzeLayer L false r s) in
     (toggleChecked s L = false -> s' = s) /\
     (toggleChecked s L = true -> issued s s' [GetStatistics (currentActiveLayer s')])) /\
  (layersAnalyzed s L = false ->
     exists sd ed res more,
       issued s (fst (analyzeLayer L false r s)) (PostAnalyzeLayer L sd ed res :: more) /\
       analysis_requests more = []) /\
  (reachable s -> toggleChecked s L = false ->
     let s' := fst (onToggleChange L r s) in
     (layersAnalyzed s L = false ->
        exists sd ed res more,
          issued s s' (PostAnalyzeLayer L sd ed res :: more) /\
          analysis_requests more = []) /\
     (layersAnalyzed s L = true ->
        issued s s' [GetStatistics (currentActiveLayer s')])).
Proof.
  intros Hr. split; [|split].
  - intros Ha s'. subst s'. rewrite analyzeLayer_cached by assumption. cbn [fst].
    split; intros Hc; rewrite Hc; [reflexivity|].
    apply updateLayerVisibility_show_issued; assumption.
  - intros Ha.
    destruct (analyzeLayer_requests L false r s Hr) as (more & Hi & Hm).
    { rewrite Ha. reflexivity. }
    eauto 6.
  - intros Hreach Hc s'. subst s'. unfold onToggleChange.
    assert (Hc1 : toggleChecked (setToggleChecked L (negb (toggleChecked s L)) s) L = true).
    { unfold setToggleChecked. frames. rewrite upd_same, Hc. reflexivity. }
    assert (Ha1 : layersAnalyzed (setToggleChecked L (negb (toggleChecked s L)) s)
                  = layersAnalyzed s) by (frames; reflexivity).
    assert (Hr1 : roiSetup (setToggleChecked L (negb (toggleChecked s L)) s) = true)
      by (frames; exact Hr).
    assert (Hf1 : fetched (setToggleChecked L (negb (toggleChecked s L)) s) = fetched s)
      by (frames; reflexivity).
    remember (setToggleChecked L (negb (toggleChecked s L)) s) as s1 eqn:Es1. clear Es1.
    rewrite Hc1. unfold issued. rewrite <- Hf1. rewrite <- Ha1.
    split; intros Ha.
    + assert (HL : L <> forest).
      { intros ->. rewrite Ha1, (reachable_forest_analyzed s Hreach Hr) in Ha. discriminate. }
      destruct (analyzeLayer_requests L false r s1 Hr1) as (more & Hi & Hm).
      { rewrite Ha. reflexivity. }
      destruct L; try contradiction; rewrite Ha; cbn [negb]; eauto 6.
    + pose proof (updateLayerVisibility_show_issued L s1 Hc1 Ha) as Hi.
      destruct L; rewrite Ha; cbn [negb fst]; exact Hi.
Qed.

Lemma analyzeLayer_requests_once_witness :
  exists sd ed res more,
    issued after_setup
      (fst (analyzeLayer wetland false (analysis_all_ok wetland) after_setup))
      (PostAnalyzeLayer wetland sd ed res :: more) /\
    analysis_requests more = [].
Proof.
  assert (Hr : roiSetup after_setup = true) by (vm_compute; reflexivity).
  assert (Ha : layersAnalyzed after_setup wetland = false) by (vm_compute; reflexivity).
  exact (proj1 (proj2 (analyzeLayer_requests_once wetland (analysis_all_ok wetland)
                         after_setup Hr)) Ha).
Defined.

(** C9: with no resolution selected, the analysis request of
    [analyzeLayer(L, _)] carries the default resolution of L from the fixed
    table, and it is the only analysis request of the call. *)
Theorem analyzeLayer_default_resolution
    (L : layer) (isReanalysis : bool) (r : analysis_replies) (s : state) :
  roiSetup s = true ->
  layersAnalyzed s L && negb isReanalysis = false ->
  resolutionSelect s = "" ->
  exists sd ed more,
    issued s (fst (analyzeLayer L isReanalysis r s))
      (PostAnalyzeLayer L sd ed
         (Some match L with
               | forest => 10 | wetland => 10 | tundra => 250 | grassland => 10
               | algal_blooms => 300 | soil => 500 | chlorophyll => 4638
               end%Z) :: more) /\
    analysis_requests more = [].
Proof.
  intros Hr Ha Hres.
  destruct (analyzeLayer_requests L isReanalysis r s Hr Ha) as (more & Hi & Hm).
  unfold resolution_or in Hi. rewrite Hres in Hi. cbn [String.eqb] in Hi.
  exists (date_or (startDate s) "2021-01-01"), (date_or (endDate s) "2023-01-01"), more.
  split; [|exact Hm]. destruct L; exact Hi.
Qed.

Lemma analyzeLayer_default_resolution_witness :
  exists sd ed more,
    issued (set_resolutionSelect "" after_setup)
      (fst (analyzeLayer tundra false (analysis_all_ok tundra)
              (set_resolutionSelect "" after_setup)))
      (PostAnalyzeLayer tundra sd ed (Some 250%Z) :: more) /\
    analysis_requests more = [].
Proof.
  apply (analyzeLayer_default_resolution tundra false (analysis_all_ok tundra)
           (set_resolutionSelect "" after_setup)); vm_compute; reflexivity.
Defined.

(* ================================================================== *)
(** * The active layer (C2) *)

Lemma after_setup_reachable : reachable after_setup.
Proof.
  apply (run_reachable [Created triangle (setup_all_ok (dbl 12.3456))]
           (initializeApp blank_page)); [apply reachable_init|].
  vm_compute. reflexivity.
Qed.

Lemma after_failed_setup_reachable : reachable after_failed_setup.
Proof.
  apply (run_reachable
           [Created triangle (setup_all_ok (dbl 12.3456));
            ToggleChanged soil (analysis_all_ok soil);
            Edited triangle (setup_failing "GEE quota exceeded")]
           (initializeApp blank_page)); [apply reachable_init|].
  vm_compute. reflexivity.
Qed.

(** C2: the code misses it.  After a setup that succeeded and soil shown,
    the shape is edited and the new setup is refused: the failure path
    resets every flag and toggle but not the statistics panels, so the
    panel of soil is still displayed and soil is still
    [currentActiveLayer], while no layer is analyzed, no toggle is checked
    and no layer is visible. *)
Lemma stale_active_layer :
  reachable after_failed_setup /\
  roiSetup after_failed_setup = false /\
  panelActive after_failed_setup soil = true /\
  currentActiveLayer after_failed_setup = soil /\
  layersAnalyzed after_failed_setup soil = false /\
  toggleChecked after_failed_setup soil = false /\
  map (visible after_failed_setup) validLayers = map (fun _ => false) validLayers.
Proof.
  split; [exact after_failed_setup_reachable|]. vm_compute. repeat split.
Qed.

(* ================================================================== *)
(** * Failure of an analysis (C4) *)

Lemma occurs_in_refl d : occurs_in d d.
Proof. exists "", "". cbn. rewrite string_app_nil_r. reflexivity. Qed.

Lemma occurs_in_app_l a b d : occurs_in d b -> occurs_in d (a ++ b).
Proof.
  intros (pre & post & ->). exists (a ++ pre), post. symmetry. apply string_app_assoc.
Qed.

Lemma occurs_in_app_r a b d : occurs_in d a -> occurs_in d (a ++ b).
Proof.
  intros (pre & post & ->). exists pre, (post ++ b).
  rewrite !string_app_assoc. reflexivity.
Qed.

Lemma occurs_in_fallback d fallback : occurs_in d (str_or (Some d) fallback).
Proof.
  unfold str_or. destruct (String.eqb d "") eqn:E; [|apply occurs_in_refl].
  apply String.eqb_eq in E. subst d. exists "", fallback. reflexivity.
Qed.

Ltac occurs :=
  repeat apply occurs_in_app_l; first [apply occurs_in_refl | apply occurs_in_fallback].

Lemma status_markup_error m s : statusContainer (showStatus m "error" s) = status_markup "error" m.
Proof. reflexivity. Qed.

Lemma analyzeLayer_giveUp_effect L re msg s :
  let s' := analyzeLayer_giveUp L re msg s in
  layersAnalyzed s' = layersAnalyzed s /\
  statusContainer s' = statusContainer s /\
  layerStatus s' L = msg /\
  itemAnalyzing s' L = false /\
  toggleChecked s' L = (if re then toggleChecked s L else false) /\
  (forall l, l <> L -> toggleChecked s' l = toggleChecked s l).
Proof.
  unfold analyzeLayer_giveUp. cbv zeta. destruct re; unfold_steps; sgoal;
    rewrite ?upd_same; repeat split; auto; intros l Hl; apply upd_other, Hl.
Qed.

(** C4, as the spec states it, fails: a forced re-analysis is run on a
    layer whose flag is true, and when it fails the flag is still true. *)
Lemma failed_reanalysis_keeps_flag :
  roiSetup soil_shown = true /\
  layersAnalyzed soil_shown soil = true /\
  analysis_failed (ar_analyze (analysis_failing "GEE quota exceeded")) = true /\
  layersAnalyzed
    (fst (analyzeLayer soil true (analysis_failing "GEE quota exceeded") soil_shown))
    soil = true.
Proof. vm_compute. repeat split. Qed.

(** C4 (amended): when [analyzeLayer(L, isReanalysis)] fails (status other
    than success, reply that is not 2xx, or exception), the analyzed flags
    are left as they were (so L's flag stays false after a first analysis,
    and stays true after a failed forced re-analysis of an analyzed layer),
    L's status text is one of the two retry prompts, the status message is an
    error message in which the detail sent by the server, or the message of
    the exception, occurs, and L's toggle is unchecked when the call is not
    a forced re-analysis and left as it was when it is; nothing is thrown. *)
Theorem analyzeLayer_failure
    (L : layer) (isReanalysis : bool) (r : analysis_replies) (s : state) :
  roiSetup s = true ->
  layersAnalyzed s L && negb isReanalysis = false ->
  analysis_failed (ar_analyze r) = true ->
  let s' := fst (analyzeLayer L isReanalysis r s) in
  snd (analyzeLayer L isReanalysis r s) = None /\
  (forall l, layersAnalyzed s' l = layersAnalyzed s l) /\
  (layerStatus s' L = "Failed - Click toggle to retry" \/
   layerStatus s' L = "Error - Click toggle to retry") /\
  toggleChecked s' L = (if isReanalysis then toggleChecked s L else false) /\
  (forall l, l <> L -> toggleChecked s' l = toggleChecked s l) /\
  exists message,
    statusContainer s' = status_markup "error" message /\
    (forall ok st b d,
       ar_analyze r = Response ok st (Ok b) -> ab_detail b = Some d ->
       occurs_in d message) /\
    (forall e, ar_analyze r = Rejected e -> occurs_in (exn_message e) message).
Proof.
  intros Hr Ha Hfail s'. subst s'. rewrite analyzeLayer_runs by assumption.
  unfold try_catch, analyzeLayer_try, analyzeLayer_catch.
  set (s1 := fetch _ (analyzeLayer_announce L isReanalysis s)).
  assert (Ha1 : layersAnalyzed s1 = layersAnalyzed s) by (subst s1; frames; reflexivity).
  assert (Hc1 : toggleChecked s1 = toggleChecked s) by (subst s1; frames; reflexivity).
  assert (Hgive : forall m msg,
    msg = "Failed - Click toggle to retry" \/ msg = "Error - Click toggle to retry" ->
    let s' := analyzeLayer_giveUp L isReanalysis msg (showStatus m "error" s1) in
    (forall l, layersAnalyzed s' l = layersAnalyzed s l) /\
    (layerStatus s' L = "Failed - Click toggle to retry" \/
     layerStatus s' L = "Error - Click toggle to retry") /\
    toggleChecked s' L = (if isReanalysis then toggleChecked s L else false) /\
    (forall l, l <> L -> toggleChecked s' l = toggleChecked s l) /\
    statusContainer s' = status_markup "error" m).
  { intros m msg Hmsg.
    destruct (analyzeLayer_giveUp_effect L isReanalysis msg (showStatus m "error" s1))
      as (E1 & E2 & E3 & _ & E5 & E6).
    cbv zeta. rewrite E1, E2, E3, E5. split; [|split; [|split; [|split]]].
    - intros l. frames. rewrite Ha1. reflexivity.
    - exact Hmsg.
    - frames. rewrite Hc1. reflexivity.
    - intros l Hl. rewrite (E6 l Hl). frames. rewrite Hc1. reflexivity.
    - apply status_markup_error. }
  clearbody s1.
  destruct (ar_analyze r) as [e|[|] st [b|e]] eqn:Hreply; cbn [fst snd].
  - destruct (Hgive ("Error analyzing " ++ layer_name L ++ ": " ++ exn_message e) _
                (or_intror eq_refl)) as (G1 & G2 & G3 & G4 & G5).
    repeat (split; [first [reflexivity | assumption]|]).
    eexists; split; [exact G5|]. split; [intros; discriminate|].
    intros e' He'. injection He' as <-. occurs.
  - cbn [analysis_failed] in Hfail. unfold is_success in Hfail.
    destruct (match ab_status b with Some st0 => (st0 =? "success")%string | None => false end);
      [discriminate|]. cbn [fst snd].
    destruct (Hgive (layer_name L ++ " analysis failed: "
                     ++ str_or (ab_detail b) "Unknown error") _ (or_introl eq_refl))
      as (G1 & G2 & G3 & G4 & G5).
    repeat (split; [first [reflexivity | assumption]|]).
    eexists; split; [exact G5|]. split; [|intros; discriminate].
    intros ok st' b' d Hb Hd. injection Hb as _ _ <-. rewrite Hd. occurs.
  - destruct (Hgive ("Error analyzing " ++ layer_name L ++ ": " ++ exn_message e) _
                (or_intror eq_refl)) as (G1 & G2 & G3 & G4 & G5).
    repeat (split; [first [reflexivity | assumption]|]).
    eexists; split; [exact G5|]. split; intros; discriminate.
  - destruct (Hgive ("Error analyzing " ++ layer_name L ++ ": "
                     ++ exn_message (http_error st (Ok (ab_detail b)))) _
                (or_intror eq_refl)) as (G1 & G2 & G3 & G4 & G5).
    repeat (split; [first [reflexivity | assumption]|]).
    eexists; split; [exact G5|]. split; [|intros; discriminate].
    intros ok st' b' d Hb Hd. injection Hb as _ _ <-. rewrite Hd.
    cbn [http_error exn_message]. occurs.
  - destruct (Hgive ("Error analyzing " ++ layer_name L ++ ": "
                     ++ exn_message (http_error st (Throw e))) _
                (or_intror eq_refl)) as (G1 & G2 & G3 & G4 & G5).
    repeat (split; [first [reflexivity | assumption]|]).
    eexists; split; [exact G5|]. split; intros; discriminate.
Qed.

Lemma analyzeLayer_failure_witness :
  let s' := fst (analyzeLayer wetland false (analysis_failing "GEE quota exceeded")
                   after_setup) in
  layersAnalyzed s' wetland = layersAnalyzed after_setup wetland /\
  toggleChecked s' wetland = false /\
  exists message,
    statusContainer s' = status_markup "error" message /\
    occurs_in "GEE quota exceeded" message.
Proof.
  assert (H1 : roiSetup after_setup = true) by (vm_compute; reflexivity).
  assert (H2 : layersAnalyzed after_setup wetland && negb false = false)
    by (vm_compute; reflexivity).
  assert (H3 : analysis_failed (ar_analyze (analysis_failing "GEE quota exceeded")) = true)
    by reflexivity.
  destruct (analyzeLayer_failure wetland false (analysis_failing "GEE quota exceeded")
              after_setup H1 H2 H3) as (_ & Ha & _ & Hc & _ & m & Hm & Hd & _).
  split; [apply Ha|]. split; [exact Hc|]. exists m. split; [exact Hm|].
  apply (Hd false 500%Z {| ab_status := None; ab_detail := Some "GEE quota exceeded" |});
    reflexivity.
Defined.

(* ================================================================== *)
(** * Failure of the ROI setup (C6) *)




(* ================================================================== *)
(** * Hiding a layer (C7) *)

Lemma updateLayerVisibility_scrutinee L s :
  let s2 := setItemActive L false (detachOverlay L s) in
  analysisLayers s2 = analysisLayers s /\ layersAnalyzed s2 = layersAnalyzed s /\
  legendData s2 = legendData s /\ legendHtml s2 = legendHtml s /\
  legendDisplay s2 = legendDisplay s /\ toggleDisabled s2 = toggleDisabled s /\
  lastVisibleLayer s2 = lastVisibleLayer s.
Proof.
  cbv zeta. repeat split; try (frames; reflexivity).
  apply lastVisibleLayer_frame; frames; reflexivity.
Qed.

(** The legend panel after [updateLayerVisibility(L, false)]. *)
Lemma updateLayerVisibility_hide_legend L s :
  let s' := updateLayerVisibility L false s in
  match lastVisibleLayer s with
  | Some last =>
      match legendData s last with
      | Some lg =>
          match legendInfo_of last lg with
          | Some legendInfo =>
              legendHtml s' = legend_html legendInfo /\ legendDisplay s' = "block"
          | None => legendHtml s' = legendHtml s /\ legendDisplay s' = "none"
          end
      | None => legendHtml s' = legendHtml s /\ legendDisplay s' = legendDisplay s
      end
  | None => legendHtml s' = legendHtml s /\ legendDisplay s' = "none"
  end.
Proof.
  cbv zeta. unfold updateLayerVisibility.
  destruct (updateLayerVisibility_scrutinee L s) as (_ & _ & Hd & Hh & Hp & _ & Hl).
  cbv zeta in *. rewrite Hl.
  destruct (lastVisibleLayer s) as [last|].
  - frames. unfold showPromotedLegend. rewrite Hd.
    destruct (legendData s last) as [lg|]; [destruct (legendInfo_of last lg)|];
      unfold showMapLegend, hideMapLegend; frames; auto.
  - unfold hideMapLegend. frames. auto.
Qed.

(** C7: the code misses it.  Wetland and soil are analyzed and visible,
    but no legend is cached for soil (its legend request was answered 404);
    hiding wetland makes soil the active layer and leaves the legend of
    wetland on display: the branch that promotes a layer hides the legend
    panel when the cached legend lacks the key of the layer, but does
    nothing when no legend is cached for it. *)
Lemma promoted_layer_without_legend :
  let s' := updateLayerVisibility wetland false
              (setToggleChecked wetland false soil_without_legend) in
  layersAnalyzed soil_without_legend wetland = true /\
  toggleChecked soil_without_legend wetland = true /\
  layersAnalyzed soil_without_legend soil = true /\
  toggleChecked soil_without_legend soil = true /\
  currentActiveLayer s' = soil /\
  legendDisplay s' = "block" /\
  match legendInfo_of wetland (sample_legend wetland) with
  | Some info => legendHtml s' = legend_html info
  | None => False
  end.
Proof. vm_compute. repeat split. Qed.

(** X20: what [updateLayerVisibility(L, false)] does.  It looks for the
    last layer, in the order forest, wetland, tundra, grassland,
    algal_blooms, soil, chlorophyll, whose toggle is checked and which is
    analyzed.  If there is one, it becomes the active layer and its
    statistics panel the only one displayed; its legend is shown when one
    is cached under its key, the legend panel is hidden when the cached
    legend lacks the key, and the panel keeps what it showed when no legend
    is cached for that layer.  If there is none, the legend panel is hidden
    and no statistics panel is displayed. *)
Theorem updateLayerVisibility_hide (L : layer) (s : state) :
  let s' := updateLayerVisibility L false s in
  match lastVisibleLayer s with
  | Some last =>
      visible s last = true /\
      (forall l, visible s l = true -> layer_index l <= layer_index last) /\
      currentActiveLayer s' = last /\
      (forall l, panelActive s' l = layer_eqb l last) /\
      match legendData s last with
      | Some lg =>
          match legendInfo_of last lg with
          | Some legendInfo =>
              legendHtml s' = legend_html legendInfo /\ legendDisplay s' = "block"
          | None => legendDisplay s' = "none"
          end
      | None => legendHtml s' = legendHtml s /\ legendDisplay s' = legendDisplay s
      end
  | None =>
      (forall l, visible s l = false) /\
      legendDisplay s' = "none" /\
      (forall l, panelActive s' l = false)
  end.
Proof.
  cbv zeta.
  pose proof (updateLayerVisibility_hide_legend L s) as Hleg. cbv zeta in Hleg.
  pose proof (updateLayerVisibility_current L false s) as Hcur.
  pose proof (updateLayerVisibility_panel L false s) as Hpan.
  unfold activation_target in Hcur, Hpan.
  destruct (lastVisibleLayer s) as [last|] eqn:Hlast.
  - destruct (lastVisibleLayer_some s last Hlast) as [Hv Hmax].
    split; [exact Hv|]. split; [exact Hmax|].
    split; [destruct (layersAnalyzed s L); exact Hcur|].
    split.
    + intros l. replace (panelActive (updateLayerVisibility L false s))
        with (upd (fun _ : layer => false) last true)
        by (destruct (layersAnalyzed s L); symmetry; exact Hpan).
      unfold upd. destruct (layer_eqb l last); reflexivity.
    + destruct (legendData s last) as [lg|]; [destruct (legendInfo_of last lg)|]; tauto.
  - split; [exact (lastVisibleLayer_none s Hlast)|]. split; [tauto|].
    intros l. replace (panelActive (updateLayerVisibility L false s))
      with (fun _ : layer => false)
      by (destruct (layersAnalyzed s L); symmetry; exact Hpan).
    reflexivity.
Qed.

(** The example of the spec, with legends cached for both layers: hiding
    wetland makes soil active and shows the legend of soil. *)
Example hide_wetland_promotes_soil :
  let s' := updateLayerVisibility wetland false
              (setToggleChecked wetland false wetland_and_soil_shown) in
  currentActiveLayer s' = soil /\
  map (panelActive s') validLayers = map (layer_eqb soil) validLayers /\
  legendDisplay s' = "block" /\
  match legendInfo_of soil (sample_legend soil) with
  | Some info => legendHtml s' = legend_html info
  | None => False
  end.
Proof. vm_compute. repeat split. Qed.

(* ================================================================== *)
(** * Success of the ROI setup (C5) *)


(** The forest toggle is the only thing [updateLayerVisibility] may
    enable. *)
Lemma updateLayerVisibility_enabled L v s l :
  toggleDisabled s l = false -> toggleDisabled (updateLayerVisibility L v s) l = false.
Proof.
  intros Hd. unfold updateLayerVisibility.
  destruct (updateLayerVisibility_scrutinee L s) as (Hs & Hl & _ & _ & _ & Ht & Hlast).
  cbv zeta in *. rewrite Hs, Hl, Hlast.
  assert (Hk : forall x, toggleDisabled x l = false ->
                         toggleDisabled (keepForestEnabled x) l = false).
  { intros x Hx. unfold keepForestEnabled, setToggleDisabled.
    destruct (layersAnalyzed x forest); [|exact Hx]. frames. unfold upd.
    destruct (layer_eqb l forest); [reflexivity|exact Hx]. }
  apply Hk.
  destruct (if v then analysisLayers s L else None); [destruct (layersAnalyzed s L)|];
    try destruct (lastVisibleLayer s); frames; exact Hd.
Qed.







(* ================================================================== *)
(** * Deleting the ROI (C8) *)

Lemma detachOverlay_subset l s k :
  In k (mapLayers (detachOverlay l s)) ->
  In k (mapLayers s) /\ forall t, analysisLayers s l = Some t -> k <> stamp t.
Proof.
  unfold detachOverlay. destruct (analysisLayers s l) as [t|] eqn:Ht.
  - destruct (hasLayer t s) eqn:Hh.
    + unfold removeLayer. frames. intros Hin. apply filter_In in Hin.
      destruct Hin as [Hin Hk]. split; [exact Hin|].
      intros t' Ht'. injection Ht' as <-. intros ->.
      rewrite Nat.eqb_refl in Hk. discriminate.
    + intros Hin. split; [exact Hin|]. intros t' Ht'. injection Ht' as <-. intros ->.
      unfold hasLayer in Hh. assert (Hex : existsb (Nat.eqb (stamp t)) (mapLayers s) = true).
      { apply existsb_exists. exists (stamp t). split; [exact Hin|apply Nat.eqb_refl]. }
      congruence.
  - intros Hin. split; [exact Hin|]. intros; discriminate.
Qed.

Lemma detachOverlay_all ls s k :
  In k (mapLayers (fold_left (fun s l => detachOverlay l s) ls s)) ->
  In k (mapLayers s) /\
  forall l t, In l ls -> analysisLayers s l = Some t -> k <> stamp t.
Proof.
  revert s. induction ls as [|x ls IH]; intros s; cbn [fold_left].
  - intros H. split; [exact H|]. intros l t [].
  - intros H. apply IH in H. destruct H as [Hin Hrest].
    apply detachOverlay_subset in Hin. destruct Hin as [Hin Hx].
    split; [exact Hin|]. intros l t [<-|Hl] Ht.
    + apply Hx, Ht.
    + apply (Hrest l t Hl). frames. exact Ht.
Qed.

Lemma in_validLayers l : In l validLayers.
Proof. destruct l; cbn; tauto. Qed.

(** X1: what the deletion handler does reach: every flag and toggle is reset,
    the readout shows the placeholder, forest alone carries the "active"
    mark, no statistics panel is displayed, and no overlay that is in the
    cache is left on the map. *)
Lemma onDeleted_resets s :
  let s' := onDeleted s in
  currentPolygon s' = None /\ roiSetup s' = false /\
  (forall l, layersAnalyzed s' l = false /\ toggleDisabled s' l = true /\
             toggleChecked s' l = false) /\
  coordinatesDisplay s' = coordinates_placeholder /\
  layerStatus s' forest = "Ready (Default)" /\
  (forall l, itemActive s' l = layer_eqb l forest) /\
  (forall l, panelActive s' l = false) /\
  legendDisplay s' = "none" /\
  (forall l t, analysisLayers s l = Some t -> ~ In (stamp t) (mapLayers s')).
Proof.
  cbv zeta. unfold onDeleted.
  split; [frames; reflexivity|]. split; [frames; reflexivity|].
  split.
  { intros l. frames.
    match goal with |- context [resetLayerStates ?x] =>
      destruct (resetLayerStates_flags x l) as (A & B & C) end. auto. }
  split; [frames; reflexivity|].
  split.
  { frames.
    match goal with |- context [resetLayerStates ?x] =>
      destruct (resetLayerStates_items x forest) as (_ & _ & C) end. exact C. }
  split.
  { intros l. frames.
    match goal with |- context [resetLayerStates ?x] =>
      destruct (resetLayerStates_items x l) as (A & _) end. exact A. }
  split; [intros l; frames; unfold clearAllLayers, clearStatus; frames; reflexivity|].
  split; [frames; unfold clearAllLayers, clearStatus, hideMapLegend; frames; reflexivity|].
  intros l t Ht Hin. revert Hin. frames. unfold clearAllLayers, clearStatus, hideMapLegend.
  frames. intros Hin. apply detachOverlay_all in Hin. destruct Hin as [_ Hno].
  apply (Hno l t (in_validLayers l)); [frames; exact Ht|reflexivity].
Qed.

Lemma after_second_setup_reachable : reachable after_second_setup.
Proof.
  apply (run_reachable
           [Created triangle (setup_all_ok (dbl 12.3456));
            Created triangle (setup_all_ok (dbl 5))]
           (initializeApp blank_page)); [apply reachable_init|].
  vm_compute. reflexivity.
Qed.

(** C8: the code misses it.  After two successful setups the cache holds
    the second forest overlay (stamp 1) and the map holds both; deleting the
    ROI takes only the cached one off the map, the first overlay (stamp 0)
    stays on it. *)
Lemma deletion_leaves_first_overlay :
  reachable after_second_setup /\
  currentPolygon after_second_setup = Some triangle /\
  mapLayers after_second_setup = [0; 1] /\
  option_map stamp (analysisLayers after_second_setup forest) = Some 1 /\
  mapLayers (onDeleted after_second_setup) = [0].
Proof.
  split; [exact after_second_setup_reachable|]. vm_compute. repeat split.
Qed.

(* ================================================================== *)
(** * Statistics formatters (C3, C10) *)

Lemma run_blocks_inv content blocks out :
  run_blocks content blocks = Ok out ->
  exists tail, out = content ++ tail /\
               forall x, In (Ok x) blocks -> occurs_in x tail.
Proof.
  revert content. induction blocks as [|b rest IH]; intros content; cbn [run_blocks].
  - intros H. injection H as <-. exists "". split; [symmetry; apply string_app_nil_r|].
    intros x [].
  - destruct b as [x0|e]; [|discriminate]. intros H. apply IH in H.
    destruct H as (tail & -> & Hin). exists (x0 ++ tail).
    split; [apply string_app_assoc|].
    intros x [Hx|Hx].
    + injection Hx as ->. apply occurs_in_app_r, occurs_in_refl.
    + apply occurs_in_app_l, Hin, Hx.
Qed.

Lemma run_blocks_occurs content blocks out x :
  run_blocks content blocks = Ok out -> In (Ok x) blocks -> occurs_in x out.
Proof.
  intros H Hin. apply run_blocks_inv in H. destruct H as (tail & -> & Hall).
  apply occurs_in_app_l, Hall, Hin.
Qed.

(** C3, as the spec states it, fails on its example: for 100.00 ha and
    120.00 ha the formatter reports the change as "20.00 ha (20.0%)"; the
    output holds no plus sign at all. *)
Lemma wetland_change_has_no_plus_sign :
  exists out,
    displayWetlandStatistics wetland_example = Ok out /\
    includes out "→ 20.00 ha (20.0%)" = true /\
    includes out "+20.00 ha (20.0%)" = false /\
    includes out "+" = false.
Proof. eexists. split; [vm_compute; reflexivity|]. vm_compute. repeat split. Qed.

(** C3 (amended): for a change record whose start and end year are truthy
    and whose area pair holds two numbers, the row of the change reports
    the difference end - start with two decimals and, as percent change,
    (end - start) / start * 100 with one decimal, both computed on doubles
    and neither with a plus sign; the row is part of whatever the formatter
    renders. *)
Theorem wetland_change_percent
    (m change : list (string * json)) (sy ey : json) (startArea endArea : number)
    (more : list json) :
  assoc "change_over_time" m = Some (JObj change) ->
  assoc "start_year" change = Some sy -> truthy sy = true ->
  assoc "end_year" change = Some ey -> truthy ey = true ->
  assoc "wetland_area_ha" change = Some (JArr (JNum startArea :: JNum endArea :: more)) ->
  let changeHa := js_sub endArea startArea in
  let row :=
    stat_item "Wetland Area (ha):"
      (number_toFixed startArea 2 ++ " ha (" ++ to_string sy ++ ") → " ++
       number_toFixed endArea 2 ++ " ha (" ++ to_string ey ++ ") → " ++
       number_toFixed changeHa 2 ++ " ha (" ++
       number_toFixed (js_mul (js_div changeHa startArea) (dbl 100)) 1 ++ "%)") in
  wetland_change_row (JObj change) = Ok row /\
  forall out, displayWetlandStatistics (JObj m) = Ok out -> occurs_in row out.
Proof.
  intros Hc Hsy Tsy Hey Tey Harea changeHa row.
  assert (Hrow : wetland_change_row (JObj change) = Ok row).
  { unfold wetland_change_row. cbn [prop bind]. rewrite Hsy, Hey, Harea.
    cbn [if_truthy truthy]. rewrite Tsy, Tey.
    cbn [index nth_error number_receiver bind]. reflexivity. }
  split; [exact Hrow|].
  intros out Hout. unfold displayWetlandStatistics in Hout.
  destruct (negb (truthy (JObj m)) || negb (has_keys (JObj m))) eqn:Hg.
  - cbn [truthy negb orb has_keys] in Hg. destruct m; [discriminate Hc|discriminate Hg].
  - apply run_blocks_inv in Hout. destruct Hout as (tail & -> & Hall).
    apply occurs_in_app_l.
    assert (Hblock : field_truthy (JObj m) "change_over_time" (fun changeData =>
              run_blocks (stat_section_header "📈 Wetland Change Over Time")
                [ wetland_change_row changeData ])
            = Ok (stat_section_header "📈 Wetland Change Over Time" ++ row)).
    { unfold field_truthy. cbn [prop bind]. rewrite Hc. unfold when_truthy.
      cbn [if_truthy truthy]. rewrite Hrow. reflexivity. }
    assert (Hocc : occurs_in (stat_section_header "📈 Wetland Change Over Time" ++ row) tail).
    { apply Hall. rewrite <- Hblock. cbn [In]. tauto. }
    destruct Hocc as (pre & post & ->).
    exists (pre ++ stat_section_header "📈 Wetland Change Over Time"), post.
    rewrite !string_app_assoc. reflexivity.
Qed.

(** From 80 ha to 103 ha: the quotient 23 / 80 is the double 0.2875, its
    product with 100 is the double 28.749999999999996, and the row reads
    28.7 percent. *)
Lemma wetland_change_percent_witness :
  exists out,
    displayWetlandStatistics wetland_growth = Ok out /\
    occurs_in
      (stat_item "Wetland Area (ha):"
         "80.00 ha (2020) → 103.00 ha (2023) → 23.00 ha (28.7%)") out.
Proof.
  eexists. split; [vm_compute; reflexivity|].
  refine (proj2 (wetland_change_percent
            [ ("roi_area_km2", JNum (dbl 12.5));
              ("change_over_time",
               JObj [ ("start_year", JNum (dbl 2020)); ("end_year", JNum (dbl 2023));
                      ("wetland_area_ha", JArr [JNum (dbl 80); JNum (dbl 103)]) ]) ]
            [ ("start_year", JNum (dbl 2020)); ("end_year", JNum (dbl 2023));
              ("wetland_area_ha", JArr [JNum (dbl 80); JNum (dbl 103)]) ]
            (JNum (dbl 2020)) (JNum (dbl 2023)) (dbl 80) (dbl 103) []
            eq_refl eq_refl eq_refl eq_refl eq_refl eq_refl) _ _).
  vm_compute. reflexivity.
Defined.

(** ** A falsy member and a missing member *)

Section FalsyMember.

Variables (k : string) (v : json) (m : list (string * json)).
Hypothesis v_falsy : truthy v = false.

Lemma assoc_without_same : assoc k (without_member k m) = None.
Proof.
  unfold without_member. induction m as [|[k' x] rest IH]; cbn [filter fst assoc]; auto.
  destruct (String.eqb k k') eqn:E; cbn [negb]; [exact IH|].
  cbn [assoc]. rewrite E. exact IH.
Qed.

Lemma assoc_without_other k' : k' <> k -> assoc k' (without_member k m) = assoc k' m.
Proof.
  intros Hne. unfold without_member.
  induction m as [|[k0 x] rest IH]; cbn [filter fst assoc]; auto.
  destruct (String.eqb k k0) eqn:E; cbn [negb].
  - apply String.eqb_eq in E. subst k0.
    destruct (String.eqb k' k) eqn:E'; [apply String.eqb_eq in E'; contradiction|exact IH].
  - cbn [assoc]. rewrite IH. reflexivity.
Qed.

Lemma assoc_with_other k' : k' <> k -> assoc k' (with_member k v m) = assoc k' m.
Proof.
  intros Hne. unfold with_member. cbn [assoc].
  destruct (String.eqb k' k) eqn:E; [apply String.eqb_eq in E; contradiction|reflexivity].
Qed.

Lemma assoc_with_same : assoc k (with_member k v m) = Some v.
Proof. unfold with_member. cbn [assoc]. rewrite String.eqb_refl. reflexivity. Qed.

(** A truthiness test cannot tell the two records apart. *)
Lemma if_truthy_member k' :
  if_truthy (assoc k' (with_member k v m)) = if_truthy (assoc k' (without_member k m)).
Proof.
  destruct (string_dec k' k) as [->|Hne].
  - rewrite assoc_with_same, assoc_without_same. cbn [if_truthy]. rewrite v_falsy.
    reflexivity.
  - rewrite assoc_with_other, assoc_without_other by exact Hne. reflexivity.
Qed.

Lemma field_truthy_member k' body :
  field_truthy (JObj (with_member k v m)) k' body =
  field_truthy (JObj (without_member k m)) k' body.
Proof.
  unfold field_truthy, when_truthy. cbn [prop bind]. rewrite if_truthy_member. reflexivity.
Qed.

(** A test against [undefined] can, unless it reads another member. *)
Lemma prop_member k' :
  k' <> k ->
  prop (JObj (with_member k v m)) k' = prop (JObj (without_member k m)) k'.
Proof.
  intros Hne. cbn [prop]. rewrite assoc_with_other, assoc_without_other by exact Hne.
  reflexivity.
Qed.

Lemma field_defined_member k' body :
  k' <> k ->
  field_defined (JObj (with_member k v m)) k' body =
  field_defined (JObj (without_member k m)) k' body.
Proof. intros Hne. unfold field_defined. rewrite prop_member by exact Hne. reflexivity. Qed.

Lemma has_keys_member :
  without_member k m <> [] ->
  negb (truthy (JObj (with_member k v m))) || negb (has_keys (JObj (with_member k v m))) =
  negb (truthy (JObj (without_member k m))) || negb (has_keys (JObj (without_member k m))).
Proof.
  intros Hne. cbn [truthy negb orb has_keys with_member length Nat.eqb].
  destruct (without_member k m); [contradiction|reflexivity].
Qed.

Ltac members := rewrite ?field_truthy_member; try reflexivity.

Lemma displayForestStatistics_member :
  without_member k m <> [] ->
  displayForestStatistics (JObj (with_member k v m)) =
  displayForestStatistics (JObj (without_member k m)).
Proof.
  intros Hne. unfold displayForestStatistics. rewrite (has_keys_member Hne). members.
Qed.

Lemma displayWetlandStatistics_member :
  without_member k m <> [] ->
  displayWetlandStatistics (JObj (with_member k v m)) =
  displayWetlandStatistics (JObj (without_member k m)).
Proof.
  intros Hne. unfold displayWetlandStatistics. rewrite (has_keys_member Hne).
  rewrite ?field_truthy_member.
  replace (a <- prop (JObj (with_member k v m)) "roi_area_km2";;
           b <- prop (JObj (with_member k v m)) "area_km2";;
           when_truthy (js_or a b) (fixed_row "ROI Area (km²):" 2 " km²"))
    with (a <- prop (JObj (without_member k m)) "roi_area_km2";;
          b <- prop (JObj (without_member k m)) "area_km2";;
          when_truthy (js_or a b) (fixed_row "ROI Area (km²):" 2 " km²")); [reflexivity|].
  cbn [prop bind]. unfold when_truthy, js_or.
  pose proof (if_truthy_member "roi_area_km2") as H1.
  pose proof (if_truthy_member "area_km2") as H2.
  rewrite <- H1.
  destruct (if_truthy (assoc "roi_area_km2" (with_member k v m))) as [x|] eqn:E1.
  - cbn [if_truthy]. reflexivity.
  - rewrite H2. reflexivity.
Qed.

Lemma displayTundraStatistics_member :
  ~ In k (strictly_tested tundra) ->
  displayTundraStatistics (JObj (with_member k v m)) =
  displayTundraStatistics (JObj (without_member k m)).
Proof.
  intros Hk. cbn [strictly_tested In] in Hk. unfold displayTundraStatistics.
  rewrite ?field_truthy_member.
  rewrite (prop_member "total_tundra_area_km2") by (intros E; apply Hk; tauto).
  rewrite (prop_member "tundra_coverage_percent") by (intros E; apply Hk; tauto).
  reflexivity.
Qed.

Lemma displayGrasslandStatistics_member :
  displayGrasslandStatistics (JObj (with_member k v m)) =
  displayGrasslandStatistics (JObj (without_member k m)).
Proof. unfold displayGrasslandStatistics, grassland_field. members. Qed.

Lemma displayAlgalBloomsStatistics_member :
  ~ In k (strictly_tested algal_blooms) ->
  displayAlgalBloomsStatistics (JObj (with_member k v m)) =
  displayAlgalBloomsStatistics (JObj (without_member k m)).
Proof.
  intros Hk. cbn [strictly_tested In] in Hk. unfold displayAlgalBloomsStatistics.
  rewrite ?field_truthy_member.
  rewrite (field_defined_member "bloom_detected") by (intros E; apply Hk; tauto).
  reflexivity.
Qed.

Lemma displaySoilStatistics_member :
  displaySoilStatistics (JObj (with_member k v m)) =
  displaySoilStatistics (JObj (without_member k m)).
Proof. unfold displaySoilStatistics. members. Qed.

Lemma displayChlorophyllStatistics_member :
  ~ In k (strictly_tested chlorophyll) ->
  displayChlorophyllStatistics (JObj (with_member k v m)) =
  displayChlorophyllStatistics (JObj (without_member k m)).
Proof.
  intros Hk. cbn [strictly_tested In] in Hk. unfold displayChlorophyllStatistics.
  rewrite ?field_truthy_member.
  rewrite (field_defined_member "analysis_applicable") by (intros E; apply Hk; tauto).
  reflexivity.
Qed.

End FalsyMember.

(** C10, as the spec states it, fails: the biomass fields of the forest
    record are tested against [undefined], not for truthiness.  With
    aboveground biomass 0 the row is rendered ("0.00 Mg/ha") instead of
    being left out as for a missing field, and with the empty string in its
    place rendering throws. *)
Lemma zero_biomass_is_rendered :
  (exists out,
     displayForestStatistics (forest_biomass (JNum (dbl 0))) = Ok out /\
     includes out "Aboveground Biomass:" = true /\
     includes out "0.00 Mg/ha" = true) /\
  (exists out,
     displayForestStatistics
       (JObj [ ("roi_area_km2", JNum (dbl 12.5)); ("biomass_partitioning", JObj []) ])
     = Ok out /\
     includes out "Aboveground Biomass:" = false) /\
  displayForestStatistics (forest_biomass (JStr "")) =
    Throw (TypeError "toFixed is not a function").
Proof.
  split; [|split].
  - eexists. split; [vm_compute; reflexivity|]. vm_compute. split; reflexivity.
  - eexists. split; [vm_compute; reflexivity|]. vm_compute. reflexivity.
  - vm_compute. reflexivity.
Qed.

(** C10 (amended): in every per-layer formatter, a top-level field that is
    present but falsy (0, the empty string, null, false) is rendered exactly
    as if it were absent, and so cannot make rendering throw, provided the
    formatter tests it for truthiness: that is every top-level field except
    total_tundra_area_km2 and tundra_coverage_percent (tundra),
    bloom_detected (algal blooms) and analysis_applicable (chlorophyll),
    which are tested against undefined.  (The record must keep another
    member: forest and wetland render a placeholder for an empty record.) *)
Theorem falsy_field_is_omitted
    (L : layer) (k : string) (v : json) (m : list (string * json)) :
  truthy v = false ->
  ~ In k (strictly_tested L) ->
  without_member k m <> [] ->
  displayStatistics L (JObj (with_member k v m)) =
  displayStatistics L (JObj (without_member k m)).
Proof.
  intros Hv Hk Hne. unfold displayStatistics. cbn [truthy].
  destruct L.
  - apply displayForestStatistics_member; assumption.
  - apply displayWetlandStatistics_member; assumption.
  - apply displayTundraStatistics_member; assumption.
  - apply displayGrasslandStatistics_member; assumption.
  - apply displayAlgalBloomsStatistics_member; assumption.
  - apply displaySoilStatistics_member; assumption.
  - apply displayChlorophyllStatistics_member; assumption.
Qed.

Lemma falsy_field_is_omitted_witness :
  displayStatistics forest
    (JObj [ ("mean_NDVI", JNum (dbl 0)); ("roi_area_km2", JNum (dbl 12.5)) ]) =
  displayStatistics forest (JObj [ ("roi_area_km2", JNum (dbl 12.5)) ]).
Proof.
  apply (falsy_field_is_omitted forest "mean_NDVI" (JNum (dbl 0))
           [ ("roi_area_km2", JNum (dbl 12.5)) ]).
  - reflexivity.
  - intros [].
  - discriminate.
Defined.
(* ================================================================== *)
(** * Status reporter, legend renderer and caches *)

(** X11: the status reporter ([showStatus] of [app.js] and its copy in the
    statistics manager): the class written into the markup is always one of
    the four valid types, the type given when it is one of them and
    "loading" otherwise (also for the empty type); the message is inserted
    as it is. *)
Theorem showStatus_class (message type_ : string) (s : state) :
  exists safeType,
    In safeType validTypes /\
    statusContainer (showStatus message type_ s) = status_markup safeType message /\
    (In type_ validTypes -> safeType = type_) /\
    (~ In type_ validTypes -> safeType = "loading").
Proof.
  unfold showStatus.
  assert (Hvalid : In type_ validTypes -> (if String.eqb type_ "" then "loading" else type_) = type_).
  { intros Hin. destruct (String.eqb type_ "") eqn:E; [|reflexivity].
    apply String.eqb_eq in E. subst type_. cbn in Hin.
    repeat (destruct Hin as [Hin|Hin]; [discriminate Hin|]). destruct Hin. }
  destruct (existsb (String.eqb (if String.eqb type_ "" then "loading" else type_)) validTypes)
    eqn:E.
  - exists (if String.eqb type_ "" then "loading" else type_).
    apply existsb_exists in E. destruct E as (x & Hx & Ex). apply String.eqb_eq in Ex.
    split; [rewrite Ex; exact Hx|]. split; [reflexivity|]. split; [exact Hvalid|].
    intros Hno. destruct (String.eqb type_ ""); [reflexivity|].
    exfalso. apply Hno. rewrite Ex. exact Hx.
  - exists "loading". split; [cbn; tauto|]. split; [reflexivity|]. split; [|reflexivity].
    intros Hin. rewrite (Hvalid Hin) in E.
    assert (Ht : existsb (String.eqb type_) validTypes = true).
    { apply existsb_exists. exists type_. split; [exact Hin|apply String.eqb_refl]. }
    congruence.
Qed.

Lemma fold_left_append {A : Type} (f : A -> string) (l : list A) (h : string) :
  fold_left (fun h x => h ++ f x) l h = h ++ String.concat "" (map f l).
Proof.
  revert h. induction l as [|x l IH]; intros h; cbn [fold_left map].
  - cbn. symmetry. apply string_app_nil_r.
  - rewrite IH. destruct l as [|y l]; cbn [map String.concat].
    + apply string_app_nil_r.
    + rewrite string_app_assoc. reflexivity.
Qed.

Lemma colorPattern_test_length c : colorPattern_test c = true -> String.length c = 7.
Proof.
  unfold colorPattern_test. destruct c as [|a rest]; [discriminate|].
  destruct (Ascii.eqb a "#") eqn:E.
  - apply Ascii.eqb_eq in E. subst a. intros H. apply andb_true_iff in H.
    destruct H as [H _]. apply Nat.eqb_eq in H. cbn [String.length]. rewrite H. reflexivity.
  - intros H. exfalso. revert H E.
    destruct a as [[] [] [] [] [] [] [] []]; cbn; congruence.
Qed.

(** X12: the legend renderer ([showMapLegend]): the panel is displayed, and its
    markup is the title, then, for a legend of type "classification" only,
    one entry per item in order, then the methodology when it is not empty.
    The colour an entry writes into its style attribute always matches the
    pattern [#] plus six hexadecimal digits (seven characters): it is the
    colour of the item when that matches, and [#cccccc] otherwise. *)
Theorem showMapLegend_markup (legendInfo : legend_info) (s : state) :
  let s' := showMapLegend legendInfo s in
  legendDisplay s' = "block" /\
  legendHtml s' =
    "<div class=" ++ dq ++ "legend-title" ++ dq ++ ">" ++ title legendInfo ++ "</div>" ++
    (if String.eqb (type legendInfo) "classification"
     then String.concat "" (map legend_item_html (items legendInfo)) else "") ++
    match methodology legendInfo with
    | Some m =>
        if String.eqb m "" then ""
        else "<div class=" ++ dq ++ "legend-description" ++ dq ++ ">" ++ m ++ "</div>"
    | None => ""
    end /\
  forall item, In item (items legendInfo) ->
    exists safeColor,
      colorPattern_test safeColor = true /\ String.length safeColor = 7 /\
      (colorPattern_test (color item) = true -> safeColor = color item) /\
      (colorPattern_test (color item) = false -> safeColor = "#cccccc") /\
      legend_item_html item =
        "<div class=" ++ dq ++ "legend-item" ++ dq ++ ">" ++
        "<div class=" ++ dq ++ "legend-color" ++ dq ++ " style=" ++ dq ++ "background-color: "
        ++ safeColor ++ ";" ++ dq ++ "></div>" ++
        "<span class=" ++ dq ++ "legend-label" ++ dq ++ ">" ++ label item ++ "</span>" ++
        "</div>".
Proof.
  cbv zeta. split; [reflexivity|]. split.
  - unfold showMapLegend. frames. unfold legend_html. cbv zeta.
    rewrite fold_left_append.
    set (t := "<div class=" ++ dq ++ "legend-title" ++ dq ++ ">" ++ title legendInfo ++ "</div>").
    assert (Ht : "<div class=" ++ dq ++ "legend-title" ++ dq ++ ">" ++ title legendInfo
                 ++ "</div>" ++
                 (if String.eqb (type legendInfo) "classification"
                  then String.concat "" (map legend_item_html (items legendInfo)) else "") ++
                 match methodology legendInfo with
                 | Some m =>
                     if String.eqb m "" then ""
                     else "<div class=" ++ dq ++ "legend-description" ++ dq ++ ">" ++ m
                          ++ "</div>"
                 | None => ""
                 end
                 = t ++
                 (if String.eqb (type legendInfo) "classification"
                  then String.concat "" (map legend_item_html (items legendInfo)) else "") ++
                 match methodology legendInfo with
                 | Some m =>
                     if String.eqb m "" then ""
                     else "<div class=" ++ dq ++ "legend-description" ++ dq ++ ">" ++ m
                          ++ "</div>"
                 | None => ""
                 end).
    { subst t. rewrite !string_app_assoc. reflexivity. }
    rewrite Ht. clear Ht. clearbody t.
    destruct (String.eqb (type legendInfo) "classification");
      destruct (methodology legendInfo) as [m|]; try destruct (String.eqb m "");
      rewrite ?string_app_assoc, ?string_app_nil_r; cbn [append]; rewrite ?string_app_nil_r;
      reflexivity.
  - intros item _. unfold legend_item_html. cbv zeta.
    destruct (colorPattern_test (color item)) eqn:E.
    + exists (color item). split; [exact E|]. split; [apply colorPattern_test_length, E|].
      split; [reflexivity|]. split; [discriminate|reflexivity].
    + exists "#cccccc". split; [reflexivity|]. split; [reflexivity|].
      split; [discriminate|]. split; reflexivity.
Qed.


(* ================================================================== *)
(** * Statistics manager: the reply to a statistics request *)

Lemma setStatsContent_same id html s :
  statsContent (setStatsContent id html s) id = html.
Proof. unfold setStatsContent. frames. rewrite String.eqb_refl. reflexivity. Qed.

Lemma setStatsContent_other id html s i :
  i <> id -> statsContent (setStatsContent id html s) i = statsContent s i.
Proof.
  intros H. unfold setStatsContent. frames.
  apply String.eqb_neq in H. rewrite H. reflexivity.
Qed.

(** X13: [StatisticsManager.loadStatistics], once the reply is there: only
    one content box and the status line can change.  When the reply is 2xx
    with a non-empty record that renders, the box that the formatter of the
    layer names shows the rendered record and the status is left alone.
    For an empty or falsy record the box that the loader names,
    [layerType + 'StatsContent'], shows "No statistics available" with a
    warning; in every other case (a reply that is not 2xx, a body that does
    not parse, a rejected request, a formatter that throws) that box shows
    "Error loading data" with an error status.  The two boxes are the same
    element for every layer but algal blooms, whose formatter writes
    [algalBloomsStatsContent] while the loader writes
    [algal_bloomsStatsContent]. *)
Theorem loadStatistics_reply_cases (layerType : layer) (r : reply json) (s : state) :
  let s' := loadStatistics_reply layerType r s in
  (formatterBox layerType = loaderBox layerType <-> layerType <> algal_blooms) /\
  panelActive s' = panelActive s /\ layersAnalyzed s' = layersAnalyzed s /\
  fetched s' = fetched s /\
  ((exists st data,
      r = Response true st (Ok data) /\ truthy data = true /\ has_keys data = true /\
      displayStatistics layerType data = Ok (statsContent s' (formatterBox layerType)) /\
      (forall id, id <> formatterBox layerType -> statsContent s' id = statsContent s id) /\
      statusContainer s' = statusContainer s) \/
   (exists st data,
      r = Response true st (Ok data) /\ truthy data && has_keys data = false /\
      statsContent s' (loaderBox layerType) = stat_note "No statistics available" /\
      (forall id, id <> loaderBox layerType -> statsContent s' id = statsContent s id) /\
      statusContainer s' =
        status_markup "warning" ("⚠️ No statistics available for " ++ layer_name layerType)) \/
   ((forall st data,
       r = Response true st (Ok data) ->
       truthy data && has_keys data = true /\
       exists e, displayStatistics layerType data = Throw e) /\
    statsContent s' (loaderBox layerType) = stat_note "Error loading data" /\
    (forall id, id <> loaderBox layerType -> statsContent s' id = statsContent s id) /\
    statusContainer s' =
      status_markup "error" ("⚠️ Could not load " ++ layer_name layerType ++ " statistics"))).
Proof.
  cbv zeta.
  split.
  { destruct layerType; split; intros H; try reflexivity; try discriminate;
      try (intros E; discriminate E); exfalso; apply H; reflexivity. }
  assert (Hfail :
    panelActive (statistics_failed layerType s) = panelActive s /\
    layersAnalyzed (statistics_failed layerType s) = layersAnalyzed s /\
    fetched (statistics_failed layerType s) = fetched s /\
    statsContent (statistics_failed layerType s) (loaderBox layerType) =
      stat_note "Error loading data" /\
    (forall id, id <> loaderBox layerType ->
       statsContent (statistics_failed layerType s) id = statsContent s id) /\
    statusContainer (statistics_failed layerType s) =
      status_markup "error" ("⚠️ Could not load " ++ layer_name layerType ++ " statistics")).
  { unfold statistics_failed.
    repeat (split; [frames; reflexivity|]).
    split; [frames; apply setStatsContent_same|].
    split; [intros id Hid; frames; apply setStatsContent_other, Hid|].
    frames. reflexivity. }
  destruct Hfail as (F2 & F3 & F4 & F5 & F1 & F6).
  unfold loadStatistics_reply.
  destruct r as [e|[|] st [data|e]];
    try (repeat (split; [assumption|]); right; right;
         split; [intros; discriminate|repeat (split; [assumption|]); assumption]).
  destruct (truthy data && has_keys data) eqn:E.
  - destruct (displayStatistics layerType data) as [html|e] eqn:D.
    + repeat (split; [frames; reflexivity|]). left.
      apply andb_true_iff in E. destruct E as [E1 E2].
      exists st, data. repeat (split; [first [reflexivity|assumption]|]).
      split; [rewrite setStatsContent_same; exact D|].
      split; [intros id Hid; apply setStatsContent_other, Hid|frames; reflexivity].
    + repeat (split; [assumption|]). right. right.
      split; [|repeat (split; [assumption|]); assumption].
      intros st' data' H. injection H as _ <-. split; [exact E|]. exists e. exact D.
  - repeat (split; [frames; reflexivity|]). right. left.
    exists st, data. split; [reflexivity|]. split; [exact E|].
    split; [frames; apply setStatsContent_same|].
    split; [intros id Hid; frames; apply setStatsContent_other, Hid|].
    frames. reflexivity.
Qed.

(* ================================================================== *)
(** * Coordinate readout *)

Lemma coord_lines_concat cs : forall i,
  coord_lines i cs =
  String.concat (String "010"%char "")
    (map (fun kc => coord_line (fst kc) (snd kc)) (combine (seq i (List.length cs)) cs)).
Proof.
  induction cs as [|c0 rest IH]; intros i; [reflexivity|].
  cbn [coord_lines List.length seq combine map String.concat fst snd].
  destruct rest as [|c1 rest]; [reflexivity|].
  rewrite IH. reflexivity.
Qed.

Lemma combine_map_r {A B C : Type} (f : B -> C) (ks : list A) (l : list B) :
  combine ks (map f l) = map (fun kb => (fst kb, f (snd kb))) (combine ks l).
Proof.
  revert l. induction ks as [|k ks IH]; intros [|b l]; cbn [combine map fst snd];
    [reflexivity..|]. rewrite IH. reflexivity.
Qed.

(** X14: [updateCoordinatesDisplay] closes the ring: for a shape of n vertices
    the readout is [<pre>], then n + 1 lines joined by line feeds, then
    [</pre>]; line k + 1 reads "k+1: [lng, lat]" for vertex k, both
    numbers with six decimals, and line n + 1 repeats the first vertex.  A
    shape without vertices leaves the readout as it was. *)
Theorem updateCoordinatesDisplay_ring (p : latlng) (rest : list latlng) (s : state) :
  let shape := p :: rest in
  let ring := combine (seq 0 (S (List.length shape))) (shape ++ [p]) in
  let line (kq : nat * latlng) :=
    NilZero.string_of_uint (Nat.to_uint (fst kq + 1)) ++ ": [" ++
    number_toFixed (lng (snd kq)) 6 ++ ", " ++ number_toFixed (lat (snd kq)) 6 ++ "]" in
  updateCoordinatesDisplay [] s = s /\
  List.length ring = S (List.length shape) /\
  coordinatesDisplay (updateCoordinatesDisplay shape s) =
    "<pre>" ++ String.concat (String "010"%char "") (map line ring) ++ "</pre>".
Proof.
  cbv zeta. split; [reflexivity|]. split.
  { rewrite length_combine, length_seq, length_app. cbn [List.length]. lia. }
  unfold updateCoordinatesDisplay. cbn [ring_coordinates map]. frames.
  change (((lng p, lat p) :: map (fun p0 => (lng p0, lat p0)) rest) ++ [(lng p, lat p)])%list
    with (map (fun p0 : latlng => (lng p0, lat p0)) (p :: rest) ++
          map (fun p0 : latlng => (lng p0, lat p0)) [p])%list.
  rewrite <- map_app, coord_lines_concat, length_map, combine_map_r, map_map.
  rewrite length_app, Nat.add_comm. reflexivity.
Qed.

(* ================================================================== *)
(** * Start-up *)

(** X16: [initializeApp], whatever the markup: no ROI and no shape, nothing
    requested and nothing on the map, the three inputs at their defaults,
    every layer unanalyzed with its toggle unchecked and disabled, forest
    the only item marked active, and the welcome message as status. *)
Theorem initializeApp_state (markup : state) :
  let s := initializeApp markup in
  roiSetup s = false /\ currentPolygon s = None /\ fetched s = [] /\ mapLayers s = [] /\
  startDate s = "2021-01-01" /\ endDate s = "2023-01-01" /\ resolutionSelect s = "10" /\
  (forall l, layersAnalyzed s l = false /\ toggleChecked s l = false /\
             toggleDisabled s l = true) /\
  (forall l, itemActive s l = layer_eqb l forest) /\
  (forall l, layerStatus s l =
             if layer_eqb l forest then "Ready (Default)" else "Draw ROI to enable") /\
  statusContainer s =
    status_markup "success"
      "🌍 Environmental Analysis Dashboard loaded. Draw a polygon to begin analysis.".
Proof.
  cbv zeta. unfold initializeApp, script_start.
  repeat (split; [frames; reflexivity|]).
  split.
  { intros l. frames.
    match goal with |- context [resetLayerStates ?x] =>
      destruct (resetLayerStates_flags x l) as (A & B & C) end. auto. }
  split.
  { intros l. frames.
    match goal with |- context [resetLayerStates ?x] =>
      destruct (resetLayerStates_items x l) as (A & _) end. exact A. }
  split.
  { intros l. frames.
    match goal with |- context [resetLayerStates ?x] =>
      destruct (resetLayerStates_items x l) as (_ & _ & C) end. exact C. }
  reflexivity.
Qed.

(** X17: the [DOMContentLoaded] listener: the application is initialized as
    soon as the map library is found, looked for when the document is
    loaded and then every 500 ms, ten attempts in all (the first at once, so
    the last one 4.5 s after loading); when all ten fail, the page is left
    as it is but for the error status asking to refresh. *)
Theorem onDOMContentLoaded_attempts (leaflet : nat -> bool) (markup : state) :
  ((exists k, k < maxAttempts /\ leaflet k = true) ->
   onDOMContentLoaded leaflet markup = initializeApp markup) /\
  ((forall k, k < maxAttempts -> leaflet k = false) ->
   onDOMContentLoaded leaflet markup =
   showStatus "Failed to load map library. Please refresh the page." "error" markup).
Proof.
  unfold onDOMContentLoaded, maxAttempts.
  cbn [tryInitialize Nat.ltb Nat.leb].
  destruct (leaflet 0) eqn:E0; [split; [reflexivity|intros H; specialize (H 0); rewrite E0 in H; discriminate H; lia]|].
  destruct (leaflet 1) eqn:E1; [split; [reflexivity|intros H; specialize (H 1); rewrite E1 in H; discriminate H; lia]|].
  destruct (leaflet 2) eqn:E2; [split; [reflexivity|intros H; specialize (H 2); rewrite E2 in H; discriminate H; lia]|].
  destruct (leaflet 3) eqn:E3; [split; [reflexivity|intros H; specialize (H 3); rewrite E3 in H; discriminate H; lia]|].
  destruct (leaflet 4) eqn:E4; [split; [reflexivity|intros H; specialize (H 4); rewrite E4 in H; discriminate H; lia]|].
  destruct (leaflet 5) eqn:E5; [split; [reflexivity|intros H; specialize (H 5); rewrite E5 in H; discriminate H; lia]|].
  destruct (leaflet 6) eqn:E6; [split; [reflexivity|intros H; specialize (H 6); rewrite E6 in H; discriminate H; lia]|].
  destruct (leaflet 7) eqn:E7; [split; [reflexivity|intros H; specialize (H 7); rewrite E7 in H; discriminate H; lia]|].
  destruct (leaflet 8) eqn:E8; [split; [reflexivity|intros H; specialize (H 8); rewrite E8 in H; discriminate H; lia]|].
  destruct (leaflet 9) eqn:E9; [split; [reflexivity|intros H; specialize (H 9); rewrite E9 in H; discriminate H; lia]|].
  split; [|reflexivity].
  intros (k & Hk & Hl).
  do 10 (destruct k as [|k]; [congruence|]). lia.
Qed.

(* ================================================================== *)
(** * Sidebar resize *)

Lemma mouse_keeps_bounds b e :
  isResizing b = dragListeners b /\
  match sidebarWidth b with
  | None => True
  | Some w => (280 <= w)%Q /\ (w <= 800)%Q
  end ->
  isResizing (mouse b e) = dragListeners (mouse b e) /\
  match sidebarWidth (mouse b e) with
  | None => True
  | Some w => (280 <= w)%Q /\ (w <= 800)%Q
  end.
Proof.
  intros [Hr Hw]. destruct b as [r d w]. cbn [isResizing dragListeners sidebarWidth] in Hr, Hw.
  subst d. destruct e as [|x|]; cbn [mouse dragListeners].
  - split; [reflexivity|exact Hw].
  - destruct r; [|split; [reflexivity|exact Hw]].
    unfold handleResize. cbn [isResizing negb dragListeners sidebarWidth].
    destruct (Qle_bool 280 x && Qle_bool x 800) eqn:E; [|split; [reflexivity|exact Hw]].
    apply andb_true_iff in E. destruct E as [E1 E2].
    apply Qle_bool_iff in E1. apply Qle_bool_iff in E2.
    cbn [isResizing dragListeners sidebarWidth]. split; [reflexivity|split; assumption].
  - destruct r; split; first [reflexivity|exact Hw].
Qed.

(** X18: the sidebar: after any sequence of mouse events, a width set by
    dragging lies between 280 and 800 px, and a mouse move outside a drag
    (before the handle is pressed, or after the button is released) changes
    nothing. *)
Theorem sidebar_width_bounds (es : list mouse_event) :
  let b := fold_left mouse es setupSidebarResize in
  match sidebarWidth b with
  | None => True
  | Some w => (280 <= w)%Q /\ (w <= 800)%Q
  end /\
  (isResizing b = false -> forall x, mouse b (MouseMove x) = b) /\
  forall x, (x < 280)%Q \/ (800 < x)%Q -> mouse b (MouseMove x) = b.
Proof.
  cbv zeta.
  assert (Hinv : forall b0,
    isResizing b0 = dragListeners b0 /\
    match sidebarWidth b0 with
    | None => True
    | Some w => (280 <= w)%Q /\ (w <= 800)%Q
    end ->
    isResizing (fold_left mouse es b0) = dragListeners (fold_left mouse es b0) /\
    match sidebarWidth (fold_left mouse es b0) with
    | None => True
    | Some w => (280 <= w)%Q /\ (w <= 800)%Q
    end).
  { induction es as [|e rest IH]; intros b0 H0; cbn [fold_left]; [exact H0|].
    apply IH, mouse_keeps_bounds, H0. }
  destruct (Hinv setupSidebarResize) as [Hr Hw]; [split; [reflexivity|exact I]|].
  split; [exact Hw|]. split.
  - intros Hoff x. cbn [mouse]. rewrite <- Hr, Hoff. reflexivity.
  - intros x Hx. cbn [mouse]. destruct (dragListeners _); [|reflexivity].
    unfold handleResize. destruct (negb (isResizing _)); [reflexivity|].
    destruct (Qle_bool 280 x && Qle_bool x 800) eqn:E; [|reflexivity].
    apply andb_true_iff in E. destruct E as [E1 E2].
    apply Qle_bool_iff in E1. apply Qle_bool_iff in E2.
    destruct Hx as [Hx|Hx]; exfalso; [apply (Qlt_not_le _ _ Hx E1)|apply (Qlt_not_le _ _ Hx E2)].
Qed.
(* ================================================================== *)
(** * The toggles follow the ROI *)

Lemma keeps_controls_refl s : keeps_controls s s.
Proof. unfold keeps_controls. auto 10. Qed.

Lemma keeps_controls_trans s1 s2 s3 :
  keeps_controls s1 s2 -> keeps_controls s2 s3 -> keeps_controls s1 s3.
Proof.
  unfold keeps_controls. intros (A1 & A2 & A3 & A4 & A5 & A6) (B1 & B2 & B3 & B4 & B5 & B6).
  repeat split; try congruence. auto.
Qed.

(** States that agree on what [keeps_controls] reads. *)
Lemma keeps_controls_same s s' :
  roiSetup s' = roiSetup s -> currentPolygon s' = currentPolygon s ->
  startDate s' = startDate s -> endDate s' = endDate s ->
  resolutionSelect s' = resolutionSelect s -> toggleDisabled s' = toggleDisabled s ->
  keeps_controls s s'.
Proof. unfold keeps_controls. intros -> -> -> -> -> ->. auto 10. Qed.

Ltac same_controls := apply keeps_controls_same; frames; try reflexivity.

Lemma updateLayerVisibility_keeps L v s : keeps_controls s (updateLayerVisibility L v s).
Proof.
  unfold keeps_controls. repeat (split; [frames; reflexivity|]).
  intros l. apply updateLayerVisibility_enabled.
Qed.

Lemma setActiveLayer_keeps L s : keeps_controls s (setActiveLayer L s).
Proof. same_controls. Qed.

Lemma analyzeLayer_no_throw L re r s : snd (analyzeLayer L re r s) = None.
Proof.
  unfold analyzeLayer, try_catch, analyzeLayer_try, analyzeLayer_catch.
  destruct (roiSetup s); cbn [negb]; [|reflexivity].
  destruct (layersAnalyzed s L && negb re); [destruct (toggleChecked s L); reflexivity|].
  destruct (ar_analyze r) as [e|[|] st [b|e]]; try reflexivity.
  destruct (match ab_status b with Some st0 => (st0 =? "success")%string | None => false end);
    reflexivity.
Qed.

Lemma analyzeLayer_keeps L re r s : keeps_controls s (fst (analyzeLayer L re r s)).
Proof.
  unfold analyzeLayer.
  destruct (roiSetup s) eqn:Hr; cbn [negb fst]; [|same_controls].
  destruct (layersAnalyzed s L && negb re).
  - destruct (toggleChecked s L); cbn [fst];
      [apply updateLayerVisibility_keeps|apply keeps_controls_refl].
  - unfold try_catch, analyzeLayer_try, analyzeLayer_catch.
    set (q := PostAnalyzeLayer _ _ _ _).
    set (s1 := fetch q (analyzeLayer_announce L re s)).
    assert (H1 : keeps_controls s s1) by (subst s1; same_controls).
    assert (Hgive : forall kind m msg,
              keeps_controls s (analyzeLayer_giveUp L re msg (showStatus m kind s1))).
    { intros kind m msg. apply (keeps_controls_trans _ s1); [exact H1|]. same_controls. }
    clearbody s1.
    destruct (ar_analyze r) as [e|[|] st [b|e]]; cbn [fst]; try apply Hgive.
    destruct (match ab_status b with Some st0 => (st0 =? "success")%string | None => false end);
      cbn [fst]; [|apply Hgive].
    apply (keeps_controls_trans _ s1); [exact H1|].
    unfold analyzeLayer_succeed.
    set (X := setItemActive L true _).
    assert (HX : keeps_controls s1 X) by (subst X; same_controls).
    clearbody X.
    destruct (toggleChecked X L); [|exact HX].
    apply (keeps_controls_trans _ X); [exact HX|].
    apply (keeps_controls_trans _ (updateLayerVisibility L true X));
      [apply updateLayerVisibility_keeps|apply setActiveLayer_keeps].
Qed.


Lemma reanalyze_all_keeps ls r s : keeps_controls s (fst (reanalyze_all ls r s)).
Proof.
  revert s. induction ls as [|l rest IH]; intros s; cbn [reanalyze_all];
    [apply keeps_controls_refl|].
  pose proof (analyzeLayer_keeps l true (r l) s) as H.
  pose proof (analyzeLayer_no_throw l true (r l) s) as Hn.
  destruct (analyzeLayer l true (r l) s) as [s' [e|]]; cbn [fst snd] in *; [discriminate Hn|].
  apply (keeps_controls_trans _ s'); [exact H|apply IH].
Qed.

Lemma handleParameterChange_keeps a p r s :
  keeps_controls s (fst (handleParameterChange a p r s)).
Proof.
  unfold handleParameterChange.
  destruct (roiSetup s); cbn [negb fst]; [|apply keeps_controls_refl].
  destruct (layersToReanalyze s) as [|l ls]; [apply keeps_controls_refl|].
  eapply keeps_controls_trans; [|apply reanalyze_all_keeps]. same_controls.
Qed.

Lemma toggle_invariant_same s s' :
  roiSetup s' = roiSetup s -> currentPolygon s' = currentPolygon s ->
  layersAnalyzed s' = layersAnalyzed s -> toggleChecked s' = toggleChecked s ->
  toggleDisabled s' = toggleDisabled s ->
  toggle_invariant s -> toggle_invariant s'.
Proof. unfold toggle_invariant. intros -> -> -> -> ->. exact (fun H => H). Qed.

Ltac same_toggles := apply toggle_invariant_same; frames; try reflexivity.

(** With the ROI established, a handler that keeps the controls keeps the
    invariant. *)
Lemma toggle_invariant_keeps s s' :
  roiSetup s = true -> toggle_invariant s -> keeps_controls s s' -> toggle_invariant s'.
Proof.
  intros Hr [H1 _] (K1 & K2 & _ & _ & _ & K6). destruct (H1 Hr) as [Hp Hd]. split.
  - intros _. rewrite K2. split; [exact Hp|]. intros l. apply K6, Hd.
  - rewrite K1, Hr. discriminate.
Qed.

Lemma toggle_invariant_reset x :
  roiSetup x = false -> toggle_invariant (resetLayerStates x).
Proof.
  intros Hr. split; frames; rewrite Hr; [discriminate|].
  intros _ l. apply resetLayerStates_flags.
Qed.

Lemma setupROI_finish_enabled r s l : toggleDisabled (setupROI_finish r s) l = false.
Proof.
  unfold setupROI_finish, setToggleDisabled. frames. unfold upd.
  destruct (layer_eqb l forest); [reflexivity|].
  apply updateLayerVisibility_enabled. frames. apply enableAllLayerToggles_enabled.
Qed.

Lemma setupROI_finish_frame r s :
  roiSetup (setupROI_finish r s) = roiSetup s /\
  currentPolygon (setupROI_finish r s) = currentPolygon s.
Proof. unfold setupROI_finish. split; frames; reflexivity. Qed.

Lemma setupROI_toggle_invariant r s :
  toggle_invariant s -> toggle_invariant (fst (setupROI r s)).
Proof.
  intros Hinv. unfold setupROI.
  destruct (currentPolygon s) as [shape|] eqn:Hp; [|exact Hinv].
  assert (Hcatch : forall e x, toggle_invariant (fst (setupROI_catch e x))).
  { intros e x. unfold setupROI_catch. cbn [fst]. apply toggle_invariant_reset.
    frames. reflexivity. }
  unfold try_catch, setupROI_try.
  destruct (sr_setup r) as [e|[|] st [b|e]]; try apply Hcatch.
  destruct (match sb_status b with Some st0 => (st0 =? "success")%string | None => false end).
  - destruct (sb_area_km2 b) as [area|]; [|apply Hcatch].
    cbn [fst]. split.
    + intros _. split; [|apply setupROI_finish_enabled].
      rewrite (proj2 (setupROI_finish_frame _ _)). frames. rewrite Hp. discriminate.
    + rewrite (proj1 (setupROI_finish_frame _ _)). frames. discriminate.
  - cbn [fst]. apply toggle_invariant_reset. frames. reflexivity.
Qed.

Lemma onToggleChange_keeps l r s : keeps_controls s (fst (onToggleChange l r s)).
Proof.
  unfold onToggleChange.
  assert (H1 : keeps_controls s (setToggleChecked l (negb (toggleChecked s l)) s))
    by same_controls.
  remember (setToggleChecked l (negb (toggleChecked s l)) s) as s1 eqn:Es1. clear Es1.
  apply (keeps_controls_trans _ s1); [exact H1|].
  destruct (toggleChecked s1 l); [|apply updateLayerVisibility_keeps].
  destruct l; cbn [negb fst];
    repeat match goal with
           | |- context [if ?c then _ else _] => destruct c; cbn [negb fst]
           end;
    first [ apply updateLayerVisibility_keeps | apply keeps_controls_refl
          | apply analyzeLayer_keeps ].
Qed.

Lemma handle_toggle_invariant e s s' x :
  toggle_invariant s -> handle e s = Some (s', x) -> toggle_invariant s'.
Proof.
  intros Hinv He.
  assert (Hfst : option_map fst (handle e s) = Some s') by (rewrite He; reflexivity).
  clear He. destruct e; cbn [handle] in Hfst.
  - injection Hfst as <-. unfold onCreated. apply setupROI_toggle_invariant.
    destruct Hinv as [H1 H2]. split; frames.
    + intros Hr. split; [discriminate|apply (H1 Hr)].
    + exact H2.
  - destruct (currentPolygon s) as [shape0|] eqn:Hp; [|discriminate].
    injection Hfst as <-. unfold onEdited. rewrite Hp. apply setupROI_toggle_invariant.
    destruct Hinv as [H1 H2]. split; frames.
    + intros Hr. split; [discriminate|apply (H1 Hr)].
    + exact H2.
  - destruct (currentPolygon s) as [shape|]; [|discriminate].
    injection Hfst as <-. unfold onDeleted. split; frames; [discriminate|].
    intros _ l. apply resetLayerStates_flags.
  - destruct (toggleDisabled s l) eqn:Hd; [discriminate|].
    injection Hfst as <-.
    assert (Hr : roiSetup s = true).
    { destruct (roiSetup s) eqn:Hr; [reflexivity|].
      destruct (proj2 Hinv Hr l) as (_ & _ & Hd'). congruence. }
    apply (toggle_invariant_keeps s); [exact Hr|exact Hinv|apply onToggleChange_keeps].
  - injection Hfst as <-. unfold handleDateChange.
    assert (H0 : toggle_invariant (set_startDate v s)) by (revert Hinv; same_toggles).
    destruct (roiSetup (set_startDate v s)) eqn:Hr.
    + apply (toggle_invariant_keeps (set_startDate v s));
        [exact Hr|exact H0|apply handleParameterChange_keeps].
    + unfold handleParameterChange. rewrite Hr. exact H0.
  - injection Hfst as <-. unfold handleDateChange.
    assert (H0 : toggle_invariant (set_endDate v s)) by (revert Hinv; same_toggles).
    destruct (roiSetup (set_endDate v s)) eqn:Hr.
    + apply (toggle_invariant_keeps (set_endDate v s));
        [exact Hr|exact H0|apply handleParameterChange_keeps].
    + unfold handleParameterChange. rewrite Hr. exact H0.
  - injection Hfst as <-. unfold handleResolutionChange.
    assert (H0 : toggle_invariant (set_resolutionSelect v s)) by (revert Hinv; same_toggles).
    destruct (roiSetup (set_resolutionSelect v s)) eqn:Hr.
    + apply (toggle_invariant_keeps (set_resolutionSelect v s));
        [exact Hr|exact H0|apply handleParameterChange_keeps].
    + unfold handleParameterChange. rewrite Hr. exact H0.
  - destruct (existsb (layer_eqb l) (pendingStats s)); [|discriminate].
    injection Hfst as <-. revert Hinv.
    apply toggle_invariant_same; unfold loadStatistics_reply; repeat break_match; frames;
      reflexivity.
Qed.

(** X2: every handler, run on its own from its first statement to its last,
    keeps the toggles in step with the ROI.  If before it a ROI that is
    established comes with a shape and with every toggle enabled, and a ROI
    that is not comes with no layer analyzed and every toggle unchecked and
    disabled, then the same holds after it, whatever the backend replied;
    and while there is no ROI no toggle reacts, so that [analyzeLayer] is
    not called from a toggle without a ROI. *)
Theorem toggles_follow_roi (e : event) (s s' : state) (x : option exn) :
  toggle_invariant s ->
  handle e s = Some (s', x) ->
  toggle_invariant s' /\
  (roiSetup s = false -> forall l r, handle (ToggleChanged l r) s = None).
Proof.
  intros Hinv He. split; [exact (handle_toggle_invariant e s s' x Hinv He)|].
  intros Hr l r. cbn [handle]. destruct (proj2 Hinv Hr l) as (_ & _ & ->). reflexivity.
Qed.

(** The page as [initializeApp] leaves it, then a shape drawn and set up. *)
Lemma toggles_follow_roi_witness :
  toggle_invariant
    (fst (onCreated triangle (setup_all_ok (dbl 12.3456)) (initializeApp blank_page))).
Proof.
  refine (proj1 (toggles_follow_roi
                   (Created triangle (setup_all_ok (dbl 12.3456)))
                   (initializeApp blank_page) _
                   (snd (onCreated triangle (setup_all_ok (dbl 12.3456))
                           (initializeApp blank_page))) _ _)).
  - split; [intros H; vm_compute in H; discriminate H|].
    intros _ l. destruct l; vm_compute; repeat split.
  - cbn [handle]. rewrite <- surjective_pairing. reflexivity.
Defined.

(** X3: without a ROI and with every toggle disabled (the page as
    [initializeApp], a failed setup and a deletion leave it), a handler
    other than the drawing or the editing of a shape, run on its own, asks
    nothing of the backend and leaves the ROI unestablished: the deletion
    of the shape, a change of a date or of the resolution, the arrival of
    statistics asked for earlier; a toggle does not react at all. *)
Theorem requests_wait_for_roi (s s' : state) (e : event) (x : option exn) :
  roiSetup s = false -> (forall l, toggleDisabled s l = true) ->
  is_drawing e = false ->
  handle e s = Some (s', x) ->
  fetched s' = fetched s /\ roiSetup s' = false /\
  (forall l r, e <> ToggleChanged l r).
Proof.
  intros Hr H2 Hd He.
  assert (Hfst : option_map fst (handle e s) = Some s') by (rewrite He; reflexivity).
  clear He. destruct e; cbn [handle is_drawing] in Hfst, Hd; try discriminate Hd.
  - destruct (currentPolygon s); [|discriminate].
    injection Hfst as <-. unfold onDeleted. split; [|split; [|intros; discriminate]]; frames.
    + unfold clearAllLayers. frames. reflexivity.
    + reflexivity.
  - rewrite (H2 l) in Hfst. discriminate.
  - injection Hfst as <-. unfold handleDateChange, handleParameterChange.
    assert (Hr' : roiSetup (set_startDate v s) = false) by (frames; exact Hr).
    rewrite Hr'. cbn [negb fst].
    split; [frames; reflexivity|split; [exact Hr'|intros; discriminate]].
  - injection Hfst as <-. unfold handleDateChange, handleParameterChange.
    assert (Hr' : roiSetup (set_endDate v s) = false) by (frames; exact Hr).
    rewrite Hr'. cbn [negb fst].
    split; [frames; reflexivity|split; [exact Hr'|intros; discriminate]].
  - injection Hfst as <-. unfold handleResolutionChange, handleParameterChange.
    assert (Hr' : roiSetup (set_resolutionSelect v s) = false) by (frames; exact Hr).
    rewrite Hr'. cbn [negb fst].
    split; [frames; reflexivity|split; [exact Hr'|intros; discriminate]].
  - destruct (existsb (layer_eqb l) (pendingStats s)); [|discriminate].
    injection Hfst as <-.
    split; [|split; [|intros; discriminate]];
      unfold loadStatistics_reply; repeat break_match; frames; first [reflexivity|exact Hr].
Qed.

Lemma requests_wait_for_roi_witness :
  fetched (fst (handleResolutionChange analysis_all_ok
                  (set_resolutionSelect "30" (initializeApp blank_page)))) =
  fetched (initializeApp blank_page).
Proof.
  refine (proj1 (requests_wait_for_roi (initializeApp blank_page) _
                   (ResolutionChanged "30" analysis_all_ok) None
                   _ _ eq_refl _)).
  - vm_compute. reflexivity.
  - intros l. destruct l; vm_compute; reflexivity.
  - vm_compute. reflexivity.
Defined.

(* ================================================================== *)
(** * A setup that fails *)

(** X4: a failed [setupROI] resets flags and toggles but does not touch what
    is displayed: the overlays on the map, the overlay and legend caches,
    the legend panel, the statistics panels and their content, and
    [currentActiveLayer] are all left as they were. *)
Theorem setupROI_failure_keeps_display (r : setup_replies) (s : state) :
  setup_succeeded (sr_setup r) = false ->
  let s' := fst (setupROI r s) in
  mapLayers s' = mapLayers s /\ analysisLayers s' = analysisLayers s /\
  legendData s' = legendData s /\ legendHtml s' = legendHtml s /\
  legendDisplay s' = legendDisplay s /\ panelActive s' = panelActive s /\
  statsContent s' = statsContent s /\ currentActiveLayer s' = currentActiveLayer s.
Proof.
  intros Hfail. cbv zeta. unfold setupROI.
  destruct (currentPolygon s) as [shape|]; [|repeat split; reflexivity].
  unfold try_catch, setupROI_try, setupROI_catch.
  destruct (sr_setup r) as [e|[|] st [b|e]]; cbn [fst];
    try (repeat split; frames; reflexivity).
  cbn [setup_succeeded] in Hfail. unfold is_success in Hfail.
  destruct (match sb_status b with Some st0 => (st0 =? "success")%string | None => false end);
    [destruct (sb_area_km2 b); [discriminate Hfail|]|];
    cbn [fst]; repeat split; frames; reflexivity.
Qed.

Lemma setupROI_failure_keeps_display_witness :
  let s' := fst (setupROI (setup_failing "GEE quota exceeded") soil_shown) in
  mapLayers s' = [0; 1] /\ panelActive s' soil = true /\
  (forall l, toggleChecked s' l = false).
Proof.
  assert (H : setup_succeeded (sr_setup (setup_failing "GEE quota exceeded")) = false)
    by reflexivity.
  destruct (setupROI_failure_keeps_display (setup_failing "GEE quota exceeded") soil_shown H)
    as (Hm & _ & _ & _ & _ & Hp & _).
  cbv zeta. rewrite Hm, Hp.
  split; [vm_compute; reflexivity|]. split; [vm_compute; reflexivity|].
  intros l. destruct l; vm_compute; reflexivity.
Defined.

(* ================================================================== *)
(** * Showing a layer *)

Lemma filter_absent k l :
  existsb (Nat.eqb k) l = false -> filter (fun x => negb (Nat.eqb k x)) l = l.
Proof.
  induction l as [|y l IH]; cbn [existsb filter]; [reflexivity|].
  intros H. apply orb_false_iff in H. destruct H as [H1 H2].
  rewrite H1. cbn [negb]. rewrite IH by exact H2. reflexivity.
Qed.

Lemma existsb_filtered k l :
  existsb (Nat.eqb k) (filter (fun x => negb (Nat.eqb k x)) l) = false.
Proof.
  induction l as [|y l IH]; cbn [existsb filter]; [reflexivity|].
  destruct (Nat.eqb k y) eqn:E; cbn [negb]; [exact IH|].
  cbn [existsb]. rewrite E, IH. reflexivity.
Qed.

Lemma detachOverlay_mapLayers L t s :
  analysisLayers s L = Some t ->
  mapLayers (detachOverlay L s) = filter (fun k => negb (Nat.eqb (stamp t) k)) (mapLayers s).
Proof.
  intros Ht. unfold detachOverlay. rewrite Ht. unfold hasLayer.
  destruct (existsb (Nat.eqb (stamp t)) (mapLayers s)) eqn:E.
  - reflexivity.
  - symmetry. apply filter_absent, E.
Qed.

(** X5: [updateLayerVisibility(L, true)] for an analyzed layer whose overlay is
    cached, whatever its toggle says: the overlay is taken off the map and
    put back on top, once, and the other overlays stay where they are; the
    item of L is marked active, L is the active layer and its statistics
    panel the only one displayed, its statistics are requested and nothing
    else; the legend of L is shown when it is cached under the key of L,
    and the legend panel is left as it was otherwise. *)
Theorem updateLayerVisibility_show (L : layer) (t : tile_layer) (s : state) :
  analysisLayers s L = Some t -> layersAnalyzed s L = true ->
  let s' := updateLayerVisibility L true s in
  mapLayers s' =
    (filter (fun k => negb (Nat.eqb (stamp t) k)) (mapLayers s) ++ [stamp t])%list /\
  itemActive s' L = true /\ currentActiveLayer s' = L /\
  (forall l, panelActive s' l = layer_eqb l L) /\
  issued s s' [GetStatistics L] /\
  match legendData s L with
  | Some lg =>
      match legendInfo_of L lg with
      | Some legendInfo =>
          legendHtml s' = legend_html legendInfo /\ legendDisplay s' = "block"
      | None => legendHtml s' = legendHtml s /\ legendDisplay s' = legendDisplay s
      end
  | None => legendHtml s' = legendHtml s /\ legendDisplay s' = legendDisplay s
  end.
Proof.
  intros Ht Ha. cbv zeta.
  assert (Htarget : activation_target L true s = Some L).
  { unfold activation_target. rewrite Ht, Ha. reflexivity. }
  pose proof (updateLayerVisibility_issued L true s) as Hi.
  pose proof (updateLayerVisibility_current L true s) as Hcur.
  pose proof (updateLayerVisibility_panel L true s) as Hpan.
  rewrite Htarget in Hi, Hcur, Hpan.
  assert (Hbody : updateLayerVisibility L true s =
    keepForestEnabled
      (setActiveLayer L
         (showCachedLegend L
            (setItemActive L true (addTo t (setItemActive L false (detachOverlay L s))))))).
  { unfold updateLayerVisibility.
    destruct (updateLayerVisibility_scrutinee L s) as (Hs & Hl & _). cbv zeta in *.
    rewrite Hs, Hl, Ht, Ha. reflexivity. }
  split.
  { rewrite Hbody. frames. unfold addTo.
    assert (Hh : hasLayer t (setItemActive L false (detachOverlay L s)) = false).
    { unfold hasLayer. frames. rewrite (detachOverlay_mapLayers L t s Ht).
      apply existsb_filtered. }
    rewrite Hh. frames. rewrite (detachOverlay_mapLayers L t s Ht). reflexivity. }
  split.
  { rewrite Hbody. unfold setItemActive. frames. apply upd_same. }
  split; [exact Hcur|].
  split.
  { intros l. rewrite Hpan. unfold upd. destruct (layer_eqb l L); reflexivity. }
  split; [exact Hi|].
  rewrite Hbody. unfold showCachedLegend.
  assert (Hd : legendData (setItemActive L true (addTo t (setItemActive L false
                 (detachOverlay L s)))) = legendData s) by (frames; reflexivity).
  assert (Hh : legendHtml (setItemActive L true (addTo t (setItemActive L false
                 (detachOverlay L s)))) = legendHtml s) by (frames; reflexivity).
  assert (Hp : legendDisplay (setItemActive L true (addTo t (setItemActive L false
                 (detachOverlay L s)))) = legendDisplay s) by (frames; reflexivity).
  remember (setItemActive L true (addTo t (setItemActive L false (detachOverlay L s))))
    as s3 eqn:Es3. clear Es3.
  rewrite Hd. destruct (legendData s L) as [lg|]; [destruct (legendInfo_of L lg)|];
    unfold showMapLegend; frames; auto.
Qed.

Lemma updateLayerVisibility_show_witness :
  mapLayers (updateLayerVisibility forest true soil_shown) = [1; 0] /\
  currentActiveLayer (updateLayerVisibility forest true soil_shown) = forest.
Proof.
  destruct (updateLayerVisibility_show forest
              {| stamp := 0; url_template := tiles_of forest;
                 attribution := "Google Earth Engine - Forest Analysis" |}
              soil_shown)
    as (Hm & _ & Hc & _); [vm_compute; reflexivity .. |].
  split; [rewrite Hm; vm_compute; reflexivity|exact Hc].
Defined.

(** X6: when no overlay is cached for L (its tile request failed or was
    refused) or L is not analyzed, [updateLayerVisibility(L, true)] does
    exactly what [updateLayerVisibility(L, false)] does. *)
Theorem updateLayerVisibility_show_without_overlay (L : layer) (s : state) :
  analysisLayers s L = None \/ layersAnalyzed s L = false ->
  updateLayerVisibility L true s = updateLayerVisibility L false s.
Proof.
  intros H. unfold updateLayerVisibility.
  destruct (updateLayerVisibility_scrutinee L s) as (Hs & Hl & _). cbv zeta in *.
  rewrite Hs, Hl.
  destruct H as [H|H]; rewrite H; [reflexivity|].
  destruct (analysisLayers s L); reflexivity.
Qed.

Lemma updateLayerVisibility_show_without_overlay_witness :
  updateLayerVisibility wetland true after_setup =
  updateLayerVisibility wetland false after_setup.
Proof.
  apply (updateLayerVisibility_show_without_overlay wetland after_setup).
  left. vm_compute. reflexivity.
Defined.

(* ================================================================== *)
(** * Toggle listeners and parameter changes *)

Lemma analysis_requests_target o :
  analysis_requests match o with Some x => [GetStatistics x] | None => [] end = [].
Proof. destruct o; reflexivity. Qed.

(** X7: the listeners of the toggles: unchecking a box never starts an
    analysis, and the listener of the forest toggle never starts one either
    way; such a click changes no analysis flag, throws nothing, and sends at
    most a statistics request. *)
Theorem onToggleChange_without_analysis (l : layer) (r : analysis_replies) (s : state) :
  toggleChecked s l = true \/ l = forest ->
  let s' := fst (onToggleChange l r s) in
  snd (onToggleChange l r s) = None /\
  layersAnalyzed s' = layersAnalyzed s /\
  exists qs, issued s s' qs /\ analysis_requests qs = [].
Proof.
  intros H. cbv zeta. unfold onToggleChange.
  assert (Hc1 : toggleChecked (setToggleChecked l (negb (toggleChecked s l)) s) l
                = negb (toggleChecked s l)).
  { unfold setToggleChecked. frames. apply upd_same. }
  assert (Ha1 : layersAnalyzed (setToggleChecked l (negb (toggleChecked s l)) s)
                = layersAnalyzed s) by (frames; reflexivity).
  assert (Hf1 : fetched (setToggleChecked l (negb (toggleChecked s l)) s) = fetched s)
    by (frames; reflexivity).
  remember (setToggleChecked l (negb (toggleChecked s l)) s) as s1 eqn:Es1. clear Es1.
  assert (Hulv : forall v,
    layersAnalyzed (updateLayerVisibility l v s1) = layersAnalyzed s /\
    exists qs, issued s (updateLayerVisibility l v s1) qs /\ analysis_requests qs = []).
  { intros v. split; [frames; exact Ha1|]. eexists. split.
    - unfold issued. rewrite <- Hf1. apply (updateLayerVisibility_issued l v s1).
    - apply analysis_requests_target. }
  assert (Hsame : layersAnalyzed s1 = layersAnalyzed s /\
                  exists qs, issued s s1 qs /\ analysis_requests qs = []).
  { split; [exact Ha1|]. exists []. split; [|reflexivity].
    unfold issued. rewrite Hf1, app_nil_r. reflexivity. }
  destruct H as [H| ->].
  - rewrite Hc1, H. cbn [negb fst snd]. split; [reflexivity|apply Hulv].
  - destruct (toggleChecked s1 forest); [destruct (layersAnalyzed s1 forest)|];
      cbn [fst snd]; (split; [reflexivity|]); first [apply Hulv|exact Hsame].
Qed.

Lemma onToggleChange_without_analysis_witness :
  exists qs,
    issued soil_shown (fst (onToggleChange soil (analysis_all_ok soil) soil_shown)) qs /\
    analysis_requests qs = [].
Proof.
  assert (H : toggleChecked soil_shown soil = true) by (vm_compute; reflexivity).
  exact (proj2 (proj2 (onToggleChange_without_analysis soil (analysis_all_ok soil)
                         soil_shown (or_introl H)))).
Defined.






(* ================================================================== *)
(** * An analysis that succeeds *)

(** X9: when [analyzeLayer(L, isReanalysis)] is answered 2xx with status
    "success": nothing is thrown, L is marked analyzed and no other flag
    changes, the toggles stay as they are, the status line of L reads
    "Analyzed", its "analyzing" mark is gone and the status reports the
    completion.  After the analysis request come the requests for the tiles
    and the legend of L.  If the toggle of L is unchecked that is all; if it
    is checked, L becomes the active layer with its statistics panel the
    only one displayed, and statistics are requested twice: once by
    [updateLayerVisibility] for the layer it activates (L itself when an
    overlay is cached for L), and once more for L by the [setActiveLayer]
    that follows. *)
Theorem analyzeLayer_success
    (L : layer) (isReanalysis : bool) (r : analysis_replies) (s : state)
    (st : Z) (b : analyze_body) :
  roiSetup s = true ->
  layersAnalyzed s L && negb isReanalysis = false ->
  ar_analyze r = Response true st (Ok b) ->
  ab_status b = Some "success" ->
  let s' := fst (analyzeLayer L isReanalysis r s) in
  snd (analyzeLayer L isReanalysis r s) = None /\
  (forall l, layersAnalyzed s' l = if layer_eqb l L then true else layersAnalyzed s l) /\
  toggleChecked s' = toggleChecked s /\
  layerStatus s' L = "Analyzed" /\ itemAnalyzing s' L = false /\
  statusContainer s' =
    status_markup "success"
      (layer_name L ++ (if isReanalysis then " re-analysis completed!"
                        else " analysis completed!")) /\
  (toggleChecked s L = false ->
   issued s s' [analysis_request_of s L; GetMapUrl L; GetLegend L]) /\
  (toggleChecked s L = true ->
   currentActiveLayer s' = L /\
   (forall l, panelActive s' l = layer_eqb l L) /\
   exists x,
     issued s s' [analysis_request_of s L; GetMapUrl L; GetLegend L;
                  GetStatistics x; GetStatistics L] /\
     (analysisLayers s' L <> None -> x = L)).
Proof.
  intros Hr Ha Hreply Hst. cbv zeta.
  split; [apply analyzeLayer_no_throw|].
  rewrite analyzeLayer_runs by assumption.
  unfold try_catch, analyzeLayer_try. rewrite Hreply, Hst.
  cbn [String.eqb Ascii.eqb Bool.eqb fst snd].
  unfold analyzeLayer_succeed.
  set (q := PostAnalyzeLayer _ _ _ _).
  assert (Hq : q = analysis_request_of s L).
  { subst q. unfold analysis_request_of, resolution_or. frames. reflexivity. }
  set (X := setItemActive L true _).
  assert (HXa : layersAnalyzed X = upd (layersAnalyzed s) L true)
    by (subst X; unfold markAnalyzed; frames; reflexivity).
  assert (HXc : toggleChecked X = toggleChecked s) by (subst X; frames; reflexivity).
  assert (HXs : layerStatus X L = "Analyzed")
    by (subst X; unfold updateLayerStatus; frames; apply upd_same).
  assert (HXz : itemAnalyzing X L = false)
    by (subst X; unfold setItemAnalyzing; frames; apply upd_same).
  assert (HXm : statusContainer X =
                status_markup "success"
                  (layer_name L ++ (if isReanalysis then " re-analysis completed!"
                                    else " analysis completed!")))
    by (subst X; frames; reflexivity).
  assert (HXf : fetched X = (fetched s ++ [q; GetMapUrl L; GetLegend L])%list).
  { subst X. frames. rewrite loadLayerData_fetched. frames. rewrite fetch_fetched. frames.
    rewrite <- app_assoc. reflexivity. }
  clearbody X q. subst q.
  rewrite HXc.
  destruct (toggleChecked s L) eqn:Hc.
  - assert (Hvis : visible X L = true).
    { unfold visible. rewrite HXc, Hc, HXa, upd_same. reflexivity. }
    destruct (activation_target_visible L X Hvis) as [x Hx].
    pose proof (updateLayerVisibility_issued L true X) as Hi. rewrite Hx in Hi.
    assert (HUa : layersAnalyzed (updateLayerVisibility L true X) = layersAnalyzed X)
      by (frames; reflexivity).
    split.
    { intros l. frames. rewrite HXa. reflexivity. }
    split; [frames; exact HXc|].
    split; [frames; exact HXs|]. split; [frames; exact HXz|]. split; [frames; exact HXm|].
    split; [discriminate|]. intros _.
    split; [apply setActiveLayer_current|].
    split.
    { intros l. rewrite setActiveLayer_panel, HUa, HXa, upd_same. unfold upd.
      destruct (layer_eqb l L); reflexivity. }
    exists x. split.
    + unfold issued in *. rewrite setActiveLayer_fetched, HUa, HXa, upd_same, Hi, HXf.
      rewrite <- !app_assoc. reflexivity.
    + frames. intros Hcached. unfold activation_target in Hx.
      destruct (analysisLayers X L); [|contradiction].
      rewrite HXa, upd_same in Hx. congruence.
  - split; [intros l; rewrite HXa; reflexivity|].
    split; [exact HXc|]. split; [exact HXs|]. split; [exact HXz|]. split; [exact HXm|].
    split; [intros _; exact HXf|discriminate].
Qed.

Lemma analyzeLayer_success_witness :
  exists x,
    issued wetland_checked
      (fst (analyzeLayer wetland false (analysis_all_ok wetland) wetland_checked))
      [analysis_request_of wetland_checked wetland; GetMapUrl wetland; GetLegend wetland;
       GetStatistics x; GetStatistics wetland].
Proof.
  assert (H1 : roiSetup wetland_checked = true) by (vm_compute; reflexivity).
  assert (H2 : layersAnalyzed wetland_checked wetland && negb false = false)
    by (vm_compute; reflexivity).
  assert (H3 : toggleChecked wetland_checked wetland = true) by (vm_compute; reflexivity).
  destruct (analyzeLayer_success wetland false (analysis_all_ok wetland) wetland_checked
              200%Z {| ab_status := Some "success"; ab_detail := None |}
              H1 H2 eq_refl eq_refl)
    as (_ & _ & _ & _ & _ & _ & _ & H).
  destruct (H H3) as (_ & _ & x & Hx & _).
  exists x. exact Hx.
Defined.
(* ================================================================== *)
(** * Records of numbers always render *)

Lemma all_numbers_assoc m k :
  all_numbers m = true -> assoc k m = None \/ exists q, assoc k m = Some (JNum q).
Proof.
  unfold all_numbers. induction m as [|[k' v] rest IH]; cbn [forallb assoc snd]; [auto|].
  intros H. apply andb_true_iff in H. destruct H as [Hv Hrest].
  destruct (String.eqb k k'); [|apply IH, Hrest].
  destruct v; try discriminate Hv. right. eexists. reflexivity.
Qed.

Lemma run_blocks_ok blocks : forall content,
  Forall (fun b => exists x, b = Ok x) blocks ->
  exists out, run_blocks content blocks = Ok out.
Proof.
  induction blocks as [|b rest IH]; intros content H; cbn [run_blocks].
  - eexists. reflexivity.
  - inversion H as [|? ? [x ->] Hrest]; subst. apply IH, Hrest.
Qed.

(** A block guarded by the truthiness of a member of a record of numbers
    returns when its body returns on every number. *)
Lemma field_truthy_number m k body :
  all_numbers m = true ->
  (forall q, exists x, body (JNum q) = Ok x) ->
  exists x, field_truthy (JObj m) k body = Ok x.
Proof.
  intros Hm Hbody. unfold field_truthy, when_truthy. cbn [prop bind].
  destruct (all_numbers_assoc m k Hm) as [->|[q ->]]; cbn [if_truthy].
  - eexists. reflexivity.
  - destruct (truthy (JNum q)); [apply Hbody|eexists; reflexivity].
Qed.

Lemma field_defined_number m k body :
  all_numbers m = true ->
  (forall q, exists x, body (JNum q) = Ok x) ->
  exists x, field_defined (JObj m) k body = Ok x.
Proof.
  intros Hm Hbody. unfold field_defined, when_defined. cbn [prop bind].
  destruct (all_numbers_assoc m k Hm) as [->|[q ->]]; [eexists; reflexivity|apply Hbody].
Qed.

(** A body that only reads members of its argument skips a number. *)
Ltac number_body := intros ?q; eexists; reflexivity.

Ltac number_blocks Hm :=
  apply run_blocks_ok;
  repeat (apply Forall_cons; [first
    [ apply (field_truthy_number _ _ _ Hm); number_body
    | apply (field_defined_number _ _ _ Hm); number_body ]|]);
  try apply Forall_nil.

Lemma displayForestStatistics_number m :
  all_numbers m = true -> exists html, displayForestStatistics (JObj m) = Ok html.
Proof.
  intros Hm. unfold displayForestStatistics.
  destruct (negb (truthy (JObj m)) || negb (has_keys (JObj m))); [eexists; reflexivity|].
  number_blocks Hm.
Qed.

Lemma displayWetlandStatistics_number m :
  all_numbers m = true -> exists html, displayWetlandStatistics (JObj m) = Ok html.
Proof.
  intros Hm. unfold displayWetlandStatistics.
  destruct (negb (truthy (JObj m)) || negb (has_keys (JObj m))); [eexists; reflexivity|].
  apply run_blocks_ok. apply Forall_cons.
  { cbn [prop bind]. unfold when_truthy, js_or.
    destruct (all_numbers_assoc m "roi_area_km2" Hm) as [->|[q ->]]; cbn [if_truthy].
    - destruct (all_numbers_assoc m "area_km2" Hm) as [->|[q ->]]; cbn [if_truthy];
        [|destruct (truthy (JNum q))]; eexists; reflexivity.
    - destruct (truthy (JNum q)) eqn:E; cbn [if_truthy]; [rewrite E; eexists; reflexivity|].
      destruct (all_numbers_assoc m "area_km2" Hm) as [->|[q' ->]]; cbn [if_truthy];
        [|destruct (truthy (JNum q'))]; eexists; reflexivity. }
  repeat (apply Forall_cons; [apply (field_truthy_number _ _ _ Hm); number_body|]).
  apply Forall_nil.
Qed.

Lemma displayTundraStatistics_number m :
  all_numbers m = true -> exists html, displayTundraStatistics (JObj m) = Ok html.
Proof.
  intros Hm. unfold displayTundraStatistics.
  apply run_blocks_ok.
  do 2 (apply Forall_cons; [apply (field_truthy_number _ _ _ Hm); number_body|]).
  apply Forall_cons.
  { cbn [prop bind].
    destruct (all_numbers_assoc m "total_tundra_area_km2" Hm) as [->|[t ->]];
      [eexists; reflexivity|].
    destruct (all_numbers_assoc m "tundra_coverage_percent" Hm) as [->|[c ->]];
      [eexists; reflexivity|].
    apply run_blocks_ok.
    do 2 (apply Forall_cons; [eexists; reflexivity|]).
    apply Forall_cons; [apply (field_truthy_number _ _ _ Hm); number_body|apply Forall_nil]. }
  repeat (apply Forall_cons; [apply (field_truthy_number _ _ _ Hm); number_body|]).
  apply Forall_nil.
Qed.

Lemma displayGrasslandStatistics_number m :
  all_numbers m = true -> exists html, displayGrasslandStatistics (JObj m) = Ok html.
Proof.
  intros Hm. unfold displayGrasslandStatistics, grassland_field. number_blocks Hm.
Qed.

Lemma displayAlgalBloomsStatistics_number m :
  all_numbers m = true -> exists html, displayAlgalBloomsStatistics (JObj m) = Ok html.
Proof. intros Hm. unfold displayAlgalBloomsStatistics. number_blocks Hm. Qed.

Lemma displaySoilStatistics_number m :
  all_numbers m = true -> exists html, displaySoilStatistics (JObj m) = Ok html.
Proof. intros Hm. unfold displaySoilStatistics. number_blocks Hm. Qed.

Lemma displayChlorophyllStatistics_number m :
  all_numbers m = true -> exists html, displayChlorophyllStatistics (JObj m) = Ok html.
Proof.
  intros Hm. unfold displayChlorophyllStatistics.
  apply run_blocks_ok.
  do 10 (apply Forall_cons; [first
    [ apply (field_truthy_number _ _ _ Hm); number_body
    | apply (field_defined_number _ _ _ Hm); number_body ]|]).
  apply Forall_cons; [|apply Forall_nil].
  apply (field_truthy_number _ _ _ Hm). intros q. apply run_blocks_ok.
  apply Forall_cons; [apply (field_truthy_number _ _ _ Hm); number_body|apply Forall_nil].
Qed.

(** X15: every per-layer formatter returns, without throwing, on a record
    all of whose members are numbers, zeros included: a zero is either
    skipped by a truthiness test or printed by [toFixed], and a section that
    expects a nested record finds no member in a number. *)
Theorem numeric_record_renders (L : layer) (m : list (string * json)) :
  all_numbers m = true ->
  exists html, displayStatistics L (JObj m) = Ok html.
Proof.
  intros Hm. unfold displayStatistics. cbn [truthy].
  destruct L.
  - apply displayForestStatistics_number, Hm.
  - apply displayWetlandStatistics_number, Hm.
  - apply displayTundraStatistics_number, Hm.
  - apply displayGrasslandStatistics_number, Hm.
  - apply displayAlgalBloomsStatistics_number, Hm.
  - apply displaySoilStatistics_number, Hm.
  - apply displayChlorophyllStatistics_number, Hm.
Qed.

Lemma numeric_record_renders_witness :
  exists html,
    displayStatistics tundra
      (JObj [ ("total_tundra_area_km2", JNum (dbl 0)); ("tundra_coverage_percent", JNum (dbl 0));
              ("roi_area_km2", JNum (dbl 4)) ]) = Ok html.
Proof.
  apply (numeric_record_renders tundra
           [ ("total_tundra_area_km2", JNum (dbl 0)); ("tundra_coverage_percent", JNum (dbl 0));
             ("roi_area_km2", JNum (dbl 4)) ]).
  reflexivity.
Defined.

(* ================================================================== *)
(** * A wetland that starts from nothing *)

Lemma hundred : dbl 100 = S754_finite false 7036874417766400 (-46).
Proof. vm_compute. reflexivity. Qed.

(** X19: the percent change of the wetland formatter divides by the start
    area without a guard.  When the start area is a zero the row is still
    rendered; the start reads "0.00", the difference reads as the end area
    does, and the percent reads "NaN" for an end area that is a zero or
    NaN, and "Infinity" or "-Infinity" for any other, negative when exactly
    one of the end area and the zero is negative. *)
Theorem wetland_change_from_zero
    (change : list (string * json)) (sy ey : json) (startArea endArea : number)
    (z : bool) (more : list json) :
  assoc "start_year" change = Some sy -> truthy sy = true ->
  assoc "end_year" change = Some ey -> truthy ey = true ->
  assoc "wetland_area_ha" change = Some (JArr (JNum startArea :: JNum endArea :: more)) ->
  startArea = S754_zero z ->
  wetland_change_row (JObj change) =
  Ok (stat_item "Wetland Area (ha):"
        ("0.00 ha (" ++ to_string sy ++ ") → " ++
         number_toFixed endArea 2 ++ " ha (" ++ to_string ey ++ ") → " ++
         number_toFixed endArea 2 ++ " ha (" ++
         match endArea with
         | S754_zero _ | S754_nan => "NaN"
         | S754_infinity sign | S754_finite sign _ _ =>
             if xorb sign z then "-Infinity" else "Infinity"
         end ++ "%)")).
Proof.
  intros Hsy Tsy Hey Tey Harea ->.
  unfold wetland_change_row. cbn [prop bind]. rewrite Hsy, Hey, Harea.
  cbn [if_truthy truthy]. rewrite Tsy, Tey.
  cbn [index nth_error number_receiver bind]. rewrite hundred.
  unfold js_sub, js_div, js_mul.
  destruct endArea as [e| e | | e m ex]; destruct z; try destruct e;
    cbn [SFsub SFdiv SFmul xorb negb number_toFixed number_to_string]; reflexivity.
Qed.

Lemma wetland_change_from_zero_witness :
  wetland_change_row
    (JObj [ ("start_year", JNum (dbl 2020)); ("end_year", JNum (dbl 2023));
            ("wetland_area_ha", JArr [JNum (dbl 0); JNum (dbl 120)]) ]) =
  Ok (stat_item "Wetland Area (ha):"
        "0.00 ha (2020) → 120.00 ha (2023) → 120.00 ha (Infinity%)").
Proof.
  rewrite (wetland_change_from_zero
             [ ("start_year", JNum (dbl 2020)); ("end_year", JNum (dbl 2023));
               ("wetland_area_ha", JArr [JNum (dbl 0); JNum (dbl 120)]) ]
             (JNum (dbl 2020)) (JNum (dbl 2023)) (dbl 0) (dbl 120) false []
             eq_refl eq_refl eq_refl eq_refl eq_refl eq_refl).
  vm_compute. reflexivity.
Defined.

(** The same from a negative zero, as the backend may send it. *)
Example wetland_change_from_negative_zero :
  wetland_change_row
    (JObj [ ("start_year", JNum (dbl 2020)); ("end_year", JNum (dbl 2023));
            ("wetland_area_ha", JArr [JNum (dbl (-0)); JNum (dbl 120)]) ]) =
  Ok (stat_item "Wetland Area (ha):"
        "0.00 ha (2020) → 120.00 ha (2023) → 120.00 ha (-Infinity%)").
Proof. vm_compute. reflexivity. Qed.
